(** * Asiter backend: the retrieval-augmented generation pipeline

    A shallow embedding of the TDR generator backend
    ([backend/app/db/models.py], [backend/app/db/chroma.py],
    [backend/app/services/embeddings.py], [backend/app/services/rag.py])
    and the properties of its specification.

    Modelling conventions.
    - A Python [str] is a list of Unicode code points ([str := list N]);
      slicing is [firstn]/[skipn], [len] is [length].
    - A Python [float] is a binary64 number, modelled by its value, a
      rational ([Q]); every operation rounds its exact result to the nearest
      binary64 number, ties to even.  Division by zero raises, as in
      Python.
    - Values of type [Any] are the values [json.loads] produces ([pyobj]); a
      [dict] is an association list in insertion order.
    - An exception is a value of [exn] carried by [result]; the functions of
      the Python runtime and of the libraries the service calls ([json.loads],
      [json.dumps], [repr], the vector store, the embedding model, the
      generator) are parameters of the development. *)

From Stdlib Require Import String Ascii ZArith NArith QArith Qabs Qround Qpower.
From Stdlib Require Import Lqa Lia Bool List.
From Stdlib Require SpecFloat.
Import ListNotations.

Set Implicit Arguments.
Set Warnings "-notation-for-abbreviation".

(* ================================================================== *)
(** * The Python runtime *)

Module Py.

(** ** Strings *)

Notation char := N (only parsing).
Notation str := (list N) (only parsing).

(** Decoding of the UTF-8 bytes of a literal of this file into code points. *)
Fixpoint utf8_decode (bs : list N) : str :=
  match bs with
  | [] => []
  | b :: rest =>
    if (b <? 128)%N then b :: utf8_decode rest
    else if (b <? 224)%N then
      match rest with
      | b1 :: rest1 =>
        (N.lor (N.shiftl (N.land b 31) 6) (N.land b1 63)) :: utf8_decode rest1
      | _ => b :: utf8_decode rest
      end
    else if (b <? 240)%N then
      match rest with
      | b1 :: b2 :: rest2 =>
        (N.lor (N.shiftl (N.land b 15) 12)
           (N.lor (N.shiftl (N.land b1 63) 6) (N.land b2 63))) :: utf8_decode rest2
      | _ => b :: utf8_decode rest
      end
    else
      match rest with
      | b1 :: b2 :: b3 :: rest3 =>
        (N.lor (N.shiftl (N.land b 7) 18)
           (N.lor (N.shiftl (N.land b1 63) 12)
              (N.lor (N.shiftl (N.land b2 63) 6) (N.land b3 63)))) :: utf8_decode rest3
      | _ => b :: utf8_decode rest
      end
  end.

(** [py "text"] is the Python string literal ["text"]. *)
Definition py (s : string) : str :=
  utf8_decode (map N_of_ascii (list_ascii_of_string s)).
Arguments py s%_string.

(** The double quote, the line feed and the backslash. *)
Definition dq : str := [34%N].
Definition nl : str := [10%N].
Definition backslash : str := [92%N].

Definition char_eqb (a b : char) : bool := N.eqb a b.

Fixpoint str_eqb (a b : str) : bool :=
  match a, b with
  | [], [] => true
  | x :: a', y :: b' => char_eqb x y && str_eqb a' b'
  | _, _ => false
  end.

(** [str.isspace] on one character: the code points Python's [str.strip()]
    removes when called without argument. *)
Definition isspace (c : char) : bool :=
  ((9 <=? c) && (c <=? 13) || (28 <=? c) && (c <=? 32)
   || (c =? 133) || (c =? 160) || (c =? 5760)
   || (8192 <=? c) && (c <=? 8202)
   || (c =? 8232) || (c =? 8233) || (c =? 8239) || (c =? 8287)
   || (c =? 12288))%N.

Fixpoint lstrip (s : str) : str :=
  match s with
  | [] => []
  | c :: s' => if isspace c then lstrip s' else s
  end.

Definition rstrip (s : str) : str := rev (lstrip (rev s)).

(** [s.strip()] *)
Definition strip (s : str) : str := rstrip (lstrip s).

(** [s.startswith(prefix)] *)
Fixpoint startswith (s prefix : str) : bool :=
  match prefix, s with
  | [], _ => true
  | p :: prefix', c :: s' => char_eqb c p && startswith s' prefix'
  | _ :: _, [] => false
  end.

(** [s.endswith(suffix)] *)
Definition endswith (s suffix : str) : bool :=
  startswith (rev s) (rev suffix).

(** [s[:n]], [s[n:]] and [s[:-n]] for a literal [n]. *)
Definition slice_to (n : nat) (s : str) : str := firstn n s.
Definition slice_from (n : nat) (s : str) : str := skipn n s.
Definition slice_to_minus (n : nat) (s : str) : str := firstn (length s - n) s.

(** [sep.join(parts)] *)
Fixpoint join (sep : str) (parts : list str) : str :=
  match parts with
  | [] => []
  | [p] => p
  | p :: rest => p ++ sep ++ join sep rest
  end.

(** Decimal digits of a natural number and of an integer ([str(n)]). *)
Fixpoint digits_of_uint (d : Decimal.uint) : str :=
  match d with
  | Decimal.Nil => []
  | Decimal.D0 d' => 48%N :: digits_of_uint d'
  | Decimal.D1 d' => 49%N :: digits_of_uint d'
  | Decimal.D2 d' => 50%N :: digits_of_uint d'
  | Decimal.D3 d' => 51%N :: digits_of_uint d'
  | Decimal.D4 d' => 52%N :: digits_of_uint d'
  | Decimal.D5 d' => 53%N :: digits_of_uint d'
  | Decimal.D6 d' => 54%N :: digits_of_uint d'
  | Decimal.D7 d' => 55%N :: digits_of_uint d'
  | Decimal.D8 d' => 56%N :: digits_of_uint d'
  | Decimal.D9 d' => 57%N :: digits_of_uint d'
  end.

Definition str_of_N (n : N) : str := digits_of_uint (N.to_uint n).

Definition str_of_Z (z : Z) : str :=
  if (z <? 0)%Z then 45%N :: str_of_N (Z.abs_N z) else str_of_N (Z.to_N z).

(** ** Exceptions *)

Inductive exn :=
| JSONDecodeError
| ValueError
| TypeError
| AttributeError
| IndexError
| ZeroDivisionError
| ValidationError   (* pydantic *)
| ServiceError.     (* a failure of an external service: store, generator *)

Inductive result (A : Type) :=
| Ok (a : A)
| Raise (e : exn).
Arguments Ok {A} a.
Arguments Raise {A} e.

Definition bind {A B} (r : result A) (k : A -> result B) : result B :=
  match r with
  | Ok a => k a
  | Raise e => Raise e
  end.

(** ** Floats

    A Python float is a binary64 number.  It is modelled by its value, a
    rational, and every operation rounds the exact result to the nearest
    binary64 number, ties to the even one, as IEEE 754 arithmetic does.
    Infinities and NaN are outside the model: the service adds [1] to a
    distance, divides [1] by the sum and averages similarities, none of which
    leaves the range of the finite numbers on the distances of a store, which
    are binary64 numbers themselves. *)

Notation float := Q (only parsing).

(** Rounding of a non-negative rational to the nearest integer, ties to the
    even one. *)
Definition round_half_even (q : Q) : Z :=
  let n := Qnum q in
  let d := Zpos (Qden q) in
  let fl := (n / d)%Z in
  let r := (n mod d)%Z in
  match (2 * r ?= d)%Z with
  | Lt => fl
  | Gt => (fl + 1)%Z
  | Eq => if Z.even fl then fl else (fl + 1)%Z
  end.

(** [2^e] *)
Definition pow2 (e : Z) : Q := Qpower 2 e.

(** The binary exponent of a positive rational: the [e] with
    [2^e <= q < 2^(e+1)]. *)
Definition ilog2 (q : Q) : Z :=
  let k := (Z.log2 (Qnum q) - Z.log2 (Zpos (Qden q)))%Z in
  if Qle_bool (pow2 k) q then k else (k - 1)%Z.

(** The exponent of the binary64 numbers next to [q]: that of [q] down to
    [-1022], the exponent of the subnormal numbers. *)
Definition exponent (q : Q) : Z := Z.max (ilog2 (Qabs q)) (-1022).

(** The gap between the binary64 numbers next to [q]: they have 53
    significant bits. *)
Definition ulp (q : Q) : Q := pow2 (exponent q - 52).

(** The binary64 number nearest to [q], the one with an even significand when
    two are as near. *)
Definition round64 (q : Q) : float :=
  if Qeq_bool q 0 then 0%Q
  else
    let u := ulp q in
    let m := round_half_even (Qred (Qabs q / u)) in
    Qred ((if Qlt_le_dec q 0 then -1 else 1) * (inject_Z m * u))%Q.

(** A decimal literal of the source, [0.3]: the binary64 number nearest to
    it. *)
Definition float_of_decimal (q : Q) : float := round64 q.

(** [float(n)], the conversion of an integer operand. *)
Definition float_of_int (n : Z) : float := round64 (inject_Z n).

(** [a + b] and [a / b] on floats, [b] not zero. *)
Definition fadd (a b : float) : float := round64 (a + b)%Q.
Definition fdiv (a b : float) : float := round64 (a / b)%Q.

(** [a / b] *)
Definition truediv (a b : float) : result float :=
  if Qeq_bool b 0 then Raise ZeroDivisionError else Ok (fdiv a b).

(** [sum(xs)]: the accumulator starts at [0] and the items are added from the
    left, each addition rounded.  (CPython from 3.12 on carries besides a
    correction term for the rounding errors of a sum of floats, which brings
    its result nearer to the exact sum; the additions here are the plain
    ones.) *)
Definition sum (xs : list float) : float := fold_left fadd xs 0%Q.

(** ** The operations against the Standard Library's IEEE 754

    [SpecFloat] defines the operations of binary64 on signs, significands and
    exponents.  [SF2Q] gives the value of one of its finite numbers and
    [Q2SF] the number of a value; the operations above are compared with
    [SpecFloat]'s on the samples below. *)
Definition SF2Q (x : SpecFloat.spec_float) : option Q :=
  match x with
  | SpecFloat.S754_zero _ => Some 0%Q
  | SpecFloat.S754_finite s m e =>
    Some (Qred ((if s then -1 else 1) * (inject_Z (Zpos m) * pow2 e))%Q)
  | _ => None
  end.

Definition Q2SF (q : Q) : SpecFloat.spec_float :=
  SpecFloat.binary_normalize 53 1024 (Qnum q) (- Z.log2 (Zpos (Qden q))) false.

Definition agrees (x : SpecFloat.spec_float) (q : Q) : bool :=
  match SF2Q x with
  | Some v => Qeq_bool v q
  | None => false
  end.

Definition float_samples : list float :=
  map round64
    [ 0; 1; 2; 3; 10; 1 # 3; 1 # 10; 3 # 10; 11 # 6; 3 # 2; 100000000000000001;
      9007199254740992; 9007199254740993; 9007199254740995;
      pow2 (-60); pow2 (-58); pow2 (-53); 1 + pow2 (-52); 1 + pow2 (-53);
      -1; - (1 # 2); -3; - (1 # 3); -1 + pow2 (-53) ]%Q.

Definition float_extremes : list float :=
  map round64
    [ pow2 (-1074); 3 * pow2 (-1074); pow2 (-1022); pow2 (-1022) - pow2 (-1074);
      pow2 900; - pow2 (-1074); - pow2 900 ]%Q.

Definition two_digits (n : Z) : str :=
  if (n <? 10)%Z then 48%N :: str_of_Z n else str_of_Z n.

(** [f"{q:.2f}"] *)
Definition format_2f (q : float) : str :=
  let h := round_half_even (Qabs q * 100) in
  (if Qlt_le_dec q 0 then [45%N] else [])
    ++ str_of_Z (h / 100) ++ [46%N] ++ two_digits (h mod 100).

(** ** Values *)

#[local] Set Warnings "-register-all".

(** The values the service handles under the type [Any]: what [json.loads]
    returns. *)
Inductive pyobj :=
| PyNone
| PyBool (b : bool)
| PyInt (z : Z)
| PyFloat (q : float)
| PyStr (s : str)
| PyList (l : list pyobj)
| PyDict (d : list (str * pyobj)).

Notation dict := (list (list N * pyobj)) (only parsing).

(** [bool(v)], the test of [if v:]. *)
Definition truthy (v : pyobj) : bool :=
  match v with
  | PyNone => false
  | PyBool b => b
  | PyInt z => negb (z =? 0)%Z
  | PyFloat q => negb (Qeq_bool q 0)
  | PyStr s => match s with [] => false | _ => true end
  | PyList l => match l with [] => false | _ => true end
  | PyDict d => match d with [] => false | _ => true end
  end.

(** [d.get(k)] / [k in d] *)
Fixpoint dict_get (d : dict) (k : str) : option pyobj :=
  match d with
  | [] => None
  | (k', v) :: d' => if str_eqb k' k then Some v else dict_get d' k
  end.

Definition dict_contains (d : dict) (k : str) : bool :=
  match dict_get d k with Some _ => true | None => false end.

(** [d.get(k, default)] *)
Definition dict_get_default (d : dict) (k : str) (default : pyobj) : pyobj :=
  match dict_get d k with Some v => v | None => default end.

(** [d[k] = v]: a present key keeps its position. *)
Fixpoint dict_set (d : dict) (k : str) (v : pyobj) : dict :=
  match d with
  | [] => [(k, v)]
  | (k', v') :: d' =>
    if str_eqb k' k then (k', v) :: d' else (k', v') :: dict_set d' k v
  end.

(** The functions of the runtime the service calls and this development takes
    as given. *)
Class Runtime := {
  (** [json.loads(s)]; [None] stands for [json.JSONDecodeError]. *)
  json_loads : str -> option pyobj;
  (** [json.dumps(v, ensure_ascii=False)] *)
  json_dumps : pyobj -> str;
  (** [repr(v)], used by [str] on floats, lists and dicts. *)
  py_repr : pyobj -> str
}.

(** [str(v)] *)
Definition py_str `{Runtime} (v : pyobj) : str :=
  match v with
  | PyNone => py "None"
  | PyBool true => py "True"
  | PyBool false => py "False"
  | PyInt z => str_of_Z z
  | PyStr s => s
  | PyFloat _ | PyList _ | PyDict _ => py_repr v
  end.

End Py.
Export Py.

Notation "x <- c1 ;; c2" := (Py.bind c1 (fun x => c2))
  (at level 61, c1 at next level, right associativity).

(* ================================================================== *)
(** * [backend/app/db/models.py] *)

Module Models.

(** [class TdrTipo(str, Enum)] *)
Inductive TdrTipo := BIEN | OBRA | CONSULTORIA_OBRA | SERVICIO.

(** [tipo.value] *)
Definition value (t : TdrTipo) : str :=
  match t with
  | BIEN => py "BIEN"
  | OBRA => py "OBRA"
  | CONSULTORIA_OBRA => py "CONSULTORIA_OBRA"
  | SERVICIO => py "SERVICIO"
  end.

(** [TdrTipo(v)]: the member whose value is [v], [ValueError] when there is
    none. *)
Definition TdrTipo_of (v : pyobj) : result TdrTipo :=
  match v with
  | PyStr s =>
    if str_eqb s (py "BIEN") then Ok BIEN
    else if str_eqb s (py "OBRA") then Ok OBRA
    else if str_eqb s (py "CONSULTORIA_OBRA") then Ok CONSULTORIA_OBRA
    else if str_eqb s (py "SERVICIO") then Ok SERVICIO
    else Raise ValueError
  | _ => Raise ValueError
  end.

(** [class TdrSearchResult(BaseModel)] *)
Record TdrSearchResult := {
  tdr_id : str;
  filename : str;
  tipo : TdrTipo;
  similarity : float;
  fields : dict
}.

(** [TdrSearchResult(id=.., filename=.., tipo=.., similarity=.., fields=..)]:
    pydantic validates [filename: str] and [fields: dict[str, Any]]. *)
Definition new_TdrSearchResult (id : str) (filename : pyobj) (tipo : TdrTipo)
    (similarity : float) (fields : pyobj) : result TdrSearchResult :=
  match filename, fields with
  | PyStr f, PyDict d =>
    Ok {| tdr_id := id; filename := f; tipo := tipo;
          similarity := similarity; fields := d |}
  | _, _ => Raise ValidationError
  end.

(** [class GenerateFieldsResponse(BaseModel)] *)
Record GenerateFieldsResponse := {
  success : bool;
  response_tipo : TdrTipo;
  campos_sugeridos : dict;
  referencias_usadas : list TdrSearchResult;
  confidence : float
}.

(** [GenerateFieldsResponse(success=.., tipo=.., campos_sugeridos=..,
    referencias_usadas=.., confidence=..)]: pydantic validates
    [campos_sugeridos: dict[str, Any]]. *)
Definition new_GenerateFieldsResponse (success : bool) (tipo : TdrTipo)
    (campos_sugeridos : pyobj) (referencias_usadas : list TdrSearchResult)
    (confidence : float) : result GenerateFieldsResponse :=
  match campos_sugeridos with
  | PyDict d =>
    Ok {| success := success; response_tipo := tipo; campos_sugeridos := d;
          referencias_usadas := referencias_usadas; confidence := confidence |}
  | _ => Raise ValidationError
  end.

End Models.
Export Models.

(* ================================================================== *)
(** * [backend/app/db/chroma.py] *)

Module Chroma.

(** What [collection.query(.., include=["metadatas", "documents",
    "distances"])] returns, as far as [search] reads it. *)
Record QueryResult := {
  ids : list (list str);
  metadatas : option (list (list dict));
  distances : option (list (list float))
}.

(** [xs[i]] *)
Definition getitem {A} (xs : list A) (i : nat) : result A :=
  match nth_error xs i with
  | Some x => Ok x
  | None => Raise IndexError
  end.

(** [where_filter]: [{"tipo": tipo.value}] when a type is given. *)
Definition where_filter (tipo : option TdrTipo) : option dict :=
  match tipo with
  | Some t => Some [(py "tipo", PyStr (value t))]
  | None => None
  end.

Section ChromaDBClient.

Context `{Runtime}.

(** The state of the collection and its two operations,
    [collection.add(ids=.., embeddings=.., metadatas=.., documents=..)] and
    [collection.query(query_embeddings=.., n_results=.., where=..,
    include=..)]. *)
Variable Collection : Type.
Variable collection_add :
  list str -> list (list float) -> list dict -> list str ->
  Collection -> result unit * Collection.
Variable collection_query :
  Collection -> list (list float) -> Z -> option dict -> result QueryResult.

(** [add_tdrs_batch] *)
Definition add_tdrs_batch (ids : list str) (embeddings : list (list float))
    (metadatas : list dict) (documents : list str)
    (c : Collection) : result unit * Collection :=
  collection_add ids embeddings metadatas documents c.

(** [similarity = 1 / (1 + distance)] *)
Definition similarity_of_distance (distance : float) : result float :=
  truediv 1 (fadd 1 distance).

(** [metadata = results["metadatas"][0][i] if results["metadatas"] else {}] *)
Definition metadata_at (results : QueryResult) (i : nat) : result dict :=
  match metadatas results with
  | Some (m0 :: _) => getitem m0 i
  | _ => Ok []
  end.

(** [distance = results["distances"][0][i] if results["distances"] else 1.0] *)
Definition distance_at (results : QueryResult) (i : nat) : result float :=
  match distances results with
  | Some (d0 :: _) => getitem d0 i
  | _ => Ok 1%Q
  end.

(** The parsing of the stored fields:
[[
    fields = {}
    if "fields_json" in metadata:
        try:
            fields = json.loads(metadata["fields_json"])
        except json.JSONDecodeError:
            pass
]]
    [json.loads] of a value that is no string raises [TypeError]. *)
Definition parse_fields (metadata : dict) : result pyobj :=
  match dict_get metadata (py "fields_json") with
  | Some (PyStr s) =>
    match json_loads s with
    | Some v => Ok v
    | None => Ok (PyDict [])
    end
  | Some _ => Raise TypeError
  | None => Ok (PyDict [])
  end.

(** The body of the loop of [search]. *)
Definition search_record (results : QueryResult) (i : nat) (id : str)
    : result TdrSearchResult :=
  metadata <- metadata_at results i ;;
  distance <- distance_at results i ;;
  similarity <- similarity_of_distance distance ;;
  fields <- parse_fields metadata ;;
  let filename := dict_get_default metadata (py "filename") (PyStr []) in
  tipo <- TdrTipo_of
            (dict_get_default metadata (py "tipo") (PyStr (py "SERVICIO"))) ;;
  new_TdrSearchResult id filename tipo similarity fields.

(** [for i, id in enumerate(results["ids"][0]): .. search_results.append(..)] *)
Fixpoint search_loop (results : QueryResult) (i : nat) (ids0 : list str)
    (search_results : list TdrSearchResult) : result (list TdrSearchResult) :=
  match ids0 with
  | [] => Ok search_results
  | id :: rest =>
    r <- search_record results i id ;;
    search_loop results (S i) rest (search_results ++ [r])
  end.

(** [search]; the loop runs when [results["ids"] and results["ids"][0]], that
    is when the first list of ids exists and is not empty. *)
Definition search (c : Collection) (query_embedding : list float)
    (n_results : Z) (tipo : option TdrTipo)
    : result (list TdrSearchResult) :=
  results <- collection_query c [query_embedding] n_results
               (where_filter tipo) ;;
  match ids results with
  | (id0 :: ids0') :: _ => search_loop results 0 (id0 :: ids0') []
  | _ => Ok []
  end.

End ChromaDBClient.

End Chroma.
Export Chroma.

(* ================================================================== *)
(** * [backend/app/services/embeddings.py] *)

Module Embeddings.

Section EmbeddingService.

Context `{Runtime}.

(** [priority_fields] *)
Definition priority_fields : list str :=
  [ py "objeto_contratacion";
    py "denominacion_servicio";
    py "denominacionContratacion";
    py "finalidad_publica";
    py "finalidadPublica";
    py "alcance";
    py "alcanceDescripcionServicio";
    py "servicios_requeridos";
    py "requisitos_tecnicos_minimos";
    py "perfil_profesional";
    py "entregables" ].

(** [[str(v) for item in items for v in item.values() if v]]; [item.values()]
    raises [AttributeError] when [item] is no dict. *)
Fixpoint object_values (items : list pyobj) : result (list str) :=
  match items with
  | [] => Ok []
  | PyDict d :: rest =>
    tl <- object_values rest ;;
    Ok (map py_str (filter truthy (map snd d)) ++ tl)
  | _ :: _ => Raise AttributeError
  end.

(** [f"{k}: {v}"] *)
Definition key_value (kv : str * pyobj) : str :=
  fst kv ++ py ": " ++ py_str (snd kv).

(** The text a field value is rendered to: the branches on
    [isinstance(value, list)] and [isinstance(value, dict)], then the
    formatting of [value] in [f"{field}: {value}"]. *)
Definition flatten (value : pyobj) : result str :=
  match value with
  | PyList l =>
    match l with
    | PyDict _ :: _ =>
      vs <- object_values (firstn 3 l) ;; Ok (join (py " | ") vs)
    | _ => Ok (join (py " | ") (map py_str (firstn 5 l)))
    end
  | PyDict d => Ok (join (py " | ") (map key_value (firstn 5 d)))
  | _ => Ok (py_str value)
  end.

(** [for field in priority_fields: ..] *)
Fixpoint create_tdr_text_loop (fields : dict) (todo : list str)
    (parts : list str) : result (list str) :=
  match todo with
  | [] => Ok parts
  | field :: rest =>
    match dict_get fields field with
    | Some v =>
      if truthy v then
        text <- flatten v ;;
        create_tdr_text_loop fields rest (parts ++ [field ++ py ": " ++ text])
      else create_tdr_text_loop fields rest parts
    | None => create_tdr_text_loop fields rest parts
    end
  end.

(** [create_tdr_text] *)
Definition create_tdr_text (fields : dict) (tipo : str) : result str :=
  parts <- create_tdr_text_loop fields priority_fields [py "Tipo: " ++ tipo] ;;
  Ok (join nl parts).

End EmbeddingService.

End Embeddings.
Export Embeddings.

(* ================================================================== *)
(** * [backend/app/services/rag.py] *)

Module Rag.

(** ** The generator and the record of its calls *)

(** [types.GenerateContentConfig(temperature=.., max_output_tokens=..)] *)
Record GenerateContentConfig := {
  temperature : float;
  max_output_tokens : Z
}.

(** The arguments of one call of [client.models.generate_content]. *)
Record GenerateRequest := {
  request_model : str;
  contents : str;
  config : GenerateContentConfig
}.

(** A computation that may call the generator: it receives the calls made so
    far and returns its outcome with the calls made by its end. *)
Definition M (A : Type) : Type :=
  list GenerateRequest -> result A * list GenerateRequest.

Definition mret {A} (a : A) : M A := fun calls => (Ok a, calls).

Definition mbind {A B} (m : M A) (k : A -> M B) : M B :=
  fun calls =>
    match m calls with
    | (Ok a, calls') => k a calls'
    | (Raise e, calls') => (Raise e, calls')
    end.

Definition lift {A} (r : result A) : M A := fun calls => (r, calls).

Notation "x <~ c1 ;; c2" := (mbind c1 (fun x => c2))
  (at level 61, c1 at next level, right associativity).

(** ** Text helpers *)

(** [x or default] on an optional string. *)
Definition or_default (x : option str) (default : str) : str :=
  match x with
  | Some (c :: s) => c :: s
  | _ => default
  end.

(** One line of a field list of the prompt: two spaces, the quoted name, a
    colon and the quoted description. *)
Definition campo (name desc : string) : str :=
  py "  " ++ dq ++ py name ++ dq ++ py ": " ++ dq ++ py desc ++ dq.

(** The lines of a field list, each but the last followed by a comma, between
    the line feed that opens and the one that closes the literal. *)
Fixpoint with_commas (rows : list str) : list str :=
  match rows with
  | [] => []
  | [r] => [r]
  | r :: rest => (r ++ py ",") :: with_commas rest
  end.

Definition field_list (rows : list str) : str :=
  join nl ([[]] ++ with_commas rows ++ [[]]).

(** [campos_por_tipo] *)
Definition campos_por_tipo (tipo : TdrTipo) : str :=
  field_list
  match tipo with
  | BIEN =>
    [ campo "denominacion_contratacion"
        "Nombre completo de la contratación";
      campo "finalidad_publica"
        "Para qué se necesita este bien, beneficio a la ciudadanía";
      campo "objetivo_general"
        "Objetivo principal de la contratación";
      campo "objetivos_especificos"
        "Lista de objetivos específicos separados por punto y coma";
      campo "alcance_descripcion_bienes"
        "Descripción detallada del bien a adquirir";
      campo "caracteristicas"
        "Características físicas y funcionales del bien";
      campo "caracteristicas_tecnicas"
        "Especificaciones técnicas detalladas";
      campo "cantidad"
        "Cantidad a adquirir (número)";
      campo "unidad_medida"
        "Unidad de medida (unidad, caja, etc.)";
      campo "perfil_proveedor"
        "Requisitos que debe cumplir el proveedor";
      campo "requisitos_proveedor"
        "Lista de documentos y requisitos";
      campo "plazo"
        "Plazo de entrega en días calendario";
      campo "lugar"
        "Lugar de entrega del bien";
      campo "forma_pago"
        "Condiciones de pago";
      campo "garantia_comercial"
        "Periodo de garantía del bien";
      campo "penalidades"
        "Penalidades por incumplimiento";
      campo "anticorrupcion_antisoborno"
        "Cláusula estándar anticorrupción";
      campo "conformidad"
        "Quién otorga la conformidad";
      campo "antecedentes"
        "Contexto y antecedentes de la necesidad" ]
  | SERVICIO =>
    [ campo "denominacion_contratacion"
        "Nombre completo del servicio";
      campo "finalidad_publica"
        "Para qué se necesita este servicio, beneficio a la ciudadanía";
      campo "objetivo_contratacion"
        "Objetivo principal de la contratación";
      campo "objetivo_general"
        "Objetivo general del servicio";
      campo "objetivos_especificos"
        "Lista de objetivos específicos";
      campo "alcance_descripcion_servicio"
        "Descripción detallada del servicio";
      campo "actividades"
        "Lista de actividades a realizar";
      campo "entregables"
        "Lista de entregables con plazos";
      campo "perfil_proveedor"
        "Perfil profesional requerido (formación, experiencia, conocimientos)";
      campo "requisitos_proveedor"
        "Requisitos documentarios del proveedor";
      campo "formacion_academica"
        "Formación académica requerida";
      campo "experiencia"
        "Experiencia laboral requerida";
      campo "plazo"
        "Plazo de ejecución del servicio";
      campo "lugar"
        "Lugar de prestación del servicio";
      campo "forma_pago"
        "Condiciones y forma de pago";
      campo "penalidades"
        "Penalidades por incumplimiento";
      campo "confidencialidad"
        "Cláusula de confidencialidad";
      campo "anticorrupcion_antisoborno"
        "Cláusula estándar anticorrupción";
      campo "conformidad"
        "Quién otorga la conformidad";
      campo "antecedentes"
        "Contexto y antecedentes de la necesidad" ]
  | CONSULTORIA_OBRA =>
    [ campo "denominacion_contratacion"
        "Nombre de la consultoría";
      campo "finalidad_publica"
        "Beneficio público de la consultoría";
      campo "objetivo_contratacion"
        "Objetivo de la contratación";
      campo "objetivo_general"
        "Objetivo general";
      campo "objetivos_especificos"
        "Objetivos específicos";
      campo "alcance_servicio"
        "Alcance de la consultoría";
      campo "descripcion_detallada_servicio"
        "Descripción detallada";
      campo "actividades"
        "Actividades de la consultoría";
      campo "plan_trabajo"
        "Plan de trabajo propuesto";
      campo "supervision"
        "Supervisión del servicio";
      campo "funciones_especificas"
        "Funciones del consultor";
      campo "perfil_proveedor"
        "Perfil profesional requerido";
      campo "plazo"
        "Plazo de ejecución";
      campo "conformidad"
        "Otorgamiento de conformidad";
      campo "penalidades"
        "Penalidades aplicables";
      campo "costo_total"
        "Costo total de la consultoría" ]
  | OBRA =>
    [ campo "denominacion_contratacion"
        "Nombre de la obra";
      campo "descripcion"
        "Descripción de la obra";
      campo "cantidad"
        "Cantidad o metraje";
      campo "unidad_medida"
        "Unidad de medida";
      campo "valor_unitario"
        "Valor unitario";
      campo "importe_total"
        "Importe total" ]
  end.

(** ** The search of a brace-delimited span *)

(** The suffix of [s] that starts at the first occurrence of [c]. *)
Fixpoint from_first (c : char) (s : str) : option str :=
  match s with
  | [] => None
  | x :: s' => if char_eqb x c then Some s else from_first c s'
  end.

(** The prefix of [s] that ends at the last occurrence of [c]. *)
Definition through_last (c : char) (s : str) : option str :=
  match from_first c (rev s) with
  | Some r => Some (rev r)
  | None => None
  end.

(** [re.search] of an opening brace, any characters (greedily) and a closing
    brace: the match, when there is one, runs from the first opening brace to
    the last closing brace after it. *)
Definition search_braces (content : str) : option str :=
  match from_first 123%N content with
  | Some t => through_last 125%N t
  | None => None
  end.

Section RAGService.

Context `{Runtime}.

(** [settings.gemini_model] *)
Variable model : str.

(** [embedding_service.get_embedding] *)
Variable get_embedding : str -> list float.

(** The collection behind [chroma_client] and its query operation. *)
Variable Collection : Type.
Variable collection_query :
  Collection -> list (list float) -> Z -> option dict -> result QueryResult.
Variable collection : Collection.

(** [client.models.generate_content(..).text], given the calls made before. *)
Variable generate_content : list GenerateRequest -> GenerateRequest -> result str.

Definition call_generator (req : GenerateRequest) : M str :=
  fun calls => (generate_content calls req, calls ++ [req]).

(** [search_similar_tdrs] *)
Definition search_similar_tdrs (query : str) (tipo : option TdrTipo)
    (limit : Z) : result (list TdrSearchResult) :=
  let query_embedding := get_embedding query in
  search collection_query collection query_embedding limit tipo.

(** ** [_parse_json_response] *)

(** The removal of the surrounding white space and of the code fence. *)
Definition strip_fences (content : str) : str :=
  let content := strip content in
  let content :=
    if startswith content (py "```json") then slice_from 7 content
    else content in
  let content :=
    if startswith content (py "```") then slice_from 3 content else content in
  let content :=
    if endswith content (py "```") then slice_to_minus 3 content
    else content in
  strip content.

(** [{"error": "No se pudo parsear la respuesta", "raw": content[:500]}] *)
Definition error_payload (content : str) : pyobj :=
  PyDict [ (py "error", PyStr (py "No se pudo parsear la respuesta"));
           (py "raw", PyStr (slice_to 500 content)) ].

Definition _parse_json_response (content : str) : pyobj :=
  let content := strip_fences content in
  match json_loads content with
  | Some v => v
  | None =>
    match search_braces content with
    | Some group =>
      match json_loads group with
      | Some v => v
      | None => error_payload content
      end
    | None => error_payload content
    end
  end.

(** ** [_build_context] *)

(** [f"=== REFERENCIA {i} (Similaridad: {ref.similarity:.2f}) ==="] *)
Definition header (i : nat) (ref : TdrSearchResult) : str :=
  py "=== REFERENCIA " ++ str_of_N (N.of_nat i) ++ py " (Similaridad: "
    ++ format_2f (similarity ref) ++ py ") ===".

(** The text of a field value, cut at 500 characters. *)
Definition value_str (v : pyobj) : str :=
  match v with
  | PyList _ | PyDict _ => slice_to 500 (json_dumps v)
  | _ => slice_to 500 (py_str v)
  end.

(** [for key, value in ..: if value: context_parts.append(f"  {key}: {value_str}")] *)
Fixpoint fields_loop (items : list (str * pyobj)) (context_parts : list str)
    : list str :=
  match items with
  | [] => context_parts
  | (key, v) :: rest =>
    fields_loop rest
      (if truthy v
       then context_parts ++ [py "  " ++ key ++ py ": " ++ value_str v]
       else context_parts)
  end.

(** [for i, ref in enumerate(referencias, 1): ..] *)
Fixpoint build_context_loop (i : nat) (referencias : list TdrSearchResult)
    (context_parts : list str) : list str :=
  match referencias with
  | [] => context_parts
  | ref :: rest =>
    let context_parts := context_parts ++ [header i ref] in
    let context_parts := context_parts ++ [py "Archivo: " ++ filename ref] in
    let context_parts := context_parts ++ [py "Tipo: " ++ value (tipo ref)] in
    let context_parts := fields_loop (firstn 15 (fields ref)) context_parts in
    let context_parts := context_parts ++ [[]] in
    build_context_loop (S i) rest context_parts
  end.

Definition _build_context (referencias : list TdrSearchResult) : str :=
  join nl (build_context_loop 1 referencias []).

(** ** The prompts *)

(** [json.dumps(campos_parciales, ensure_ascii=False) if campos_parciales else
    'Ninguno'] *)
Definition dumps_campos (campos_parciales : option (list (str * str))) : str :=
  match campos_parciales with
  | Some (kv :: rest) =>
    json_dumps (PyDict (map (fun kv => (fst kv, PyStr (snd kv))) (kv :: rest)))
  | _ => py "Ninguno"
  end.

(** The prompt of [_generate_with_gemini]. *)
Definition prompt_with_context (tipo : TdrTipo) (contexto : str)
    (descripcion_inicial objeto_contratacion : option str)
    (campos_parciales : option (list (str * str))) : str :=
  let campos_tipo := campos_por_tipo tipo in
  join nl
    [ py "Eres un experto en contrataciones públicas del estado peruano.";
      [];
      py "Tu tarea es generar TODOS los campos para un nuevo TDR (Términos de Referencia) de tipo " ++ dq ++ value tipo ++ dq ++ py ".";
      [];
      py "CONTEXTO - TDRs similares como referencia:";
      contexto;
      [];
      py "INFORMACIÓN DEL NUEVO TDR:";
      py "- Tipo: " ++ value tipo;
      py "- Descripción inicial: " ++ or_default descripcion_inicial (py "No proporcionada");
      py "- Objeto de contratación: " ++ or_default objeto_contratacion (py "No proporcionado");
      py "- Campos ya completados: " ++ dumps_campos campos_parciales;
      [];
      py "INSTRUCCIONES IMPORTANTES:";
      py "1. GENERA TODOS los campos listados abajo - no dejes ninguno vacío";
      py "2. Basándote en los TDRs de referencia, crea contenido coherente y profesional";
      py "3. Usa lenguaje formal propio de documentos gubernamentales peruanos";
      py "4. Para campos legales (anticorrupción, confidencialidad), usa textos estándar del estado peruano";
      py "5. Adapta todo al contexto específico del objeto de contratación";
      py "6. Sé específico y detallado, evita frases genéricas";
      [];
      py "CAMPOS A GENERAR (todos obligatorios):";
      py "{";
      campos_tipo;
      py "}";
      [];
      py "TEXTOS ESTÁNDAR A USAR:";
      py "- Para " ++ dq ++ py "anticorrupcion_antisoborno" ++ dq ++ py ": " ++ dq ++ py "El contratista declara y garantiza no haber ofrecido, negociado o efectuado cualquier pago, objeto de valor o cualquier dádiva en general a funcionarios públicos. Se compromete a conducirse en todo momento con honestidad, probidad, veracidad e integridad, así como no incurrir en prácticas de corrupción, soborno o cualquier tipo de acto contrario a la ética." ++ dq;
      py "- Para " ++ dq ++ py "confidencialidad" ++ dq ++ py ": " ++ dq ++ py "El contratista se obliga a mantener en reserva y confidencialidad la información a la que tenga acceso en razón del servicio contratado. Queda prohibido revelar, publicar, difundir o usar esta información sin autorización expresa de la Entidad, durante y después de la vigencia del contrato." ++ dq;
      [];
      py "Responde SOLO con el JSON válido, sin explicaciones ni markdown." ].

(** The prompt of [_generate_without_context]. *)
Definition prompt_without_context (tipo : TdrTipo)
    (descripcion_inicial objeto_contratacion : option str) : str :=
  join nl
    [ py "Genera campos para un TDR de tipo " ++ dq ++ value tipo ++ dq ++ py " con la siguiente información:";
      py "- Descripción: " ++ or_default descripcion_inicial (py "No proporcionada");
      py "- Objeto: " ++ or_default objeto_contratacion (py "No proporcionado");
      [];
      py "Responde con un JSON de campos típicos para este tipo de TDR." ].

(** ** Generation *)

Definition _generate_with_gemini (tipo : TdrTipo) (contexto : str)
    (descripcion_inicial objeto_contratacion : option str)
    (campos_parciales : option (list (str * str))) : M pyobj :=
  let prompt :=
    prompt_with_context tipo contexto descripcion_inicial objeto_contratacion
      campos_parciales in
  text <~ call_generator
            {| request_model := model; contents := prompt;
               config := {| temperature := float_of_decimal 0.3;
                          max_output_tokens := 4096 |} |} ;;
  mret (_parse_json_response text).

Definition _generate_without_context (tipo : TdrTipo)
    (descripcion_inicial objeto_contratacion : option str)
    : M GenerateFieldsResponse :=
  let prompt :=
    prompt_without_context tipo descripcion_inicial objeto_contratacion in
  text <~ call_generator
            {| request_model := model; contents := prompt;
               config := {| temperature := float_of_decimal 0.5;
                          max_output_tokens := 4096 |} |} ;;
  let campos := _parse_json_response text in
  lift (new_GenerateFieldsResponse true tipo campos []
          (float_of_decimal 0.3)).

(** The retrieval query of [generate_fields]. *)
Definition build_query (tipo : TdrTipo)
    (descripcion_inicial objeto_contratacion : option str)
    (campos_parciales : option (list (str * str))) : str :=
  let query_parts := [py "Tipo: " ++ value tipo] in
  let query_parts :=
    match descripcion_inicial with
    | Some (c :: s) => query_parts ++ [c :: s]
    | _ => query_parts
    end in
  let query_parts :=
    match objeto_contratacion with
    | Some (c :: s) => query_parts ++ [c :: s]
    | _ => query_parts
    end in
  let query_parts :=
    match campos_parciales with
    | Some (kv :: rest) =>
      query_parts ++ map (fun kv => fst kv ++ py ": " ++ snd kv) (kv :: rest)
    | _ => query_parts
    end in
  join nl query_parts.

(** [len(referencias)] as a float. *)
Definition len {A} (l : list A) : float :=
  float_of_int (Z.of_nat (length l)).

Definition generate_fields (tipo : TdrTipo)
    (descripcion_inicial objeto_contratacion : option str)
    (campos_parciales : option (list (str * str)))
    (num_referencias : Z) : M GenerateFieldsResponse :=
  let query :=
    build_query tipo descripcion_inicial objeto_contratacion campos_parciales in
  referencias <~ lift (search_similar_tdrs query (Some tipo) num_referencias) ;;
  match referencias with
  | [] => _generate_without_context tipo descripcion_inicial objeto_contratacion
  | _ :: _ =>
    let contexto := _build_context referencias in
    campos_sugeridos <~ _generate_with_gemini tipo contexto descripcion_inicial
                          objeto_contratacion campos_parciales ;;
    avg_similarity <~ lift (truediv (sum (map similarity referencias))
                              (len referencias)) ;;
    lift (new_GenerateFieldsResponse true tipo campos_sugeridos referencias
            avg_similarity)
  end.

End RAGService.

End Rag.
Export Rag.

(* ================================================================== *)
(** * A reference runtime

    An executable instance of [Runtime], on which the service can be run on
    concrete inputs: a JSON encoder and decoder after Python's [json] module
    and [repr].  A number with a fraction or an exponent is read as the
    binary64 number nearest to it, [NaN] and [Infinity] are not read, and a
    float is written by its decimal expansion to 17 places; escapes of
    surrogate pairs are not combined.  The theorems on the service hold for
    every runtime; this one serves the examples. *)

Module Reference.

(** *** Encoding *)

Definition hex_digit (n : N) : char :=
  if (n <? 10)%N then (48 + n)%N else (87 + n)%N.

(** A character inside a JSON string ([ensure_ascii=False]). *)
Definition escape_char (c : char) : str :=
  if (c =? 34)%N then backslash ++ dq
  else if (c =? 92)%N then backslash ++ backslash
  else if (c =? 10)%N then backslash ++ py "n"
  else if (c =? 13)%N then backslash ++ py "r"
  else if (c =? 9)%N then backslash ++ py "t"
  else if (c =? 8)%N then backslash ++ py "b"
  else if (c =? 12)%N then backslash ++ py "f"
  else if (c <? 32)%N then backslash ++ py "u00" ++ [hex_digit (c / 16); hex_digit (c mod 16)]
  else [c].

Definition quote (s : str) : str := dq ++ flat_map escape_char s ++ dq.

Fixpoint strip_zeros (rev_digits : str) : str :=
  match rev_digits with
  | 48%N :: (_ :: _) as rest => strip_zeros rest
  | _ => rev_digits
  end.

Fixpoint pad_left (n : nat) (s : str) : str :=
  match n with
  | O => s
  | S n' => if length s <? n then pad_left n' (48%N :: s) else s
  end.

Definition float_repr (q : float) : str :=
  let h := round_half_even (Qabs q * inject_Z (10 ^ 17)) in
  let frac := pad_left 17 (str_of_Z (h mod 10 ^ 17)) in
  (if Qlt_le_dec q 0 then [45%N] else [])
    ++ str_of_Z (h / 10 ^ 17) ++ [46%N] ++ rev (strip_zeros (rev frac)).

Fixpoint dumps (v : pyobj) : str :=
  match v with
  | PyNone => py "null"
  | PyBool true => py "true"
  | PyBool false => py "false"
  | PyInt z => str_of_Z z
  | PyFloat q => float_repr q
  | PyStr s => quote s
  | PyList l => py "[" ++ join (py ", ") (map dumps l) ++ py "]"
  | PyDict d =>
    py "{"
      ++ join (py ", ")
           (map (fun kv => let '(k, x) := kv in quote k ++ py ": " ++ dumps x) d)
      ++ py "}"
  end.

(** [repr] of a string: single quotes, unless the string holds a single quote
    and no double quote. *)
Definition repr_char (q : char) (c : char) : str :=
  if (c =? q)%N then [92%N; c]
  else if (c =? 92)%N then backslash ++ backslash
  else if (c =? 10)%N then backslash ++ py "n"
  else if (c =? 13)%N then backslash ++ py "r"
  else if (c =? 9)%N then backslash ++ py "t"
  else if ((c <? 32) || (c =? 127))%N
       then backslash ++ py "x" ++ [hex_digit (c / 16); hex_digit (c mod 16)]
  else [c].

Definition repr_str (s : str) : str :=
  let q := if existsb (N.eqb 39) s && negb (existsb (N.eqb 34) s)
           then 34%N else 39%N in
  [q] ++ flat_map (repr_char q) s ++ [q].

Fixpoint repr (v : pyobj) : str :=
  match v with
  | PyNone => py "None"
  | PyBool true => py "True"
  | PyBool false => py "False"
  | PyInt z => str_of_Z z
  | PyFloat q => float_repr q
  | PyStr s => repr_str s
  | PyList l => py "[" ++ join (py ", ") (map repr l) ++ py "]"
  | PyDict d =>
    py "{"
      ++ join (py ", ")
           (map (fun kv => let '(k, x) := kv in repr_str k ++ py ": " ++ repr x) d)
      ++ py "}"
  end.

(** *** Decoding *)

Definition is_ws (c : char) : bool :=
  ((c =? 32) || (c =? 9) || (c =? 10) || (c =? 13))%N.

Fixpoint skip_ws (s : str) : str :=
  match s with
  | c :: s' => if is_ws c then skip_ws s' else s
  | [] => []
  end.

Definition is_digit (c : char) : bool := ((48 <=? c) && (c <=? 57))%N.

(** The digits at the head of [s], their value continuing [acc], their number
    and the rest. *)
Fixpoint read_digits (s : str) (acc : N) (count : nat) : N * nat * str :=
  match s with
  | c :: s' =>
    if is_digit c then read_digits s' (10 * acc + (c - 48))%N (S count)
    else (acc, count, s)
  | [] => (acc, count, [])
  end.

Definition hex_value (c : char) : option N :=
  if is_digit c then Some (c - 48)%N
  else if ((97 <=? c) && (c <=? 102))%N then Some (c - 87)%N
  else if ((65 <=? c) && (c <=? 70))%N then Some (c - 55)%N
  else None.

Definition hex4 (a b c d : char) : option N :=
  match hex_value a, hex_value b, hex_value c, hex_value d with
  | Some x, Some y, Some z, Some w => Some (((x * 16 + y) * 16 + z) * 16 + w)%N
  | _, _, _, _ => None
  end.

(** The body of a string, after its opening quote. *)
Fixpoint read_string (s : str) (acc : str) : option (str * str) :=
  match s with
  | [] => None
  | 34%N :: rest => Some (acc, rest)
  | 92%N :: 117%N :: a :: b :: c :: d :: rest =>
    match hex4 a b c d with
    | Some u => read_string rest (acc ++ [u])
    | None => None
    end
  | 92%N :: e :: rest =>
    if (e =? 34)%N then read_string rest (acc ++ [34%N])
    else if (e =? 92)%N then read_string rest (acc ++ [92%N])
    else if (e =? 47)%N then read_string rest (acc ++ [47%N])
    else if (e =? 98)%N then read_string rest (acc ++ [8%N])
    else if (e =? 102)%N then read_string rest (acc ++ [12%N])
    else if (e =? 110)%N then read_string rest (acc ++ [10%N])
    else if (e =? 114)%N then read_string rest (acc ++ [13%N])
    else if (e =? 116)%N then read_string rest (acc ++ [9%N])
    else None
  | c :: rest => if (c <? 32)%N then None else read_string rest (acc ++ [c])
  end.

(** A number: an optional minus sign, an integer part without leading zero,
    an optional fraction and an optional exponent; an integer when it has
    neither fraction nor exponent, a float otherwise. *)
(** [sign * (int_part + frac / 10 ^ n_frac)] *)
Definition decimal_value (sign : Z) (int_part frac : N) (n_frac : nat) : Q :=
  inject_Z (sign * (Z.of_N int_part * 10 ^ Z.of_nat n_frac + Z.of_N frac))
    / inject_Z (10 ^ Z.of_nat n_frac).

Definition power_of_ten (e : Z) : Q :=
  if (e <? 0)%Z then / inject_Z (10 ^ (- e)) else inject_Z (10 ^ e).

Definition read_number (s : str) : option (pyobj * str) :=
  let '(neg, s1) :=
    match s with 45%N :: r => (true, r) | _ => (false, s) end in
  let '(int_part, n_int, s2) := read_digits s1 0%N 0 in
  let leading_zero :=
    match s1 with 48%N :: _ => negb (n_int =? 1)%nat | _ => false end in
  if (n_int =? 0)%nat || leading_zero then None
  else
    let sign (z : Z) := if neg then (- z)%Z else z in
    let '(frac, n_frac, s3, has_frac, frac_ok) :=
      match s2 with
      | 46%N :: r =>
        let '(f, n, r') := read_digits r 0%N 0 in
        (f, n, r', true, negb (n =? 0)%nat)
      | _ => (0%N, 0%nat, s2, false, true)
      end in
    let '(exp, s4, has_exp, exp_ok) :=
      match s3 with
      | c :: r =>
        if ((c =? 101) || (c =? 69))%N then
          let '(eneg, r1) :=
            match r with
            | 45%N :: r' => (true, r')
            | 43%N :: r' => (false, r')
            | _ => (false, r)
            end in
          let '(e, n, r2) := read_digits r1 0%N 0 in
          ((if eneg then - Z.of_N e else Z.of_N e)%Z, r2, true,
           negb (n =? 0)%nat)
        else (0%Z, s3, false, true)
      | [] => (0%Z, s3, false, true)
      end in
    let int_value := PyInt (sign (Z.of_N int_part)) in
    let mant := decimal_value (sign 1%Z) int_part frac n_frac in
    if has_frac && negb frac_ok then
      (* a dot without digits: the number ends before the dot *)
      Some (int_value, s2)
    else if has_exp && negb exp_ok then
      (* an exponent mark without digits: the number ends before the mark *)
      if has_frac then Some (PyFloat (float_of_decimal mant), s3)
      else Some (int_value, s2)
    else if negb has_frac && negb has_exp then Some (int_value, s2)
    else Some (PyFloat (float_of_decimal (mant * power_of_ten exp)), s4).

Fixpoint read_value (fuel : nat) (s : str) : option (pyobj * str) :=
  match fuel with
  | O => None
  | S fuel' =>
    match s with
    | 123%N :: r =>
      match skip_ws r with
      | 125%N :: r' => Some (PyDict [], r')
      | r' => read_members fuel' r' []
      end
    | 91%N :: r =>
      match skip_ws r with
      | 93%N :: r' => Some (PyList [], r')
      | r' => read_elements fuel' r' []
      end
    | 34%N :: r =>
      match read_string r [] with
      | Some (x, r') => Some (PyStr x, r')
      | None => None
      end
    | _ =>
      if startswith s (py "null") then Some (PyNone, skipn 4 s)
      else if startswith s (py "true") then Some (PyBool true, skipn 4 s)
      else if startswith s (py "false") then Some (PyBool false, skipn 5 s)
      else read_number s
    end
  end
with read_elements (fuel : nat) (s : str) (acc : list pyobj)
    : option (pyobj * str) :=
  match fuel with
  | O => None
  | S fuel' =>
    match read_value fuel' s with
    | Some (v, r) =>
      match skip_ws r with
      | 44%N :: r' => read_elements fuel' (skip_ws r') (acc ++ [v])
      | 93%N :: r' => Some (PyList (acc ++ [v]), r')
      | _ => None
      end
    | None => None
    end
  end
with read_members (fuel : nat) (s : str) (acc : dict)
    : option (pyobj * str) :=
  match fuel with
  | O => None
  | S fuel' =>
    match s with
    | 34%N :: r =>
      match read_string r [] with
      | Some (k, r1) =>
        match skip_ws r1 with
        | 58%N :: r2 =>
          match read_value fuel' (skip_ws r2) with
          | Some (v, r3) =>
            match skip_ws r3 with
            | 44%N :: r4 => read_members fuel' (skip_ws r4) (dict_set acc k v)
            | 125%N :: r4 => Some (PyDict (dict_set acc k v), r4)
            | _ => None
            end
          | None => None
          end
        | _ => None
        end
      | None => None
      end
    | _ => None
    end
  end.

Definition loads (s : str) : option pyobj :=
  match read_value (S (2 * length s)) (skip_ws s) with
  | Some (v, r) => match skip_ws r with [] => Some v | _ => None end
  | None => None
  end.

#[export] Instance runtime : Runtime := {|
  json_loads := loads;
  json_dumps := dumps;
  py_repr := repr
|}.

End Reference.


(* ================================================================== *)
(** * Notions of the specification *)

Close Scope Q_scope.

Module Spec.

(** The text of a JSON object: an opening brace, a body, a closing brace. *)
Definition object_text (s : str) : Prop :=
  exists body, s = 123%N :: body ++ [125%N].

(** White space only. *)
Definition blank (w : str) : Prop := Forall (fun c => isspace c = true) w.


(** A rational that is a binary64 number: rounding leaves it as it is. *)
Definition is_binary64 (q : Q) : Prop := (round64 q == q)%Q.

Section WithRuntime.

Context `{Runtime}.

(** A reply in which no stage of the parser finds JSON: neither the cleaned
    text nor its span from the first opening to the last closing brace is
    accepted by [json.loads]. *)
Definition unparseable (text : str) : Prop :=
  json_loads (strip_fences text) = None
  /\ forall span, search_braces (strip_fences text) = Some span ->
                  json_loads span = None.

(** A stored record that [search] can turn into a result: the sum
    [1.0 + distance] is not zero (for a distance that is a binary64 number:
    the distance is not [-1]), its [filename] is absent or a string, its [tipo] is absent or
    the value of a type, and its [fields_json] is absent or a string, which
    may fail to parse and otherwise holds an object. *)
Definition filename_ok (metadata : dict) : Prop :=
  dict_get metadata (py "filename") = None
  \/ exists s, dict_get metadata (py "filename") = Some (PyStr s).

Definition tipo_ok (metadata : dict) : Prop :=
  dict_get metadata (py "tipo") = None
  \/ exists t, dict_get metadata (py "tipo") = Some (PyStr (value t)).

Definition fields_json_ok (metadata : dict) : Prop :=
  dict_get metadata (py "fields_json") = None
  \/ exists s, dict_get metadata (py "fields_json") = Some (PyStr s)
               /\ (json_loads s = None \/ exists d, json_loads s = Some (PyDict d)).

Definition record_ok (results : QueryResult) (i : nat) : Prop :=
  exists metadata distance,
    metadata_at results i = Ok metadata
    /\ distance_at results i = Ok distance
    /\ ~ (fadd 1 distance == 0)%Q
    /\ filename_ok metadata /\ tipo_ok metadata /\ fields_json_ok metadata.

(** The stored fields of a record are absent or do not parse. *)
Definition fields_json_unusable (metadata : dict) : Prop :=
  dict_get metadata (py "fields_json") = None
  \/ exists s, dict_get metadata (py "fields_json") = Some (PyStr s)
               /\ json_loads s = None.

(** The block of one reference in the context: the header with the rank and
    the similarity, the file, the type, the lines of the rendered fields and
    an empty line. *)
Definition field_line (kt : str * str) : str :=
  py "  " ++ fst kt ++ py ": " ++ snd kt.

Definition block (rank : nat) (ref : TdrSearchResult)
    (rendered : list (str * str)) : list str :=
  [ py "=== REFERENCIA " ++ str_of_N (N.of_nat rank) ++ py " (Similaridad: "
      ++ format_2f (similarity ref) ++ py ") ===";
    py "Archivo: " ++ filename ref;
    py "Tipo: " ++ value (tipo ref) ]
    ++ map field_line rendered ++ [[]].

Fixpoint blocks (rank : nat) (refs : list TdrSearchResult)
    (rendered : list (list (str * str))) : list str :=
  match refs, rendered with
  | ref :: refs', r :: rendered' =>
    block rank ref r ++ blocks (S rank) refs' rendered'
  | _, _ => []
  end.

(** The rendered fields of a reference: at most 15, each the text, of at most
    500 characters, of a field among the first 15 of the reference. *)
Definition rendered_from (ref : TdrSearchResult) (rendered : list (str * str))
    : Prop :=
  length rendered <= 15
  /\ Forall (fun kt =>
              length (snd kt) <= 500
              /\ exists v, In (fst kt, v) (firstn 15 (fields ref))
                           /\ snd kt = value_str v) rendered.

(** The priority keys that [fields] holds with a true value, in priority
    order, with their values. *)
Definition selected_from (fields : dict) (keys : list str)
    : list (str * pyobj) :=
  flat_map
    (fun k =>
       match dict_get fields k with
       | Some v => if truthy v then [(k, v)] else []
       | None => []
       end) keys.

Definition selected (fields : dict) : list (str * pyobj) :=
  selected_from fields priority_fields.

(** The line of a selected key and the text of its value. *)
Definition text_line (kt : (str * pyobj) * str) : str :=
  fst (fst kt) ++ py ": " ++ snd kt.

(** The flattening as the specification words it: a list of objects becomes
    the values of its first 3 objects, joined by pipes. *)
Definition claimed_flatten (v : pyobj) : str :=
  match v with
  | PyList (PyDict d :: rest) =>
    join (py " | ")
      (map py_str
         (flat_map (fun item => match item with
                                | PyDict d' => map snd d'
                                | _ => []
                                end) (firstn 3 (PyDict d :: rest))))
  | PyList l => join (py " | ") (map py_str (firstn 5 l))
  | PyDict d => join (py " | ") (map key_value (firstn 5 d))
  | _ => py_str v
  end.

Definition claimed_text (prefix : str) (fields : dict) (tipo : str) : str :=
  join nl
    ((prefix ++ tipo)
       :: map (fun kv => fst kv ++ py ": " ++ claimed_flatten (snd kv))
            (selected fields)).

(** The two requests [generate_fields] can send to the generator. *)
Definition request_without_context (model : str) (tipo : TdrTipo)
    (descripcion_inicial objeto_contratacion : option str) : GenerateRequest :=
  {| request_model := model;
     contents :=
       prompt_without_context tipo descripcion_inicial objeto_contratacion;
     config := {| temperature := float_of_decimal 0.5%Q;
                 max_output_tokens := 4096%Z |} |}.

Definition request_with_context (model : str) (tipo : TdrTipo)
    (referencias : list TdrSearchResult)
    (descripcion_inicial objeto_contratacion : option str)
    (campos_parciales : option (list (str * str))) : GenerateRequest :=
  {| request_model := model;
     contents :=
       prompt_with_context tipo (_build_context referencias)
         descripcion_inicial objeto_contratacion campos_parciales;
     config := {| temperature := float_of_decimal 0.3%Q;
                 max_output_tokens := 4096%Z |} |}.


End WithRuntime.

End Spec.
Export Spec.

(* ================================================================== *)
(** * A reference collection

    An in-memory vector store on which the service can be run: rows in
    insertion order, queried by squared Euclidean distance (the default
    metric of the store), nearest first.  The theorems on the service hold for
    every store; this one serves the examples. *)

Module RefStore.

Record Row := {
  row_id : str;
  row_embedding : list float;
  row_metadata : dict;
  row_document : str
}.

Definition Collection := list Row.

Definition same_length (ids : list str) (embeddings : list (list float))
    (metadatas : list dict) (documents : list str) : bool :=
  (length embeddings =? length ids)%nat
  && (length metadatas =? length ids)%nat
  && (length documents =? length ids)%nat.

Fixpoint rows (ids : list str) (embeddings : list (list float))
    (metadatas : list dict) (documents : list str) : list Row :=
  match ids, embeddings, metadatas, documents with
  | i :: ids', e :: embeddings', m :: metadatas', d :: documents' =>
    {| row_id := i; row_embedding := e; row_metadata := m; row_document := d |}
      :: rows ids' embeddings' metadatas' documents'
  | _, _, _, _ => []
  end.

(** [collection.add]: sequences of unequal lengths are refused and nothing is
    stored. *)
Definition add (ids : list str) (embeddings : list (list float))
    (metadatas : list dict) (documents : list str) (c : Collection)
    : result unit * Collection :=
  if same_length ids embeddings metadatas documents
  then (Ok tt, c ++ rows ids embeddings metadatas documents)
  else (Raise ValueError, c).

Definition squared_distance (a b : list float) : float :=
  fold_left Qplus
    (map (fun xy => (fst xy - snd xy) * (fst xy - snd xy))%Q (combine a b)) 0%Q.

Definition matches (where_filter : option dict) (metadata : dict) : bool :=
  match where_filter with
  | None => true
  | Some conditions =>
    forallb
      (fun kv =>
         match snd kv, dict_get metadata (fst kv) with
         | PyStr a, Some (PyStr b) => str_eqb a b
         | _, _ => false
         end) conditions
  end.

Fixpoint insert_hit (h : float * Row) (hits : list (float * Row))
    : list (float * Row) :=
  match hits with
  | [] => [h]
  | h' :: rest =>
    if Qle_bool (fst h') (fst h) then h' :: insert_hit h rest
    else h :: hits
  end.

Definition nearest (e : list float) (c : Collection) : list (float * Row) :=
  fold_left (fun hits r => insert_hit (squared_distance e (row_embedding r), r) hits)
    c [].

(** [collection.query] with one query embedding. *)
Definition query (c : Collection) (query_embeddings : list (list float))
    (n_results : Z) (where_filter : option dict) : result QueryResult :=
  match query_embeddings with
  | [e] =>
    let hits :=
      firstn (Z.to_nat n_results)
        (nearest e (filter (fun r => matches where_filter (row_metadata r)) c)) in
    Ok {| ids := [map (fun h => row_id (snd h)) hits];
          metadatas := Some [map (fun h => row_metadata (snd h)) hits];
          distances := Some [map fst hits] |}
  | _ => Raise ValueError
  end.

End RefStore.

(* ================================================================== *)
(** * Example data *)

Module Examples.

(** A collection of three rows: a complete one, one whose stored fields do not
    parse and that names no type, and one of another type. *)
Definition fields_a : dict :=
  [ (py "objeto_contratacion", PyStr (py "Limpieza de oficinas"));
    (py "plazo", PyInt 30) ].

Definition row_a : RefStore.Row :=
  {| RefStore.row_id := py "tdr-a";
     RefStore.row_embedding := [1; 0]%Q;
     RefStore.row_metadata :=
       [ (py "filename", PyStr (py "a.json"));
         (py "tipo", PyStr (py "SERVICIO"));
         (py "fields_json", PyStr (Reference.dumps (PyDict fields_a))) ];
     RefStore.row_document := py "Tipo: SERVICIO" |}.

Definition row_b : RefStore.Row :=
  {| RefStore.row_id := py "tdr-b";
     RefStore.row_embedding := [0; 1]%Q;
     RefStore.row_metadata :=
       [ (py "filename", PyStr (py "b.json"));
         (py "fields_json", PyStr (py "{truncado")) ];
     RefStore.row_document := py "Tipo: SERVICIO" |}.

Definition row_c : RefStore.Row :=
  {| RefStore.row_id := py "tdr-c";
     RefStore.row_embedding := [1; 1]%Q;
     RefStore.row_metadata :=
       [ (py "filename", PyStr (py "c.json"));
         (py "tipo", PyStr (py "BIEN")) ];
     RefStore.row_document := py "Tipo: BIEN" |}.

Definition collection : RefStore.Collection := [row_a; row_b; row_c].

(** An embedding model that ignores its text. *)
Definition get_embedding (text : str) : list float := [1; 0]%Q.

Definition model : str := py "gemini-2.0-flash".

Definition empty_collection : RefStore.Collection := [].

(** Three generators: one that answers with a JSON object, one with a JSON
    array, one with prose. *)
Definition reply_object (calls : list GenerateRequest) (req : GenerateRequest)
    : result str :=
  Ok (Reference.dumps
        (PyDict [ (py "denominacion_contratacion",
                   PyStr (py "Servicio de limpieza")) ])).

Definition reply_array (calls : list GenerateRequest) (req : GenerateRequest)
    : result str :=
  Ok (py "[1, 2]").

Definition reply_prose (calls : list GenerateRequest) (req : GenerateRequest)
    : result str :=
  Ok (py "  No puedo generar los campos solicitados.").

End Examples.

Set Warnings "-abstract-large-number".

(* ================================================================== *)
(** * [backend/app/db/chroma.py], continued: insertion of one document and
      statistics *)

Module ChromaStats.

(** ** Dictionaries keyed by values *)

(** The number a value stands for as a dictionary key: [True == 1 == 1.0]. *)
Definition number_of (v : pyobj) : option Q :=
  match v with
  | PyBool b => Some (if b then 1%Q else 0%Q)
  | PyInt z => Some (inject_Z z)
  | PyFloat q => Some q
  | _ => None
  end.

(** [a == b] on the values that can be keys. *)
Definition key_eqb (a b : pyobj) : bool :=
  match number_of a, number_of b with
  | Some x, Some y => Qeq_bool x y
  | None, None =>
    match a, b with
    | PyNone, PyNone => true
    | PyStr s, PyStr t => str_eqb s t
    | _, _ => false
    end
  | _, _ => false
  end.

(** Lists and dicts cannot be keys: they raise [TypeError] (unhashable). *)
Definition hashable (v : pyobj) : bool :=
  match v with
  | PyList _ | PyDict _ => false
  | _ => true
  end.

(** [d.get(k, 0)] on a dict of counts. *)
Fixpoint count_get (d : list (pyobj * Z)) (k : pyobj) : Z :=
  match d with
  | [] => 0%Z
  | (k', n) :: d' => if key_eqb k' k then n else count_get d' k
  end.

(** [d[k] = n]: a present key keeps its position and its first spelling. *)
Fixpoint count_set (d : list (pyobj * Z)) (k : pyobj) (n : Z)
    : list (pyobj * Z) :=
  match d with
  | [] => [(k, n)]
  | (k', n') :: d' =>
    if key_eqb k' k then (k', n) :: d' else (k', n') :: count_set d' k n
  end.

(** [d[k] = d.get(k, 0) + 1] *)
Definition increment (d : list (pyobj * Z)) (k : pyobj)
    : result (list (pyobj * Z)) :=
  if hashable k then Ok (count_set d k (count_get d k + 1)%Z)
  else Raise TypeError.

(** [sum(d.values())] on a dict of counts. *)
Definition counted (d : list (pyobj * Z)) : Z :=
  fold_right Z.add 0%Z (map snd d).

(** What [get_stats] returns. *)
Record Stats := {
  total_tdrs : Z;
  por_tipo : list (pyobj * Z);
  por_categoria : list (pyobj * Z)
}.

Section ChromaDBClient.

(** The collection, with [collection.add], [collection.count()] and the
    metadatas of [collection.get(include=["metadatas"])]. *)
Variable Collection : Type.
Variable collection_add :
  list str -> list (list float) -> list dict -> list str ->
  Collection -> result unit * Collection.
Variable collection_count : Collection -> result Z.
Variable collection_get_metadatas : Collection -> result (list dict).

(** [add_tdr] *)
Definition add_tdr (id : str) (embedding : list float) (metadata : dict)
    (document : str) (c : Collection) : result unit * Collection :=
  collection_add [id] [embedding] [metadata] [document] c.

(** [for metadata in all_data["metadatas"]: ..] *)
Fixpoint stats_loop (metadatas : list dict)
    (por_tipo por_categoria : list (pyobj * Z))
    : result (list (pyobj * Z) * list (pyobj * Z)) :=
  match metadatas with
  | [] => Ok (por_tipo, por_categoria)
  | metadata :: rest =>
    let tipo := dict_get_default metadata (py "tipo") (PyStr (py "UNKNOWN")) in
    let categoria :=
      dict_get_default metadata (py "category") (PyStr (py "UNKNOWN")) in
    por_tipo' <- increment por_tipo tipo ;;
    por_categoria' <- increment por_categoria categoria ;;
    stats_loop rest por_tipo' por_categoria'
  end.

(** [get_stats] *)
Definition get_stats (c : Collection) : result Stats :=
  count <- collection_count c ;;
  counts <- (if (count >? 0)%Z
             then (metadatas <- collection_get_metadatas c ;;
                   stats_loop metadatas [] [])
             else Ok ([], [])) ;;
  Ok {| total_tdrs := count; por_tipo := fst counts;
        por_categoria := snd counts |}.

End ChromaDBClient.

End ChromaStats.

(* ================================================================== *)
(** * [backend/app/config.py]: the allowed origins *)

Module Config.

(** [s.split(sep)] for a separator of one character. *)
Fixpoint split (sep : char) (s : str) : list str :=
  match s with
  | [] => [[]]
  | c :: s' =>
    if char_eqb c sep then [] :: split sep s'
    else
      match split sep s' with
      | p :: ps => (c :: p) :: ps
      | [] => [[c]]
      end
  end.

(** [[origin.strip() for origin in origins_str.split(",") if origin.strip()]] *)
Definition origins_of (origins_str : str) : list str :=
  map strip
    (filter (fun origin => match strip origin with [] => false | _ => true end)
       (split 44%N origins_str)).

(** [parse_cors_origins] *)
Definition parse_cors_origins (origins_str : str) : list str :=
  match origins_str with
  | [] => [py "http://localhost:3000"; py "http://localhost:3001"]
  | _ => origins_of origins_str
  end.

(** The property [Settings.cors_origins], of [self.cors_origins_str]. *)
Definition cors_origins (cors_origins_str : str) : list str :=
  match cors_origins_str with
  | [] => [py "http://localhost:3000"; py "http://localhost:3002"]
  | _ => origins_of cors_origins_str
  end.

End Config.

(* ================================================================== *)
(** * More of the runtime: substrings *)

Module PyText.

(** [sub in text] *)
Fixpoint contains (text sub : str) : bool :=
  startswith text sub
  || match text with
     | [] => false
     | _ :: rest => contains rest sub
     end.

(** [s.replace(old, new)] for a non-empty [old]: the occurrences of [old] are
    replaced from the left, without overlap.  [skip] counts the characters of
    an occurrence still to be dropped. *)
Fixpoint replace_from (old new : str) (skip : nat) (s : str) : str :=
  match s with
  | [] => []
  | c :: s' =>
    match skip with
    | S k => replace_from old new k s'
    | O =>
      if startswith s old
      then new ++ replace_from old new (length old - 1) s'
      else c :: replace_from old new 0 s'
    end
  end.

Definition replace (s old new : str) : str := replace_from old new 0 s.

(** A text that does not start with white space. *)
Definition head_solid (s : str) : Prop :=
  match s with
  | [] => True
  | c :: _ => isspace c = false
  end.

(** [l[i:j]] for [0 <= i]. *)
Definition slice {A} (i j : nat) (l : list A) : list A :=
  firstn (j - i) (skipn i l).

End PyText.
Export PyText.

(* ================================================================== *)
(** * [backend/app/services/embeddings.py], continued: the callers' values *)

Module EmbeddingsAny.

Section EmbeddingService.

Context `{Runtime}.

(** A value whose flattening fails: a list that starts with an object and has
    a value that is no object at its second or third place. *)
Definition mixed_list (v : pyobj) : Prop :=
  exists d l x,
    v = PyList (PyDict d :: l) /\ In x (firstn 2 l)
    /\ forall d', x <> PyDict d'.

(** [x == field] for an element of a list. *)
Definition is_str (field : str) (x : pyobj) : bool :=
  match x with
  | PyStr s => str_eqb s field
  | _ => false
  end.

(** [create_tdr_text] on whatever the callers read as [fields].  On a dict it
    is [create_tdr_text].  On a list or a string the test [field in fields] is
    a membership or substring test and, where it holds, [fields[field]] raises
    [TypeError]; on [None] and on numbers the test itself raises
    [TypeError]. *)
Definition create_tdr_text_any (fields : pyobj) (tipo : str) : result str :=
  match fields with
  | PyDict d => create_tdr_text d tipo
  | PyList l =>
    if existsb (fun field => existsb (is_str field) l) priority_fields
    then Raise TypeError
    else Ok (py "Tipo: " ++ tipo)
  | PyStr s =>
    if existsb (fun field => contains s field) priority_fields
    then Raise TypeError
    else Ok (py "Tipo: " ++ tipo)
  | _ => Raise TypeError
  end.

End EmbeddingService.

End EmbeddingsAny.
Export EmbeddingsAny.

(* ================================================================== *)
(** * [backend/scripts/load_tdrs.py] *)

Module LoadTdrs.

(** [CATEGORY_TO_TIPO] *)
Definition CATEGORY_TO_TIPO : list (str * TdrTipo) :=
  [ (py "Bien", BIEN);
    (py "Servicio", SERVICIO);
    (py "Consultoria de obra", CONSULTORIA_OBRA);
    (py "Obra", OBRA);
    (py "Archivos de distintos tipos", SERVICIO) ].

(** The size the stored JSON text of the fields is cut to:
    [json.dumps(fields, ensure_ascii=False)[:10000]]. *)
Definition fields_json_limit : nat := 10000.

Fixpoint table_get {A} (table : list (str * A)) (k : str) : option A :=
  match table with
  | [] => None
  | (k', v) :: rest => if str_eqb k' k then Some v else table_get rest k
  end.

Section Script.

Context `{Runtime}.

(** [str.lower] *)
Variable lower : str -> str.

(** [detect_tipo]; a category that is a list or a dict cannot be looked up
    ([TypeError]), any other value that is no key of the table is not found. *)
Definition detect_tipo (fields : pyobj) (category : pyobj) : result TdrTipo :=
  match category with
  | PyList _ | PyDict _ => Raise TypeError
  | _ =>
    match match category with
          | PyStr s => table_get CATEGORY_TO_TIPO s
          | _ => None
          end with
    | Some t => Ok t
    | None =>
      let text := lower (json_dumps fields) in
      if contains text (py "bien") || contains text (py "adquisición")
         || contains text (py "suministro")
      then Ok BIEN
      else if contains text (py "obra") && contains text (py "consultoría")
      then Ok CONSULTORIA_OBRA
      else if contains text (py "obra") || contains text (py "construcción")
      then Ok OBRA
      else Ok SERVICIO
    end
  end.

(** [process_tdr], from the value [load_json_file] returns and the name, the
    parent directory name and the stem of [json_path]; it returns the id, the
    text for the embedding and the metadata.  [data.get] raises
    [AttributeError] when [data] is no dict. *)
Definition process_tdr (data : pyobj) (name parent_name stem : str)
    : result (str * str * dict) :=
  match data with
  | PyDict d =>
    let filename := dict_get_default d (py "filename") (PyStr name) in
    let category := dict_get_default d (py "category") (PyStr parent_name) in
    let fields := dict_get_default d (py "fields") (PyDict []) in
    tipo <- detect_tipo fields category ;;
    text_for_embedding <- create_tdr_text_any fields (value tipo) ;;
    let tdr_id :=
      replace (replace (py_str category ++ py "_" ++ stem) (py " ") (py "_"))
        (py ".") (py "_") in
    let metadata :=
      [ (py "filename", filename);
        (py "category", category);
        (py "tipo", PyStr (value tipo));
        (py "fields_json",
         PyStr (slice_to fields_json_limit (json_dumps fields))) ] in
    Ok (tdr_id, text_for_embedding, metadata)
  | _ => Raise AttributeError
  end.

End Script.

End LoadTdrs.

(* ================================================================== *)
(** * [backend/scripts/import_tdrs.py] *)

Module ImportTdrs.

(** [CATEGORY_TO_TIPO] *)
Definition CATEGORY_TO_TIPO : list (str * str) :=
  [ (py "Bien", py "BIEN");
    (py "Servicio", py "SERVICIO");
    (py "Obra", py "OBRA");
    (py "Consultoria de obra", py "CONSULTORIA_OBRA");
    (py "Archivos de distintos tipos", py "SERVICIO") ].

Definition batch_size : nat := 50.

(** The size the stored JSON text of the fields is cut to:
    [json.dumps(fields, ensure_ascii=False)[:50000]]. *)
Definition fields_json_limit : nat := 50000.

(** [range(0, n, batch_size)] *)
Definition offsets (n : nat) : list nat :=
  map (fun k => k * batch_size) (seq 0 ((n + batch_size - 1) / batch_size)).

Section Script.

Context `{Runtime}.

(** [process_tdr]; [None] is returned for a file without success mark or
    without fields.  [data.get] raises [AttributeError] when [data] is no
    dict, and so does [filename.replace] when the file name is no string. *)
Definition process_tdr (data : pyobj) (category : str)
    : result (option (str * dict * str)) :=
  match data with
  | PyDict d =>
    if negb (truthy (dict_get_default d (py "success") (PyBool false)))
    then Ok None
    else
      let fields := dict_get_default d (py "fields") (PyDict []) in
      if negb (truthy fields) then Ok None
      else
        let filename :=
          dict_get_default d (py "filename") (PyStr (py "unknown.pdf")) in
        let tipo :=
          match LoadTdrs.table_get CATEGORY_TO_TIPO category with
          | Some t => t
          | None => py "SERVICIO"
          end in
        text <- create_tdr_text_any fields tipo ;;
        let metadata :=
          [ (py "filename", filename);
            (py "tipo", PyStr tipo);
            (py "category", PyStr category);
            (py "page_count", dict_get_default d (py "page_count") (PyInt 0));
            (py "fields_json",
             PyStr (slice_to fields_json_limit (json_dumps fields))) ] in
        match filename with
        | PyStr f =>
          let tdr_id :=
            tipo ++ py "_" ++ replace (replace f (py " ") (py "_")) (py ".pdf") [] in
          Ok (Some (tdr_id, metadata, text))
        | _ => Raise AttributeError
        end
  | _ => Raise AttributeError
  end.

(** [embedding_service.get_embeddings_batch] *)
Variable get_embeddings_batch : list str -> list (list float).

(** The loop of [import_all_tdrs] that embeds the documents:
[[
    for i in range(0, len(documents), batch_size):
        batch = documents[i:i+batch_size]
        embeddings.extend(embedding_service.get_embeddings_batch(batch))
]] *)
Definition embed_in_batches (documents : list str) : list (list float) :=
  fold_left
    (fun embeddings i =>
       embeddings
         ++ get_embeddings_batch (slice i (i + batch_size) documents))
    (offsets (length documents)) [].

Variable Collection : Type.
Variable collection_add :
  list str -> list (list float) -> list dict -> list str ->
  Collection -> result unit * Collection.

(** The loop of [import_all_tdrs] that inserts:
[[
    for i in range(0, len(ids), batch_size):
        end = min(i + batch_size, len(ids))
        chroma_client.add_tdrs_batch(ids=ids[i:end], ..)
]]
    An exception ends the loop. *)
Fixpoint insert_loop (starts : list nat) (ids : list str)
    (embeddings : list (list float)) (metadatas : list dict)
    (documents : list str) (c : Collection) : result unit * Collection :=
  match starts with
  | [] => (Ok tt, c)
  | i :: rest =>
    let end_ := Nat.min (i + batch_size) (length ids) in
    match add_tdrs_batch collection_add (slice i end_ ids)
            (slice i end_ embeddings) (slice i end_ metadatas)
            (slice i end_ documents) c with
    | (Ok _, c') => insert_loop rest ids embeddings metadatas documents c'
    | (Raise e, c') => (Raise e, c')
    end
  end.

Definition insert_in_batches (ids : list str) (embeddings : list (list float))
    (metadatas : list dict) (documents : list str) (c : Collection)
    : result unit * Collection :=
  insert_loop (offsets (length ids)) ids embeddings metadatas documents c.

End Script.

End ImportTdrs.

(* ================================================================== *)
(** * [backend/app/services/rag.py], continued: what [generate_fields] sends
      and the confidence it gives *)

Module RagMore.

Section RAGService.

Context `{Runtime}.

Variable model : str.

(** The request of [generate_fields] after a search that returned
    [referencias]: that of [_generate_without_context] when there is none,
    that of [_generate_with_gemini] otherwise. *)
Definition request_for (tipo : TdrTipo) (referencias : list TdrSearchResult)
    (descripcion_inicial objeto_contratacion : option str)
    (campos_parciales : option (list (str * str))) : GenerateRequest :=
  match referencias with
  | [] =>
    request_without_context model tipo descripcion_inicial objeto_contratacion
  | _ :: _ =>
    request_with_context model tipo referencias descripcion_inicial
      objeto_contratacion campos_parciales
  end.

(** The confidence of the response: [0.3] without references,
    [sum(r.similarity for r in referencias) / len(referencias)] with. *)
Definition confidence_for (referencias : list TdrSearchResult) : float :=
  match referencias with
  | [] => float_of_decimal 0.3%Q
  | _ :: _ => fdiv (sum (map similarity referencias)) (len referencias)
  end.

End RAGService.

End RagMore.
Export RagMore.

(* ================================================================== *)
(** * More example data *)

Module Examples2.

(** A collection with a row whose stored type is no type of the service. *)
Definition row_bad_tipo : RefStore.Row :=
  {| RefStore.row_id := py "tdr-z";
     RefStore.row_embedding := [1; 0]%Q;
     RefStore.row_metadata :=
       [ (py "filename", PyStr (py "z.json"));
         (py "tipo", PyStr (py "UNKNOWN")) ];
     RefStore.row_document := py "Tipo: UNKNOWN" |}.

Definition collection_bad : RefStore.Collection :=
  [Examples.row_a; row_bad_tipo].

(** A store that answers every query with two ids and nothing else. *)
Definition ids_only_query (c : unit) (query_embeddings : list (list float))
    (n_results : Z) (where_filter : option dict) : result QueryResult :=
  Ok {| ids := [[py "tdr-1"; py "tdr-2"]]; metadatas := None;
        distances := None |}.

(** A store that cannot be reached and a generator that is out of service. *)
Definition failing_query (c : unit) (query_embeddings : list (list float))
    (n_results : Z) (where_filter : option dict) : result QueryResult :=
  Raise ServiceError.

Definition reply_fails (calls : list GenerateRequest) (req : GenerateRequest)
    : result str :=
  Raise ServiceError.

(** [collection.count()] and the metadatas of [collection.get(..)] on the
    reference collection. *)
Definition count (c : RefStore.Collection) : result Z :=
  Ok (Z.of_nat (length c)).

Definition get_metadatas (c : RefStore.Collection) : result (list dict) :=
  Ok (map RefStore.row_metadata c).

(** Two rows next to the origin: at the squared distances [2^-60] and
    [2^-58] from the query [[0; 0]]. *)
Definition row_p : RefStore.Row :=
  {| RefStore.row_id := py "tdr-p";
     RefStore.row_embedding := [pow2 (-30); 0]%Q;
     RefStore.row_metadata :=
       [ (py "filename", PyStr (py "p.json"));
         (py "tipo", PyStr (py "SERVICIO")) ];
     RefStore.row_document := py "Tipo: SERVICIO" |}.

Definition row_q : RefStore.Row :=
  {| RefStore.row_id := py "tdr-q";
     RefStore.row_embedding := [pow2 (-29); 0]%Q;
     RefStore.row_metadata :=
       [ (py "filename", PyStr (py "q.json"));
         (py "tipo", PyStr (py "SERVICIO")) ];
     RefStore.row_document := py "Tipo: SERVICIO" |}.

Definition collection_close : RefStore.Collection := [row_q; row_p].



End Examples2.

(* ================================================================== *)
(** * Properties of the runtime functions *)

Section StringFacts.

Lemma char_eqb_eq (a b : char) : char_eqb a b = true <-> a = b.
Proof. unfold char_eqb. apply N.eqb_eq. Qed.

Lemma char_eqb_refl (a : char) : char_eqb a a = true.
Proof. apply char_eqb_eq. reflexivity. Qed.

Lemma char_eqb_neq (a b : char) : char_eqb a b = false <-> a <> b.
Proof. unfold char_eqb. apply N.eqb_neq. Qed.

Lemma str_eqb_eq (a b : str) : str_eqb a b = true <-> a = b.
Proof.
  revert b. induction a as [|x a IH]; intros [|y b]; simpl; split;
    try congruence; try reflexivity.
  - intros E. apply andb_true_iff in E. destruct E as [E1 E2].
    apply char_eqb_eq in E1. apply IH in E2. congruence.
  - intros E. inversion E; subst. rewrite char_eqb_refl.
    apply (IH b). reflexivity.
Qed.

Lemma str_eqb_refl (a : str) : str_eqb a a = true.
Proof. apply str_eqb_eq. reflexivity. Qed.

(** [startswith] *)

Lemma startswith_app (p r : str) : startswith (p ++ r) p = true.
Proof.
  induction p as [|c p IH]; simpl.
  - destruct r; reflexivity.
  - rewrite char_eqb_refl. exact IH.
Qed.

Lemma startswith_head_neq (c x : char) (s p : str) :
  c <> x -> startswith (c :: s) (x :: p) = false.
Proof.
  intros N. simpl. apply char_eqb_neq in N. rewrite N. reflexivity.
Qed.

Lemma startswith_prefix (s p : str) :
  startswith s p = true -> exists r, s = p ++ r.
Proof.
  revert s. induction p as [|x p IH]; intros s E.
  - exists s. reflexivity.
  - destruct s as [|c s]; simpl in E; [discriminate|].
    apply andb_true_iff in E. destruct E as [E1 E2].
    apply char_eqb_eq in E1. subst c.
    destruct (IH _ E2) as [r ->]. exists r. reflexivity.
Qed.

Lemma endswith_app (a p : str) : endswith (a ++ p) p = true.
Proof. unfold endswith. rewrite rev_app_distr. apply startswith_app. Qed.

Lemma endswith_suffix (s p : str) :
  endswith s p = true -> exists a, s = a ++ p.
Proof.
  unfold endswith. intros E. apply startswith_prefix in E.
  destruct E as [r E]. exists (rev r).
  rewrite <- (rev_involutive s), E, rev_app_distr, rev_involutive.
  reflexivity.
Qed.

Lemma endswith_last_neq (s p : str) (c x : char) :
  c <> x -> endswith (s ++ [c]) (p ++ [x]) = false.
Proof.
  intros N. unfold endswith. rewrite !rev_app_distr. simpl.
  apply char_eqb_neq in N. rewrite N. reflexivity.
Qed.

Lemma slice_from_app (p r : str) : slice_from (length p) (p ++ r) = r.
Proof.
  unfold slice_from. rewrite skipn_app, skipn_all, Nat.sub_diag. reflexivity.
Qed.

Lemma slice_to_minus_app (a p : str) :
  slice_to_minus (length p) (a ++ p) = a.
Proof.
  unfold slice_to_minus. rewrite length_app, Nat.add_sub.
  rewrite firstn_app, firstn_all, Nat.sub_diag. simpl.
  apply app_nil_r.
Qed.

Lemma slice_to_length (n : nat) (s : str) : length (slice_to n s) <= n.
Proof. unfold slice_to. apply firstn_le_length. Qed.

(** [strip] *)

Lemma lstrip_blank (w t : str) : blank w -> lstrip (w ++ t) = lstrip t.
Proof.
  induction 1 as [|c w Hc _ IH]; simpl; [reflexivity|].
  rewrite Hc. exact IH.
Qed.

Lemma lstrip_head (c : char) (t : str) :
  isspace c = false -> lstrip (c :: t) = c :: t.
Proof. intros E. simpl. rewrite E. reflexivity. Qed.

Lemma rstrip_blank (w t : str) : blank w -> rstrip (t ++ w) = rstrip t.
Proof.
  intros B. unfold rstrip. rewrite rev_app_distr, lstrip_blank; [reflexivity|].
  unfold blank. apply Forall_rev. exact B.
Qed.

Lemma rstrip_last (c : char) (t : str) :
  isspace c = false -> rstrip (t ++ [c]) = t ++ [c].
Proof.
  intros E. unfold rstrip. rewrite rev_app_distr. simpl. rewrite E.
  simpl. rewrite rev_involutive. reflexivity.
Qed.

(** A text that starts and ends with a character that is no white space. *)
Let solid (s : str) : Prop :=
  exists x body y, s = x :: body ++ [y] /\ isspace x = false /\ isspace y = false.

Lemma strip_blank_solid (w1 w2 s : str) :
  blank w1 -> blank w2 -> solid s -> strip (w1 ++ s ++ w2) = s.
Proof.
  intros B1 B2 (x & body & y & -> & Hx & Hy). unfold strip.
  rewrite lstrip_blank by exact B1.
  change ((x :: body ++ [y]) ++ w2) with (x :: (body ++ [y]) ++ w2).
  rewrite lstrip_head by exact Hx.
  change (x :: (body ++ [y]) ++ w2) with ((x :: body ++ [y]) ++ w2).
  rewrite rstrip_blank by exact B2.
  change (x :: body ++ [y]) with ((x :: body) ++ [y]).
  apply rstrip_last. exact Hy.
Qed.

Lemma strip_solid (s : str) : solid s -> strip s = s.
Proof.
  intros S. pose proof (@strip_blank_solid [] [] s) as E.
  simpl in E. rewrite app_nil_r in E. apply E; try constructor. exact S.
Qed.

End StringFacts.

(* ================================================================== *)
(** * The response parser *)

Section ParserFacts.

Context {rt : Runtime}.

Lemma fence_json_chars : py "```json" = [96; 96; 96; 106; 115; 111; 110]%N.
Proof. reflexivity. Qed.

Lemma fence_chars : py "```" = [96; 96; 96]%N.
Proof. reflexivity. Qed.

(** An object text between a prefix and a suffix. *)
Let around (body p q : str) : str := p ++ 123%N :: body ++ 125%N :: q.

Lemma rev_around body p q :
  rev (around body p q) = rev q ++ 125%N :: rev body ++ 123%N :: rev p.
Proof.
  unfold around. rewrite rev_app_distr. simpl. rewrite rev_app_distr. simpl.
  repeat rewrite <- app_assoc. reflexivity.
Qed.

Lemma around_rev body p q :
  rev (q ++ 125%N :: rev body ++ 123%N :: rev p) = around body p (rev q).
Proof.
  rewrite <- (rev_involutive q) at 1. rewrite <- rev_around.
  apply rev_involutive.
Qed.

Lemma lstrip_keeps (x : char) (p rest : str) :
  isspace x = false ->
  exists p', lstrip (p ++ x :: rest) = p' ++ x :: rest /\ incl p' p.
Proof.
  intros Hx. induction p as [|c p IH].
  - exists []. simpl. rewrite Hx. split; [reflexivity|apply incl_refl].
  - simpl. destruct (isspace c).
    + destruct IH as (p' & E & I). exists p'. split; [exact E|].
      apply incl_tl. exact I.
    + exists (c :: p). split; [reflexivity|apply incl_refl].
Qed.

Lemma skip_prefix_keeps (x : char) (pat p rest : str) :
  ~ In x pat -> startswith (p ++ x :: rest) pat = true ->
  exists p', skipn (length pat) (p ++ x :: rest) = p' ++ x :: rest /\ incl p' p.
Proof.
  revert p. induction pat as [|a pat IH]; intros p N E.
  - exists p. split; [reflexivity|apply incl_refl].
  - destruct p as [|c p]; simpl in E.
    + apply andb_true_iff in E. destruct E as [E _].
      apply char_eqb_eq in E. exfalso. apply N. left. symmetry. exact E.
    + apply andb_true_iff in E. destruct E as [_ E].
      destruct (IH p) as (p' & E' & I); [|exact E|].
      * intros F. apply N. right. exact F.
      * exists p'. split; [exact E'|]. apply incl_tl. exact I.
Qed.

Lemma incl_not_in (x : char) (a b : str) : incl a b -> ~ In x b -> ~ In x a.
Proof. intros I N F. apply N, I, F. Qed.

Lemma incl_rev_l (a b : str) : incl a b -> incl (rev a) b.
Proof. intros I x F. apply I. apply in_rev. exact F. Qed.

Lemma incl_rev_r (a b : str) : incl a (rev b) -> incl a b.
Proof. intros I x F. apply in_rev. apply I. exact F. Qed.

Lemma lstrip_around body p q :
  exists p', lstrip (around body p q) = around body p' q /\ incl p' p.
Proof. unfold around. apply lstrip_keeps. reflexivity. Qed.

Lemma rstrip_around body p q :
  exists q', rstrip (around body p q) = around body p q' /\ incl q' q.
Proof.
  unfold rstrip. rewrite rev_around.
  destruct (@lstrip_keeps 125%N (rev q) (rev body ++ 123%N :: rev p))
    as (q' & E & I); [reflexivity|].
  rewrite E. exists (rev q'). split; [apply around_rev|].
  apply incl_rev_l, incl_rev_r. exact I.
Qed.

Lemma strip_around body p q :
  exists p' q', strip (around body p q) = around body p' q'
                /\ incl p' p /\ incl q' q.
Proof.
  unfold strip. destruct (lstrip_around body p q) as (p' & -> & Ip).
  destruct (rstrip_around body p' q) as (q' & -> & Iq).
  exists p', q'. auto.
Qed.

Lemma skip_prefix_around (pat : str) body p q :
  ~ In 123%N pat -> startswith (around body p q) pat = true ->
  exists p', slice_from (length pat) (around body p q) = around body p' q
             /\ incl p' p.
Proof. unfold around, slice_from. apply skip_prefix_keeps. Qed.

Lemma drop_suffix_around (pat : str) body p q :
  ~ In 125%N pat -> endswith (around body p q) pat = true ->
  exists q', slice_to_minus (length pat) (around body p q) = around body p q'
             /\ incl q' q.
Proof.
  intros N E. unfold endswith in E. rewrite rev_around in E.
  destruct (@skip_prefix_keeps 125%N (rev pat) (rev q)
              (rev body ++ 123%N :: rev p)) as (q' & E' & I).
  - intros F. apply N. apply in_rev. exact F.
  - exact E.
  - exists (rev q'). split.
    + unfold slice_to_minus.
      rewrite <- (rev_involutive (firstn _ _)), <- skipn_rev, rev_around.
      rewrite length_rev in E'. rewrite E'. apply around_rev.
    + apply incl_rev_l, incl_rev_r. exact I.
Qed.

Lemma strip_fences_around body p q :
  exists p' q', strip_fences (around body p q) = around body p' q'
                /\ incl p' p /\ incl q' q.
Proof.
  unfold strip_fences.
  destruct (strip_around body p q) as (p1 & q1 & -> & Ip1 & Iq1).
  assert (exists p2, (if startswith (around body p1 q1) (py "```json")
                      then slice_from 7 (around body p1 q1)
                      else around body p1 q1) = around body p2 q1
                     /\ incl p2 p1) as (p2 & -> & Ip2).
  { destruct (startswith _ _) eqn:E.
    - apply (skip_prefix_around (py "```json")); [|exact E].
      rewrite fence_json_chars. simpl. intuition discriminate.
    - exists p1. split; [reflexivity|apply incl_refl]. }
  assert (exists p3, (if startswith (around body p2 q1) (py "```")
                      then slice_from 3 (around body p2 q1)
                      else around body p2 q1) = around body p3 q1
                     /\ incl p3 p2) as (p3 & -> & Ip3).
  { destruct (startswith _ _) eqn:E.
    - apply (skip_prefix_around (py "```")); [|exact E].
      rewrite fence_chars. simpl. intuition discriminate.
    - exists p2. split; [reflexivity|apply incl_refl]. }
  assert (exists q2, (if endswith (around body p3 q1) (py "```")
                      then slice_to_minus 3 (around body p3 q1)
                      else around body p3 q1) = around body p3 q2
                     /\ incl q2 q1) as (q2 & -> & Iq2).
  { destruct (endswith _ _) eqn:E.
    - apply (drop_suffix_around (py "```")); [|exact E].
      rewrite fence_chars. simpl. intuition discriminate.
    - exists q1. split; [reflexivity|apply incl_refl]. }
  destruct (strip_around body p3 q2) as (p4 & q4 & -> & Ip4 & Iq4).
  exists p4, q4. split; [reflexivity|]. split.
  - eapply incl_tran; [exact Ip4|]. eapply incl_tran; [exact Ip3|].
    eapply incl_tran; [exact Ip2|exact Ip1].
  - eapply incl_tran; [exact Iq4|]. eapply incl_tran; [exact Iq2|exact Iq1].
Qed.

Lemma from_first_skips (x : char) (p rest : str) :
  ~ In x p -> from_first x (p ++ x :: rest) = Some (x :: rest).
Proof.
  induction p as [|c p IH]; intros N; simpl.
  - rewrite char_eqb_refl. reflexivity.
  - assert (char_eqb c x = false) as ->.
    { apply char_eqb_neq. intros ->. apply N. left. reflexivity. }
    apply IH. intros F. apply N. right. exact F.
Qed.

Lemma search_braces_around body p q :
  ~ In 123%N p -> ~ In 125%N q ->
  search_braces (around body p q) = Some (123%N :: body ++ [125%N]).
Proof.
  intros Np Nq. unfold search_braces, around.
  rewrite from_first_skips by exact Np. unfold through_last.
  change (123%N :: body ++ 125%N :: q) with (around body [] q).
  rewrite rev_around, from_first_skips.
  - simpl. rewrite rev_app_distr. simpl. rewrite rev_involutive.
    reflexivity.
  - intros F. apply Nq. apply in_rev. exact F.
Qed.

End ParserFacts.

(** Equality of lists up to the association of [++]. *)
Ltac list_assoc :=
  repeat (cbn [app]; rewrite <- ?app_assoc); reflexivity.

Section ParserTheorems.

Context {rt : Runtime}.

Lemma object_text_ends (body : str) :
  exists x b y, 123%N :: body ++ [125%N] = x :: b ++ [y]
                /\ isspace x = false /\ isspace y = false.
Proof. exists 123%N, body, 125%N. repeat split. Qed.

Lemma blank_then_brace (w t p : str) (a : char) :
  blank w -> isspace a = false -> a <> 123%N ->
  startswith (w ++ 123%N :: t) (a :: p) = false.
Proof.
  intros B Ha Na. destruct B as [|c w Hc _]; cbn [app startswith].
  - assert (char_eqb 123 a = false) as ->; [|reflexivity].
    apply char_eqb_neq. congruence.
  - assert (char_eqb c a = false) as ->; [|reflexivity].
    apply char_eqb_neq. intros ->. congruence.
Qed.

(** The steps of [strip_fences], one after the other. *)
Let cut_json (c : str) : str :=
  if startswith c (py "```json") then slice_from 7 c else c.
Let cut_open (c : str) : str :=
  if startswith c (py "```") then slice_from 3 c else c.
Let cut_close (c : str) : str :=
  if endswith c (py "```") then slice_to_minus 3 c else c.

Lemma strip_fences_steps (c : str) :
  strip_fences c = strip (cut_close (cut_open (cut_json (strip c)))).
Proof. reflexivity. Qed.

Lemma cut_json_object (body : str) :
  cut_json (123%N :: body) = 123%N :: body.
Proof. reflexivity. Qed.

Lemma cut_open_blank_brace (w t : str) :
  blank w -> cut_open (w ++ 123%N :: t) = w ++ 123%N :: t.
Proof.
  intros B. unfold cut_open. rewrite fence_chars.
  rewrite blank_then_brace; [reflexivity|exact B|reflexivity|discriminate].
Qed.

Lemma cut_close_fence (a : str) : cut_close (a ++ py "```") = a.
Proof.
  unfold cut_close. rewrite endswith_app.
  change 3 with (length (py "```")). apply slice_to_minus_app.
Qed.

Lemma strip_fences_object (s : str) : object_text s -> strip_fences s = s.
Proof.
  intros [body ->]. rewrite strip_fences_steps.
  rewrite (@strip_solid (123%N :: body ++ [125%N]))
    by apply object_text_ends.
  rewrite cut_json_object.
  assert (cut_open (123%N :: body ++ [125%N]) = 123%N :: body ++ [125%N])
    as ->.
  { apply (@cut_open_blank_brace [] (body ++ [125%N])). constructor. }
  assert (cut_close (123%N :: body ++ [125%N]) = 123%N :: body ++ [125%N])
    as ->.
  { unfold cut_close. rewrite fence_chars.
    assert (endswith (123%N :: body ++ [125%N]) [96; 96; 96]%N = false) as ->;
      [|reflexivity].
    apply (@endswith_last_neq (123%N :: body) [96; 96]%N 125%N 96%N).
    discriminate. }
  apply strip_solid. apply object_text_ends.
Qed.

(** What is left of a fenced text once the opening fence is removed. *)
Lemma strip_fences_tail (w1 w2 s : str) :
  object_text s -> blank w1 -> blank w2 ->
  strip (cut_close (cut_open (w1 ++ s ++ w2 ++ py "```"))) = s.
Proof.
  intros [body ->] B1 B2.
  replace (w1 ++ (123%N :: body ++ [125%N]) ++ w2 ++ py "```")
    with (w1 ++ 123%N :: ((body ++ [125%N]) ++ w2 ++ py "```"))
    by reflexivity.
  rewrite cut_open_blank_brace by exact B1.
  replace (w1 ++ 123%N :: ((body ++ [125%N]) ++ w2 ++ py "```"))
    with ((w1 ++ (123%N :: body ++ [125%N]) ++ w2) ++ py "```")
    by list_assoc.
  rewrite cut_close_fence.
  apply strip_blank_solid; [exact B1|exact B2|apply object_text_ends].
Qed.

Lemma strip_of_fenced (x : char) (m : str) :
  isspace x = false -> strip (x :: m ++ py "```") = x :: m ++ py "```".
Proof.
  intros Hx. apply strip_solid. exists x, (m ++ [96; 96]%N), 96%N.
  rewrite fence_chars. repeat split; [|exact Hx].
  rewrite <- app_assoc. reflexivity.
Qed.

Lemma strip_fences_fenced_json (w1 w2 s : str) :
  object_text s -> blank w1 -> blank w2 ->
  strip_fences (py "```json" ++ w1 ++ s ++ w2 ++ py "```") = s.
Proof.
  intros S B1 B2. rewrite strip_fences_steps.
  assert (strip (py "```json" ++ w1 ++ s ++ w2 ++ py "```")
          = py "```json" ++ w1 ++ s ++ w2 ++ py "```") as ->.
  { rewrite fence_json_chars.
    replace ([96; 96; 96; 106; 115; 111; 110]%N ++ w1 ++ s ++ w2 ++ py "```")
      with (96%N :: ([96; 96; 106; 115; 111; 110]%N ++ w1 ++ s ++ w2)
                  ++ py "```")
      by list_assoc.
    apply strip_of_fenced. reflexivity. }
  assert (cut_json (py "```json" ++ w1 ++ s ++ w2 ++ py "```")
          = w1 ++ s ++ w2 ++ py "```") as ->.
  { unfold cut_json. rewrite startswith_app.
    change 7 with (length (py "```json")). apply slice_from_app. }
  apply strip_fences_tail; assumption.
Qed.

Lemma strip_fences_fenced_plain (w1 w2 s : str) :
  object_text s -> blank w1 -> blank w2 ->
  strip_fences (py "```" ++ w1 ++ s ++ w2 ++ py "```") = s.
Proof.
  intros S B1 B2. rewrite strip_fences_steps.
  assert (strip (py "```" ++ w1 ++ s ++ w2 ++ py "```")
          = py "```" ++ w1 ++ s ++ w2 ++ py "```") as ->.
  { rewrite fence_chars at 1 3.
    replace ([96; 96; 96]%N ++ w1 ++ s ++ w2 ++ py "```")
      with (96%N :: ([96; 96]%N ++ w1 ++ s ++ w2) ++ py "```")
      by list_assoc.
    apply strip_of_fenced. reflexivity. }
  assert (cut_json (py "```" ++ w1 ++ s ++ w2 ++ py "```")
          = py "```" ++ w1 ++ s ++ w2 ++ py "```") as ->.
  { unfold cut_json.
    assert (startswith (py "```" ++ w1 ++ s ++ w2 ++ py "```") (py "```json")
            = false) as ->; [|reflexivity].
    destruct S as [body ->]. rewrite fence_json_chars, fence_chars.
    cbn [app startswith]. rewrite !char_eqb_refl. cbn [andb].
    replace (w1 ++ (123%N :: body ++ [125%N]) ++ w2 ++ [96; 96; 96]%N)
      with (w1 ++ 123%N :: ((body ++ [125%N]) ++ w2 ++ [96; 96; 96]%N))
      by reflexivity.
    apply blank_then_brace; [exact B1|reflexivity|discriminate]. }
  assert (cut_open (py "```" ++ w1 ++ s ++ w2 ++ py "```")
          = cut_open (w1 ++ s ++ w2 ++ py "```")) as ->.
  { unfold cut_open at 1. rewrite startswith_app.
    change 3 with (length (py "```")) at 1. rewrite slice_from_app.
    destruct S as [body ->].
    replace (w1 ++ (123%N :: body ++ [125%N]) ++ w2 ++ py "```")
      with (w1 ++ 123%N :: ((body ++ [125%N]) ++ w2 ++ py "```"))
      by reflexivity.
    rewrite cut_open_blank_brace by exact B1. reflexivity. }
  apply strip_fences_tail; assumption.
Qed.

Lemma parse_when_loads (content : str) (v : pyobj) :
  json_loads (strip_fences content) = Some v ->
  _parse_json_response content = v.
Proof. intros E. unfold _parse_json_response. rewrite E. reflexivity. Qed.

Lemma parse_unparseable (text : str) :
  unparseable text ->
  _parse_json_response text = error_payload (strip_fences text).
Proof.
  intros [E1 E2]. unfold _parse_json_response. rewrite E1.
  destruct (search_braces (strip_fences text)) as [span|] eqn:Es;
    [|reflexivity].
  rewrite (E2 span eq_refl). reflexivity.
Qed.

Lemma parse_embedded (pre post s : str) (X : pyobj) :
  object_text s -> json_loads s = Some X ->
  ~ In 123%N pre -> ~ In 125%N post ->
  (forall v, json_loads (strip_fences (pre ++ s ++ post)) = Some v -> v = X) ->
  _parse_json_response (pre ++ s ++ post) = X.
Proof.
  intros [body ->] L Np Nq Hv. unfold _parse_json_response.
  destruct (json_loads (strip_fences _)) as [v|] eqn:E1.
  - apply Hv. reflexivity.
  - clear Hv E1.
    replace (pre ++ (123%N :: body ++ [125%N]) ++ post)
      with (pre ++ 123%N :: body ++ 125%N :: post)
      by (simpl; rewrite <- app_assoc; reflexivity).
    destruct (strip_fences_around body pre post) as (p' & q' & -> & Ip & Iq).
    rewrite search_braces_around.
    + rewrite L. reflexivity.
    + eapply incl_not_in; eassumption.
    + eapply incl_not_in; eassumption.
Qed.

End ParserTheorems.

(** ** C4 and C10 *)

(** C4 (amended). For a text [s] of a JSON object that [json.loads] reads as
    [X], the parser returns [X] on [s] itself, on [s] inside a code fence with
    or without the [json] tag, and on [s] between a leading prose without
    opening brace and a trailing prose without closing brace (the whole not
    being another JSON document).  On a reply in which no stage finds JSON it
    returns the mapping with the keys [error] and [raw], where [raw] is the
    first 500 characters of the reply after the removal of white space and
    fences. *)
Theorem parse_json_response_recovers :
  forall (rt : Runtime) (X : pyobj) (s : str),
    object_text s ->
    json_loads s = Some X ->
    _parse_json_response s = X
    /\ (forall w1 w2, blank w1 -> blank w2 ->
          _parse_json_response (py "```json" ++ w1 ++ s ++ w2 ++ py "```") = X
          /\ _parse_json_response (py "```" ++ w1 ++ s ++ w2 ++ py "```") = X)
    /\ (forall pre post,
          ~ In 123%N pre -> ~ In 125%N post ->
          (forall v, json_loads (strip_fences (pre ++ s ++ post)) = Some v ->
                     v = X) ->
          _parse_json_response (pre ++ s ++ post) = X)
    /\ (forall text, unparseable text ->
          _parse_json_response text
          = PyDict [ (py "error", PyStr (py "No se pudo parsear la respuesta"));
                     (py "raw", PyStr (slice_to 500 (strip_fences text))) ]
          /\ length (slice_to 500 (strip_fences text)) <= 500).
Proof.
  intros rt X s S L. split; [|split; [|split]].
  - apply parse_when_loads. rewrite strip_fences_object; assumption.
  - intros w1 w2 B1 B2. split; apply parse_when_loads.
    + rewrite strip_fences_fenced_json; assumption.
    + rewrite strip_fences_fenced_plain; assumption.
  - intros pre post Np Nq Hv. apply parse_embedded; assumption.
  - intros text U. split; [apply parse_unparseable; exact U|].
    apply slice_to_length.
Qed.

Lemma parse_json_response_recovers_witness :
  let X := PyDict [(py "objeto", PyStr (py "Limpieza de oficinas"))] in
  let s := Reference.dumps X in
  object_text s
  /\ Reference.loads s = Some X
  /\ @_parse_json_response Reference.runtime s = X
  /\ @_parse_json_response Reference.runtime
       (py "```json" ++ nl ++ s ++ nl ++ py "```") = X
  /\ @_parse_json_response Reference.runtime
       (py "Aqui esta el resultado: " ++ s ++ py " Saludos.") = X.
Proof.
  intros X s.
  assert (H1 : object_text s).
  { exists (firstn (length s - 2) (skipn 1 s)). vm_compute. reflexivity. }
  assert (H2 : @json_loads Reference.runtime s = Some X)
    by (vm_compute; reflexivity).
  destruct (@parse_json_response_recovers Reference.runtime X s H1 H2)
    as (P1 & P2 & P3 & _).
  split; [exact H1|]. split; [exact H2|]. split; [exact P1|]. split.
  - apply (P2 nl nl); repeat constructor.
  - apply P3.
    + vm_compute. intuition discriminate.
    + vm_compute. intuition discriminate.
    + vm_compute. discriminate.
Defined.

(** A reply with white space before its text: [raw] holds the cleaned text,
    not the first characters of the reply; and an object after a prose that
    holds a brace of its own is not recovered. *)
Lemma parse_json_response_counterexample :
  (let text := py "  sin respuesta" in
   @unparseable Reference.runtime text
   /\ dict_get
        (match @_parse_json_response Reference.runtime text with
         | PyDict d => d
         | _ => []
         end) (py "raw") = Some (PyStr (py "sin respuesta"))
   /\ py "sin respuesta" <> slice_to 500 text)
  /\ (let X := PyDict [(py "a", PyInt 1)] in
      let s := Reference.dumps X in
      let text := py "usar {llaves}: " ++ s in
      Reference.loads s = Some X
      /\ @_parse_json_response Reference.runtime text <> X).
Proof.
  split.
  - split; [|split].
    + split; [vm_compute; reflexivity|].
      intros span E. vm_compute in E. discriminate.
    + vm_compute. reflexivity.
    + vm_compute. discriminate.
  - split; [vm_compute; reflexivity|]. vm_compute. discriminate.
Qed.

(** C10. Whatever [json.loads] reads from the cleaned reply is returned as it
    is; on the text of a JSON array the parser returns the list, which is no
    mapping. *)
Theorem parse_json_response_non_object :
  (forall (rt : Runtime) (content : str) (v : pyobj),
      json_loads (strip_fences content) = Some v ->
      _parse_json_response content = v)
  /\ exists (content : str) (items : list pyobj),
       Reference.loads content = Some (PyList items)
       /\ @_parse_json_response Reference.runtime content = PyList items
       /\ forall d, PyList items <> PyDict d.
Proof.
  split.
  - intros rt content v E. apply parse_when_loads. exact E.
  - exists (py "[1, 2]"), [PyInt 1; PyInt 2].
    split; [vm_compute; reflexivity|].
    split; [vm_compute; reflexivity|]. intros d. discriminate.
Qed.
(* ================================================================== *)
(** * Rounding to binary64 *)

Section RoundingTheory.

Open Scope Q_scope.

Lemma pow2_pos (e : Z) : 0 < pow2 e.
Proof. unfold pow2. apply Qpower_0_lt. reflexivity. Qed.

Lemma pow2_add (a b : Z) : pow2 (a + b) == pow2 a * pow2 b.
Proof. unfold pow2. apply Qpower_plus. discriminate. Qed.

Lemma pow2_le (a b : Z) : (a <= b)%Z -> pow2 a <= pow2 b.
Proof. intros H. unfold pow2. apply Qpower_le_compat_l; [exact H|discriminate]. Qed.

Lemma pow2_lt (a b : Z) : (a < b)%Z -> pow2 a < pow2 b.
Proof. intros H. unfold pow2. apply Qpower_lt_compat_l; [exact H|reflexivity]. Qed.

Lemma pow2_lt_inv (a b : Z) : pow2 a < pow2 b -> (a < b)%Z.
Proof.
  intros H. unfold pow2 in H. apply Qpower_lt_compat_l_inv in H; [exact H|].
  reflexivity.
Qed.

Lemma pow2_Z (e : Z) : (0 <= e)%Z -> pow2 e == inject_Z (2 ^ e).
Proof. intros H. unfold pow2. rewrite Zpower_Qpower by exact H. reflexivity. Qed.

Lemma pow2_succ (a : Z) : pow2 (a + 1) == 2 * pow2 a.
Proof. rewrite pow2_add. change (pow2 1) with 2. ring. Qed.

Lemma Zlog2_bounds (n : Z) :
  (0 < n)%Z -> pow2 (Z.log2 n) <= inject_Z n < pow2 (Z.log2 n + 1).
Proof.
  intros P. destruct (Z.log2_spec n P) as [L U].
  pose proof (Z.log2_nonneg n) as N.
  rewrite !pow2_Z by lia. split.
  - rewrite <- Zle_Qle. exact L.
  - rewrite <- Zlt_Qlt. exact U.
Qed.

Lemma ilog2_spec (q : Q) :
  0 < q -> pow2 (ilog2 q) <= q < pow2 (ilog2 q + 1).
Proof.
  intros P. destruct q as [n d].
  assert (Pn : (0 < n)%Z).
  { unfold Qlt in P. cbn in P. lia. }
  destruct (Zlog2_bounds Pn) as [An Bn].
  destruct (@Zlog2_bounds (Zpos d) eq_refl) as [Ad Bd].
  rewrite pow2_succ in Bn, Bd.
  unfold ilog2. cbn [Qnum Qden].
  set (ln := Z.log2 n) in *. set (ld := Z.log2 (Zpos d)) in *.
  pose proof (pow2_add (ln - ld) ld) as E.
  replace (ln - ld + ld)%Z with ln in E by ring.
  pose proof (pow2_pos (ln - ld)) as Pk. pose proof (pow2_pos ld) as Pd.
  assert (Q : n # d == inject_Z n / inject_Z (Zpos d)) by apply Qmake_Qdiv.
  assert (Dp : 0 < inject_Z (Zpos d)) by reflexivity.
  destruct (Qle_bool (pow2 (ln - ld)) (n # d)) eqn:C.
  - apply Qle_bool_iff in C. split; [exact C|].
    rewrite pow2_succ, Q. apply Qlt_shift_div_r; [exact Dp|].
    nra.
  - assert (C' : n # d < pow2 (ln - ld)).
    { apply Qnot_le_lt. intros H. apply Qle_bool_iff in H. congruence. }
    replace (ln - ld - 1 + 1)%Z with (ln - ld)%Z by ring.
    split; [|exact C'].
    assert (E1 : pow2 (ln - ld) == 2 * pow2 (ln - ld - 1)).
    { rewrite <- pow2_succ. replace (ln - ld - 1 + 1)%Z with (ln - ld)%Z by ring.
      reflexivity. }
    rewrite Q. apply Qle_shift_div_l; [exact Dp|].
    pose proof (pow2_pos (ln - ld - 1)) as Pk1. nra.
Qed.

Lemma ilog2_unique (q : Q) (e : Z) :
  pow2 e <= q -> q < pow2 (e + 1) -> ilog2 q = e.
Proof.
  intros L U.
  assert (P : 0 < q) by (pose proof (pow2_pos e); lra).
  destruct (ilog2_spec P) as [L' U'].
  assert (A : (e < ilog2 q + 1)%Z) by (apply pow2_lt_inv; lra).
  assert (B : (ilog2 q < e + 1)%Z) by (apply pow2_lt_inv; lra).
  lia.
Qed.

Lemma ilog2_mono (a b : Q) : 0 < a -> a <= b -> (ilog2 a <= ilog2 b)%Z.
Proof.
  intros P L. assert (Pb : 0 < b) by lra.
  destruct (ilog2_spec P) as [La _]. destruct (ilog2_spec Pb) as [_ Ub].
  assert (A : (ilog2 a < ilog2 b + 1)%Z) by (apply pow2_lt_inv; lra).
  lia.
Qed.

(** Rounding to the nearest integer *)

Lemma round_half_even_near (q : Q) :
  (2 * Z.abs (round_half_even q * Zpos (Qden q) - Qnum q) <= Zpos (Qden q))%Z.
Proof.
  unfold round_half_even. destruct q as [n d]. cbn [Qnum Qden].
  assert (P : Zpos d <> 0%Z) by discriminate.
  assert (P' : (0 < Zpos d)%Z) by reflexivity.
  pose proof (Z.div_mod n (Zpos d) P) as D.
  pose proof (Z.mod_pos_bound n (Zpos d) P') as B.
  set (fl := (n / Zpos d)%Z) in *. set (r := (n mod Zpos d)%Z) in *.
  clearbody fl r. subst n.
  assert (E0 : (fl * Zpos d - (Zpos d * fl + r) = - r)%Z) by ring.
  assert (E1 : ((fl + 1) * Zpos d - (Zpos d * fl + r) = Zpos d - r)%Z) by ring.
  destruct (2 * r ?= Zpos d)%Z eqn:C.
  - apply Z.compare_eq in C. destruct (Z.even fl); rewrite ?E0, ?E1;
      clear E0 E1; lia.
  - rewrite Z.compare_lt_iff in C. rewrite E0. clear E0 E1. lia.
  - rewrite Z.compare_gt_iff in C. rewrite E1. clear E0 E1. lia.
Qed.

Lemma round_half_even_near_Q (q : Q) :
  Qabs (inject_Z (round_half_even q) - q) <= 1 # 2.
Proof.
  pose proof (round_half_even_near q) as R.
  generalize dependent (round_half_even q). destruct q as [n d]. intros h R.
  cbn [Qnum Qden] in R.
  apply Qabs_Qle_condition. unfold Qle, Qminus, Qplus, Qopp, inject_Z.
  cbn [Qnum Qden]. split; nia.
Qed.

Lemma round_half_even_int (m : Z) : round_half_even (inject_Z m) = m.
Proof.
  unfold round_half_even, inject_Z. cbn [Qnum Qden].
  rewrite Z.mod_1_r, Z.div_1_r. reflexivity.
Qed.

Lemma Qred_inject_Z (m : Z) : Qred (inject_Z m) = inject_Z m.
Proof.
  unfold Qred, inject_Z.
  pose proof (Z.ggcd_gcd m 1) as G.
  pose proof (Z.ggcd_correct_divisors m 1) as D.
  destruct (Z.ggcd m 1) as [g [r1 r2]]. cbn [fst snd] in *.
  rewrite Z.gcd_1_r in G. subst g. destruct D as [D1 D2].
  rewrite Z.mul_1_l in D1, D2. subst r1 r2. reflexivity.
Qed.

Lemma round_half_even_of_int (q : Q) (m : Z) :
  q == inject_Z m -> round_half_even (Qred q) = m.
Proof.
  intros E. apply Qred_complete in E. rewrite E, Qred_inject_Z.
  apply round_half_even_int.
Qed.

Lemma round_half_even_mono (a b : Q) :
  a <= b -> (round_half_even (Qred a) <= round_half_even (Qred b))%Z.
Proof.
  intros L.
  pose proof (round_half_even_near_Q (Qred a)) as Na.
  pose proof (round_half_even_near_Q (Qred b)) as Nb.
  pose proof (Qred_correct a) as Ea. pose proof (Qred_correct b) as Eb.
  apply Qabs_Qle_condition in Na. apply Qabs_Qle_condition in Nb.
  destruct (Z_lt_le_dec (round_half_even (Qred b)) (round_half_even (Qred a)))
    as [C|C]; [|exact C].
  exfalso.
  assert (C' : inject_Z (round_half_even (Qred b)) + 1
               <= inject_Z (round_half_even (Qred a))).
  { rewrite <- (inject_Z_plus _ 1). rewrite <- Zle_Qle. lia. }
  assert (E : a == b) by lra.
  apply Qred_complete in E. rewrite E in C. lia.
Qed.

(** Rounding to binary64, on positive numbers *)

Lemma Qabs_of_pos (q : Q) : 0 < q -> Qabs q = q.
Proof.
  destruct q as [n d]. unfold Qlt, Qabs. cbn [Qnum Qden]. intros P.
  rewrite Z.abs_eq by lia. reflexivity.
Qed.

Lemma ulp_pos (q : Q) : 0 < ulp q.
Proof. apply pow2_pos. Qed.

Lemma exponent_pos (q : Q) :
  0 < q -> exponent q = Z.max (ilog2 q) (-1022).
Proof. intros P. unfold exponent. rewrite (Qabs_of_pos P). reflexivity. Qed.

Lemma round64_pos (q : Q) :
  0 < q ->
  round64 q == inject_Z (round_half_even (Qred (q / ulp q))) * ulp q.
Proof.
  intros P. unfold round64. destruct (Qeq_bool q 0) eqn:E.
  - apply Qeq_bool_iff in E. lra.
  - rewrite (Qabs_of_pos P). destruct (Qlt_le_dec q 0) as [N|N]; [lra|].
    rewrite Qred_correct. ring.
Qed.

Lemma round64_zero (q : Q) : q == 0 -> round64 q = 0.
Proof.
  intros E. unfold round64. apply Qeq_bool_iff in E. rewrite E. reflexivity.
Qed.

Lemma scaled_lt (q : Q) : 0 < q -> q / ulp q < pow2 53.
Proof.
  intros P. apply Qlt_shift_div_r; [apply ulp_pos|].
  unfold ulp. rewrite <- pow2_add, (exponent_pos P).
  destruct (ilog2_spec P) as [_ U].
  apply Qlt_le_trans with (1 := U). apply pow2_le. lia.
Qed.

Lemma scaled_ge (q : Q) :
  0 < q -> (-1022 <= ilog2 q)%Z -> pow2 52 <= q / ulp q.
Proof.
  intros P N. apply Qle_shift_div_l; [apply ulp_pos|].
  unfold ulp. rewrite <- pow2_add, (exponent_pos P).
  destruct (ilog2_spec P) as [L _].
  apply Qle_trans with (2 := L). apply pow2_le. lia.
Qed.

Lemma round_half_even_pow2 (n : Z) :
  (0 <= n)%Z -> round_half_even (Qred (pow2 n)) = (2 ^ n)%Z.
Proof. intros H. apply round_half_even_of_int. apply pow2_Z. exact H. Qed.

Lemma round64_le_top (q : Q) : 0 < q -> round64 q <= pow2 (exponent q + 1).
Proof.
  intros P. rewrite (round64_pos P).
  pose proof (round_half_even_mono (Qlt_le_weak _ _ (scaled_lt P))) as M.
  rewrite round_half_even_pow2 in M by lia.
  replace (exponent q + 1)%Z with (53 + (exponent q - 52))%Z by ring.
  rewrite pow2_add. fold (ulp q).
  apply Qmult_le_compat_r; [|apply Qlt_le_weak, ulp_pos].
  rewrite pow2_Z by lia. rewrite <- Zle_Qle. exact M.
Qed.

Lemma round64_ge_bottom (q : Q) :
  0 < q -> (-1022 <= ilog2 q)%Z -> pow2 (exponent q) <= round64 q.
Proof.
  intros P N. rewrite (round64_pos P).
  pose proof (round_half_even_mono (scaled_ge P N)) as M.
  rewrite round_half_even_pow2 in M by lia.
  replace (exponent q) with (52 + (exponent q - 52))%Z at 1 by ring.
  rewrite pow2_add. fold (ulp q).
  apply Qmult_le_compat_r; [|apply Qlt_le_weak, ulp_pos].
  rewrite pow2_Z by lia. rewrite <- Zle_Qle. exact M.
Qed.

Lemma round64_nonneg (q : Q) : 0 <= q -> 0 <= round64 q.
Proof.
  intros H. destruct (Qeq_bool q 0) eqn:E.
  - apply Qeq_bool_iff in E. rewrite (round64_zero E). lra.
  - assert (P : 0 < q).
    { apply Qeq_bool_neq in E. apply Qle_lt_or_eq in H.
      destruct H as [H|H]; [exact H|]. symmetry in H. contradiction. }
    rewrite (round64_pos P).
    assert (Y : 0 <= q / ulp q).
    { apply Qle_shift_div_l; [apply ulp_pos|]. lra. }
    pose proof (round_half_even_mono Y) as M.
    rewrite (@round_half_even_of_int 0 0%Z) in M by reflexivity.
    apply Qmult_le_0_compat; [|apply Qlt_le_weak, ulp_pos].
    change 0 with (inject_Z 0). rewrite <- Zle_Qle. exact M.
Qed.

(** Rounding keeps the order. *)
Lemma round64_mono (a b : Q) : 0 <= a -> a <= b -> round64 a <= round64 b.
Proof.
  intros Ha L. destruct (Qeq_bool a 0) eqn:E.
  - apply Qeq_bool_iff in E. rewrite (round64_zero E).
    apply round64_nonneg. lra.
  - assert (Pa : 0 < a).
    { apply Qeq_bool_neq in E. apply Qle_lt_or_eq in Ha.
      destruct Ha as [H|H]; [exact H|]. symmetry in H. contradiction. }
    assert (Pb : 0 < b) by lra.
    pose proof (ilog2_mono Pa L) as Hi.
    destruct (Z.eq_dec (exponent a) (exponent b)) as [Ee|Ne].
    + rewrite (round64_pos Pa), (round64_pos Pb). unfold ulp. rewrite Ee.
      apply Qmult_le_compat_r; [|apply Qlt_le_weak, pow2_pos].
      rewrite <- Zle_Qle. apply round_half_even_mono.
      apply Qmult_le_compat_r; [exact L|].
      apply Qlt_le_weak, Qinv_lt_0_compat, pow2_pos.
    + rewrite (exponent_pos Pa), (exponent_pos Pb) in Ne.
      apply Qle_trans with (pow2 (exponent a + 1)); [apply round64_le_top, Pa|].
      apply Qle_trans with (pow2 (exponent b));
        [|apply round64_ge_bottom; [exact Pb|lia]].
      apply pow2_le. rewrite (exponent_pos Pa), (exponent_pos Pb). lia.
Qed.

(** Rounding is at most half a gap away. *)
Lemma round64_near (q : Q) :
  0 < q -> Qabs (round64 q - q) <= ulp q / 2.
Proof.
  intros P. pose proof (round_half_even_near_Q (Qred (q / ulp q))) as R.
  pose proof (Qred_correct (q / ulp q)) as E.
  pose proof (ulp_pos q) as U.
  assert (Y : q == (q / ulp q) * ulp q) by (field; lra).
  apply Qabs_Qle_condition in R. apply Qabs_Qle_condition.
  rewrite (round64_pos P).
  set (m := inject_Z (round_half_even (Qred (q / ulp q)))) in *.
  set (y' := Qred (q / ulp q)) in *.
  set (y := q / ulp q) in *. set (u := ulp q) in *.
  clearbody m y y' u. destruct R as [R1 R2].
  assert (D : m * u - q == (m - y) * u) by (rewrite Y; ring).
  assert (H2 : u / 2 == (1 # 2) * u) by field.
  rewrite D, H2. split.
  - apply Qle_trans with ((- (1 # 2)) * u); [lra|].
    apply Qmult_le_compat_r; lra.
  - apply Qle_trans with ((1 # 2) * u); [|lra].
    apply Qmult_le_compat_r; lra.
Qed.

(** A number on the grid of its binade is not changed. *)
Lemma round64_exact (q : Q) (m : Z) :
  0 < q -> q == inject_Z m * ulp q -> round64 q == q.
Proof.
  intros P E. rewrite (round64_pos P).
  pose proof (ulp_pos q) as U.
  assert (Y : q / ulp q == inject_Z m).
  { rewrite E at 1. field. lra. }
  rewrite (round_half_even_of_int Y). symmetry. exact E.
Qed.

(** The integers up to [2^53] are binary64 numbers. *)
Lemma round64_int (k : Z) :
  (0 <= k <= 2 ^ 53)%Z -> round64 (inject_Z k) == inject_Z k.
Proof.
  intros [L U]. destruct (Z.eq_dec k 0) as [->|N]; [reflexivity|].
  assert (P : 0 < inject_Z k).
  { change 0 with (inject_Z 0). rewrite <- Zlt_Qlt. lia. }
  destruct (ilog2_spec P) as [Li Ui].
  assert (B1 : (0 <= ilog2 (inject_Z k))%Z).
  { assert (H : pow2 0 < pow2 (ilog2 (inject_Z k) + 1)).
    { apply Qle_lt_trans with (2 := Ui). change (pow2 0) with (inject_Z 1).
      rewrite <- Zle_Qle. lia. }
    apply pow2_lt_inv in H. lia. }
  assert (B2 : (ilog2 (inject_Z k) <= 53)%Z).
  { assert (H : pow2 (ilog2 (inject_Z k)) < pow2 54).
    { apply Qle_lt_trans with (1 := Li). rewrite (@pow2_Z 54) by lia.
      rewrite <- Zlt_Qlt. lia. }
    apply pow2_lt_inv in H. lia. }
  assert (Ex : exponent (inject_Z k) = ilog2 (inject_Z k)).
  { rewrite (exponent_pos P). lia. }
  destruct (Z.eq_dec (ilog2 (inject_Z k)) 53) as [E53|N53].
  - assert (K : k = (2 ^ 53)%Z).
    { rewrite E53, (@pow2_Z 53) in Li by lia. rewrite <- Zle_Qle in Li. lia. }
    subst k. apply (@round64_exact _ (2 ^ 52)%Z P).
    unfold ulp. rewrite Ex, E53. reflexivity.
  - apply (@round64_exact _ (k * 2 ^ (52 - ilog2 (inject_Z k)))%Z P).
    unfold ulp. rewrite Ex, inject_Z_mult.
    rewrite <- (@pow2_Z (52 - ilog2 (inject_Z k))) by lia.
    rewrite <- Qmult_assoc, <- pow2_add.
    replace (52 - ilog2 (inject_Z k) + (ilog2 (inject_Z k) - 52))%Z with 0%Z
      by ring.
    change (pow2 0) with 1. ring.
Qed.

(** The error of a rounding, on numbers up to [B]. *)
Lemma round64_error (y B : Q) :
  0 <= y -> y <= B -> 1 <= B -> Qabs (round64 y - y) <= B * pow2 (-53).
Proof.
  intros Hy HB H1. destruct (Qeq_bool y 0) eqn:E.
  - apply Qeq_bool_iff in E. rewrite (round64_zero E), E.
    pose proof (pow2_pos (-53)) as P. apply Qabs_Qle_condition. nra.
  - assert (P : 0 < y).
    { apply Qeq_bool_neq in E. apply Qle_lt_or_eq in Hy.
      destruct Hy as [H|H]; [exact H|]. symmetry in H. contradiction. }
    apply Qle_trans with (1 := round64_near P). unfold ulp.
    replace (exponent y - 52)%Z with (exponent y + -53 + 1)%Z by ring.
    rewrite pow2_succ, pow2_add. pose proof (pow2_pos (-53)) as P53.
    assert (X : pow2 (exponent y) <= B).
    { rewrite (exponent_pos P). destruct (ilog2_spec P) as [L _].
      destruct (Z.max_spec (ilog2 y) (-1022)) as [[_ ->]|[_ ->]].
      - apply Qle_trans with 1; [|exact H1].
        change 1 with (pow2 0). apply pow2_le. lia.
      - lra. }
    assert (G : 2 * (pow2 (exponent y) * pow2 (-53)) / 2
                == pow2 (exponent y) * pow2 (-53)) by field.
    rewrite G. apply Qmult_le_compat_r; [exact X|lra].
Qed.

End RoundingTheory.

(* ================================================================== *)
(** * The float operations of the search *)

Section FloatFacts.

Open Scope Q_scope.

Lemma round64_Qeq (a b : Q) : 0 <= a -> a == b -> round64 a == round64 b.
Proof.
  intros P E. apply Qle_antisym; apply round64_mono; lra.
Qed.

Lemma round64_one : round64 1 = 1.
Proof. vm_compute. reflexivity. Qed.


Lemma round64_ge_const (x c v : Q) :
  0 <= c -> c <= x -> round64 c = v -> v <= round64 x.
Proof. intros P H <-. apply round64_mono; assumption. Qed.

Lemma round64_le_one (x : Q) : 0 <= x -> x <= 1 -> round64 x <= 1.
Proof.
  intros P H. pose proof (@round64_mono x 1 P H) as M.
  rewrite round64_one in M. exact M.
Qed.

Lemma round64_ge_one (x : Q) : 1 <= x -> 1 <= round64 x.
Proof.
  intros H. assert (P : 0 <= 1) by lra.
  pose proof (@round64_mono 1 x P H) as M.
  rewrite round64_one in M. exact M.
Qed.

Lemma round64_of_one (x : Q) : x == 1 -> round64 x == 1.
Proof.
  intros E. apply Qle_antisym.
  - apply round64_le_one; lra.
  - apply round64_ge_one; lra.
Qed.

Lemma fadd_one_ge (d : Q) : 0 <= d -> 1 <= fadd 1 d.
Proof.
  intros H. unfold fadd. apply round64_ge_one. lra.
Qed.

Lemma fadd_one_nonzero (d : Q) : 0 <= d -> ~ fadd 1 d == 0.
Proof.
  intros H E. pose proof (fadd_one_ge H) as G. lra.
Qed.

Lemma truediv_ok (a b : Q) : ~ b == 0 -> truediv a b = Ok (fdiv a b).
Proof.
  intros N. unfold truediv. destruct (Qeq_bool b 0) eqn:E; [|reflexivity].
  apply Qeq_bool_eq in E. contradiction.
Qed.

Lemma truediv_inv (a b q : Q) :
  truediv a b = Ok q -> q = fdiv a b /\ ~ b == 0.
Proof.
  unfold truediv. destruct (Qeq_bool b 0) eqn:E; [discriminate|].
  intros [= <-]. split; [reflexivity|]. apply Qeq_bool_neq. exact E.
Qed.

Lemma similarity_of_distance_ok (d : Q) :
  0 <= d -> similarity_of_distance d = Ok (fdiv 1 (fadd 1 d)).
Proof.
  intros H. unfold similarity_of_distance. apply truediv_ok.
  apply fadd_one_nonzero, H.
Qed.

Lemma inv_ge_one (x : Q) : 1 <= x -> 0 < 1 / x /\ 1 / x <= 1.
Proof.
  intros H. split.
  - apply Qlt_shift_div_l; lra.
  - apply Qle_shift_div_r; lra.
Qed.

Lemma similarity_nonneg (d : Q) : 0 <= d -> 0 <= fdiv 1 (fadd 1 d).
Proof.
  intros H. unfold fdiv. apply round64_nonneg.
  destruct (inv_ge_one (fadd_one_ge H)). lra.
Qed.

Lemma similarity_le_1 (d : Q) : 0 <= d -> fdiv 1 (fadd 1 d) <= 1.
Proof.
  intros H. unfold fdiv.
  destruct (inv_ge_one (fadd_one_ge H)). apply round64_le_one; lra.
Qed.

(** Positive on every distance a binary64 number can hold. *)
Lemma similarity_pos (d : Q) :
  0 <= d -> d <= pow2 1024 -> 0 < fdiv 1 (fadd 1 d).
Proof.
  intros H U.
  assert (C1 : round64 (1 + pow2 1024) = pow2 1024)
    by (vm_compute; reflexivity).
  assert (C2 : round64 (1 / pow2 1024) = pow2 (-1024))
    by (vm_compute; reflexivity).
  pose proof (pow2_pos 1024) as P. pose proof (pow2_pos (-1024)) as P'.
  pose proof (fadd_one_ge H) as G.
  assert (X : fadd 1 d <= pow2 1024).
  { unfold fadd. assert (L : 1 + d <= 1 + pow2 1024) by lra.
    assert (L0 : 0 <= 1 + d) by lra.
    pose proof (@round64_mono _ _ L0 L) as M. rewrite C1 in M. exact M. }
  apply Qlt_le_trans with (1 := P').
  assert (Q0 : 0 <= 1 / pow2 1024).
  { apply Qlt_le_weak, Qlt_shift_div_l; lra. }
  assert (Q1 : 1 / pow2 1024 <= 1 / fadd 1 d); [|
    pose proof (@round64_mono _ _ Q0 Q1) as M; rewrite C2 in M; exact M].
  apply Qle_shift_div_l; [lra|].
  assert (F : 1 / pow2 1024 * fadd 1 d == fadd 1 d / pow2 1024)
    by (field; lra).
  rewrite F. apply Qle_shift_div_r; lra.
Qed.

(** A larger distance never gives a larger similarity. *)
Lemma similarity_antitone (d1 d2 : Q) :
  0 <= d1 -> d1 <= d2 -> fdiv 1 (fadd 1 d2) <= fdiv 1 (fadd 1 d1).
Proof.
  intros H L. assert (H2 : 0 <= d2) by lra.
  pose proof (fadd_one_ge H) as G1. pose proof (fadd_one_ge H2) as G2.
  assert (M : fadd 1 d1 <= fadd 1 d2).
  { unfold fadd. apply round64_mono; lra. }
  unfold fdiv. apply round64_mono.
  - destruct (inv_ge_one G2). lra.
  - apply Qle_shift_div_l; [lra|].
    assert (F : 1 / fadd 1 d2 * fadd 1 d1 == fadd 1 d1 / fadd 1 d2)
      by (field; lra).
    rewrite F. apply Qle_shift_div_r; lra.
Qed.

(** Adding at most [2^-53] to 1 is absorbed by the rounding. *)
Lemma fadd_one_small (d : Q) : 0 <= d -> d <= pow2 (-53) -> fadd 1 d == 1.
Proof.
  intros H U. apply Qle_antisym; [|apply fadd_one_ge, H].
  assert (C : round64 (1 + pow2 (-53)) = 1) by (vm_compute; reflexivity).
  assert (L0 : 0 <= 1 + d) by lra.
  assert (L : 1 + d <= 1 + pow2 (-53)) by lra.
  pose proof (@round64_mono _ _ L0 L) as M. rewrite C in M. exact M.
Qed.

(** Adding more than [2^-53] to 1 reaches the next binary64 number. *)
Lemma fadd_one_large (d : Q) :
  pow2 (-53) < d -> 1 + pow2 (-52) <= fadd 1 d.
Proof.
  intros L. pose proof (pow2_pos (-53)) as P53.
  destruct (Qlt_le_dec d 1) as [S|B].
  - assert (P : 0 < 1 + d) by lra.
    assert (I : ilog2 (1 + d) = 0%Z).
    { apply ilog2_unique.
      - change (pow2 0) with 1. lra.
      - change (pow2 (0 + 1)) with 2. lra. }
    assert (U : ulp (1 + d) = pow2 (-52)).
    { unfold ulp. rewrite (exponent_pos P), I. reflexivity. }
    unfold fadd. rewrite (round64_pos P), U.
    pose proof (round_half_even_near_Q (Qred ((1 + d) / pow2 (-52)))) as R.
    pose proof (Qred_correct ((1 + d) / pow2 (-52))) as E.
    apply Qabs_Qle_condition in R. destruct R as [R1 _].
    assert (Y : (1 + d) / pow2 (-52) == (1 + d) * pow2 52).
    { change (pow2 (-52)) with (1 # 4503599627370496).
      change (pow2 52) with (4503599627370496 # 1). field. }
    set (m := round_half_even (Qred ((1 + d) / pow2 (-52)))) in *.
    assert (M : (2 ^ 52 < m)%Z).
    { rewrite Zlt_Qlt. rewrite <- (@pow2_Z 52) by lia.
      apply Qlt_le_trans with ((1 + d) * pow2 52 - (1 # 2)).
      - change (pow2 52) with (4503599627370496 # 1).
        change (pow2 (-53)) with (1 # 9007199254740992) in L.
        lra.
      - rewrite <- Y, <- E. lra. }
    apply Qle_trans with (inject_Z (2 ^ 52 + 1) * pow2 (-52)).
    + vm_compute. discriminate.
    + apply Qmult_le_compat_r; [|apply Qlt_le_weak, pow2_pos].
      rewrite <- Zle_Qle. lia.
  - assert (C : round64 2 = 2) by (vm_compute; reflexivity).
    apply Qle_trans with 2; [vm_compute; discriminate|].
    assert (L0 : 0 <= 2) by lra. assert (L2 : 2 <= 1 + d) by lra.
    pose proof (@round64_mono _ _ L0 L2) as M. rewrite C in M. exact M.
Qed.

(** The similarity is 1 on the distances the sum [1 + d] absorbs. *)
Lemma similarity_one_iff (d : Q) :
  0 <= d -> (fdiv 1 (fadd 1 d) == 1 <-> d <= pow2 (-53)).
Proof.
  intros H. split.
  - intros E. destruct (Qlt_le_dec (pow2 (-53)) d) as [L|L]; [|exact L].
    exfalso. pose proof (fadd_one_large L) as G.
    assert (C : round64 (1 / (1 + pow2 (-52))) < 1)
      by (vm_compute; reflexivity).
    assert (X : fdiv 1 (fadd 1 d) <= round64 (1 / (1 + pow2 (-52)))).
    { pose proof (pow2_pos (-52)) as P52. unfold fdiv. apply round64_mono.
      - apply Qlt_le_weak, Qlt_shift_div_l; lra.
      - apply Qle_shift_div_l; [lra|].
        assert (F : 1 / fadd 1 d * (1 + pow2 (-52))
                    == (1 + pow2 (-52)) / fadd 1 d) by (field; lra).
        rewrite F. apply Qle_shift_div_r; lra. }
    lra.
  - intros U. pose proof (fadd_one_small H U) as S. unfold fdiv.
    apply round64_of_one. rewrite S. reflexivity.
Qed.

Lemma similarity_at_zero : fdiv 1 (fadd 1 0) = 1.
Proof. vm_compute. reflexivity. Qed.

(** The binary64 quotient is within [2^-52] of the exact one. *)
Lemma similarity_near (d : Q) :
  0 <= d -> Qabs (fdiv 1 (fadd 1 d) - 1 / (1 + d)) <= pow2 (-52).
Proof.
  intros H. pose proof (fadd_one_ge H) as G.
  assert (Q1 : 1 <= 1 + d) by lra.
  assert (E1 : Qabs (fadd 1 d - (1 + d)) <= (1 + d) * pow2 (-53)).
  { unfold fadd. apply round64_error; lra. }
  destruct (inv_ge_one G) as [Y0 Y1].
  assert (E2 : Qabs (fdiv 1 (fadd 1 d) - 1 / fadd 1 d) <= 1 * pow2 (-53)).
  { unfold fdiv. apply round64_error; lra. }
  destruct (inv_ge_one Q1) as [B0 B1].
  assert (AX : 1 / fadd 1 d * fadd 1 d == 1) by (field; lra).
  assert (BQ : 1 / (1 + d) * (1 + d) == 1) by (field; lra).
  assert (P52 : pow2 (-52) == 2 * pow2 (-53)) by reflexivity.
  pose proof (pow2_pos (-53)) as P53.
  set (x := fadd 1 d) in *. set (s := fdiv 1 x) in *.
  set (a := 1 / x) in *. set (b := 1 / (1 + d)) in *.
  set (q := 1 + d) in *. set (eps := pow2 (-53)) in *.
  clearbody x s a b q eps.
  apply Qabs_Qle_condition in E1. apply Qabs_Qle_condition in E2.
  apply Qabs_Qle_condition. rewrite P52.
  assert (D : a - b == a * b * (q - x)).
  { assert (T : a - b == a * (b * q) - b * (a * x)) by (rewrite AX, BQ; ring).
    rewrite T. ring. }
  assert (AB : 0 <= a * b) by (apply Qmult_le_0_compat; lra).
  assert (U : a * b * (q - x) <= eps).
  { apply Qle_trans with (a * b * (q * eps)).
    - rewrite !(Qmult_comm (a * b)). apply Qmult_le_compat_r; [lra|exact AB].
    - assert (T : a * b * (q * eps) == a * eps * (b * q)) by ring.
      rewrite T, BQ. nra. }
  assert (L : - eps <= a * b * (q - x)).
  { apply Qle_trans with (a * b * (- (q * eps))).
    - assert (T : a * b * (- (q * eps)) == - (a * eps * (b * q))) by ring.
      rewrite T, BQ. nra.
    - rewrite !(Qmult_comm (a * b)). apply Qmult_le_compat_r; [lra|exact AB]. }
  split; lra.
Qed.

(** Distances whose exact quotients are more than [2^-51] apart keep their
    order strictly. *)
Lemma similarity_separates (d1 d2 : Q) :
  0 <= d1 -> 0 <= d2 ->
  pow2 (-51) < 1 / (1 + d1) - 1 / (1 + d2) ->
  fdiv 1 (fadd 1 d2) < fdiv 1 (fadd 1 d1).
Proof.
  intros H1 H2 L.
  pose proof (similarity_near H1) as N1. pose proof (similarity_near H2) as N2.
  apply Qabs_Qle_condition in N1. apply Qabs_Qle_condition in N2.
  assert (P : pow2 (-51) == 2 * pow2 (-52)) by reflexivity.
  rewrite P in L. lra.
Qed.

Lemma round_half_even_nonneg (y : Q) :
  0 <= y -> (0 <= round_half_even (Qred y))%Z.
Proof.
  intros H. pose proof (round_half_even_mono H) as M.
  change (Qred 0) with (inject_Z 0) in M. rewrite round_half_even_int in M.
  exact M.
Qed.

Lemma Qabs_pos_lt (q : Q) : ~ q == 0 -> 0 < Qabs q.
Proof.
  intros N. destruct (Q_dec q 0) as [[L|G]|E]; [| |contradiction].
  - rewrite Qabs_neg by lra. lra.
  - rewrite Qabs_pos by lra. exact G.
Qed.

(** The size of a rounded number that is not zero. *)
Lemma round64_abs (q : Q) :
  ~ q == 0 ->
  Qabs (round64 q)
  == inject_Z (round_half_even (Qred (Qabs q / ulp q))) * ulp q.
Proof.
  intros N. unfold round64.
  destruct (Qeq_bool q 0) eqn:B; [apply Qeq_bool_iff in B; contradiction|].
  cbv zeta. pose proof (ulp_pos q) as U.
  assert (A : 0 <= Qabs q / ulp q).
  { apply Qle_shift_div_l; [exact U|]. rewrite Qmult_0_l. apply Qabs_nonneg. }
  pose proof (round_half_even_nonneg A) as M.
  assert (M' : 0 <= inject_Z (round_half_even (Qred (Qabs q / ulp q)))).
  { change 0 with (inject_Z 0). rewrite <- Zle_Qle. exact M. }
  set (m := inject_Z (round_half_even (Qred (Qabs q / ulp q)))) in *.
  assert (P : 0 <= m * ulp q) by (apply Qmult_le_0_compat; lra).
  rewrite Qred_correct. destruct (Qlt_le_dec q 0).
  - assert (E : -1 * (m * ulp q) == - (m * ulp q)) by ring.
    rewrite E, Qabs_opp. apply Qabs_pos. exact P.
  - assert (E : 1 * (m * ulp q) == m * ulp q) by ring.
    rewrite E. apply Qabs_pos. exact P.
Qed.

(** Only the numbers up to [2^-1075] round to zero. *)
Lemma round64_zero_inv (q : Q) : round64 q == 0 -> Qabs q <= pow2 (-1075).
Proof.
  intros E. destruct (Qeq_dec q 0) as [Z|N].
  - rewrite Z. vm_compute. discriminate.
  - pose proof (round64_abs N) as A. rewrite E in A.
    change (Qabs 0) with 0 in A. pose proof (ulp_pos q) as U.
    pose proof (Qabs_pos_lt N) as P.
    assert (M0 : round_half_even (Qred (Qabs q / ulp q)) = 0%Z).
    { destruct (Z.eq_dec (round_half_even (Qred (Qabs q / ulp q))) 0)
        as [H|H]; [exact H|]. exfalso.
      assert (Y : 0 <= Qabs q / ulp q).
      { apply Qle_shift_div_l; [exact U|]. lra. }
      pose proof (round_half_even_nonneg Y) as G.
      assert (G' : 1 <= inject_Z (round_half_even (Qred (Qabs q / ulp q)))).
      { change 1 with (inject_Z 1). rewrite <- Zle_Qle. lia. }
      nra. }
    pose proof (round_half_even_near_Q (Qred (Qabs q / ulp q))) as R.
    rewrite M0 in R. pose proof (Qred_correct (Qabs q / ulp q)) as C.
    apply Qabs_Qle_condition in R. destruct R as [R _].
    assert (H : Qabs q / ulp q <= 1 # 2).
    { change (inject_Z 0) with 0 in R. lra. }
    assert (H' : Qabs q <= (1 # 2) * ulp q).
    { assert (T : Qabs q == Qabs q / ulp q * ulp q) by (field; lra).
      rewrite T. apply Qmult_le_compat_r; lra. }
    destruct (ilog2_spec P) as [L _].
    unfold ulp, exponent in H'.
    destruct (Z.max_spec (ilog2 (Qabs q)) (-1022)) as [[I J]|[I J]];
      rewrite J in H'.
    + assert (T : (1 # 2) * pow2 (-1022 - 52) == pow2 (-1075)) by reflexivity.
      rewrite T in H'. exact H'.
    + exfalso.
      replace (ilog2 (Qabs q) - 52)%Z with (ilog2 (Qabs q) + -52)%Z in H'
        by ring.
      rewrite pow2_add in H'.
      assert (T : pow2 (-52) == 1 # 4503599627370496) by reflexivity.
      rewrite T in H'. pose proof (pow2_pos (ilog2 (Qabs q))) as PP.
      lra.
Qed.

(** A binary64 number between 1/2 and 2 in size is a multiple of [2^-53]. *)
Lemma binary64_grid (d : Q) :
  is_binary64 d -> 1 # 2 <= Qabs d -> Qabs d < 2 ->
  exists K : Z, Qabs d == inject_Z K * pow2 (-53).
Proof.
  unfold is_binary64. intros R L U.
  assert (N : ~ d == 0).
  { intros Z. rewrite Z in L. vm_compute in L. apply L. reflexivity. }
  pose proof (round64_abs N) as A. rewrite R in A.
  pose proof (Qabs_pos_lt N) as P. destruct (ilog2_spec P) as [S1 S2].
  assert (I1 : (ilog2 (Qabs d) < 1)%Z).
  { apply pow2_lt_inv. apply Qle_lt_trans with (1 := S1). exact U. }
  assert (I2 : (-1 < ilog2 (Qabs d) + 1)%Z).
  { apply pow2_lt_inv. apply Qle_lt_trans with (2 := S2). exact L. }
  set (m := round_half_even (Qred (Qabs d / ulp d))) in A. clearbody m.
  unfold ulp, exponent in A. rewrite Z.max_l in A by lia.
  destruct (Z.eq_dec (ilog2 (Qabs d)) 0) as [E|E].
  - rewrite E in A. exists (2 * m)%Z. rewrite A, inject_Z_mult.
    assert (T : pow2 (0 - 52) == 2 * pow2 (-53)) by reflexivity.
    rewrite T. change (inject_Z 2) with 2. ring.
  - assert (E' : ilog2 (Qabs d) = (-1)%Z) by lia. rewrite E' in A.
    exists m. rewrite A. reflexivity.
Qed.

(** On a binary64 distance the sum [1.0 + d] is zero at [d = -1] only. *)
Lemma fadd_one_zero_iff (d : Q) :
  is_binary64 d -> (fadd 1 d == 0 <-> d == -1).
Proof.
  intros R. split.
  - intros E. unfold fadd in E. apply round64_zero_inv in E.
    apply Qabs_Qle_condition in E. destruct E as [E0 E1].
    assert (T : pow2 (-1075) <= 1 # 4) by (vm_compute; discriminate).
    assert (Ad : Qabs d == - d) by (apply Qabs_neg; lra).
    destruct (@binary64_grid d R) as [K HK]; [rewrite Ad; lra|rewrite Ad; lra|].
    rewrite Ad in HK.
    assert (K53 : K = (2 ^ 53)%Z).
    { assert (G : pow2 (-53) == 1 # 9007199254740992) by reflexivity.
      assert (G' : pow2 (-1075) <= 1 # 18014398509481984)
        by (vm_compute; discriminate).
      rewrite G in HK.
      assert (B1 : inject_Z (2 ^ 53 - 1) < inject_Z K).
      { change (inject_Z (2 ^ 53 - 1)) with 9007199254740991. lra. }
      assert (B2 : inject_Z K < inject_Z (2 ^ 53 + 1)).
      { change (inject_Z (2 ^ 53 + 1)) with 9007199254740993. lra. }
      rewrite <- Zlt_Qlt in B1, B2. lia. }
    subst K.
    assert (G : inject_Z (2 ^ 53) * pow2 (-53) == 1) by reflexivity.
    rewrite G in HK. lra.
  - intros E. unfold fadd. rewrite round64_zero; [reflexivity|].
    rewrite E. reflexivity.
Qed.

End FloatFacts.
Section Validation.

(** The samples are binary64 numbers, and on them the sums, the quotients and
    the conversions of integers are those of [SpecFloat]. *)
Example round64_agrees_with_SpecFloat :
  forallb (fun a => agrees (Q2SF a) a) (float_samples ++ float_extremes)
  = true
  /\ forallb
       (fun a =>
          forallb
            (fun b => agrees (SpecFloat.SFadd 53 1024 (Q2SF a) (Q2SF b))
                        (fadd a b))
            (float_samples ++ float_extremes))
       (float_samples ++ float_extremes)
     = true
  /\ forallb
       (fun a =>
          forallb
            (fun b =>
               Qeq_bool b 0
               || agrees (SpecFloat.SFdiv 53 1024 (Q2SF a) (Q2SF b))
                    (fdiv a b))
            float_samples)
       (float_samples ++ float_extremes)
     = true
  /\ forallb
       (fun n => agrees (SpecFloat.binary_normalize 53 1024 n 0 false)
                   (float_of_int n))
       [0; 1; 3; 5; 9007199254740993; 9007199254740995; 100000000000000001;
        123456789012345678901234567890]%Z
     = true.
Proof. split; [|split; [|split]]; vm_compute; reflexivity. Qed.

End Validation.

Section SearchFacts.

Context {rt : Runtime}.
Variable Collection : Type.
Variable collection_query :
  Collection -> list (list Q) -> Z -> option (list (list N * pyobj)) ->
  result QueryResult.

Lemma TdrTipo_of_value (t : TdrTipo) : TdrTipo_of (PyStr (value t)) = Ok t.
Proof. destruct t; reflexivity. Qed.

Lemma getitem_Some {A} (xs : list A) (i : nat) (x : A) :
  getitem xs i = Ok x <-> nth_error xs i = Some x.
Proof.
  unfold getitem. destruct (nth_error xs i); split; congruence.
Qed.

(** What a result of the loop body is made of. *)
Lemma search_record_inv (results : QueryResult) (i : nat) (id : str)
    (r : TdrSearchResult) :
  search_record results i id = Ok r ->
  exists metadata distance sim flds name t,
    metadata_at results i = Ok metadata
    /\ distance_at results i = Ok distance
    /\ similarity_of_distance distance = Ok sim
    /\ parse_fields metadata = Ok (PyDict flds)
    /\ dict_get_default metadata (py "filename") (PyStr []) = PyStr name
    /\ TdrTipo_of (dict_get_default metadata (py "tipo")
                     (PyStr (py "SERVICIO"))) = Ok t
    /\ r = {| tdr_id := id; filename := name; tipo := t; similarity := sim;
              fields := flds |}.
Proof.
  unfold search_record. intros E.
  destruct (metadata_at results i) as [metadata|] eqn:Em; [|discriminate].
  destruct (distance_at results i) as [distance|] eqn:Ed; [|discriminate].
  cbn [bind] in E.
  destruct (similarity_of_distance distance) as [sim|] eqn:Es; [|discriminate].
  cbn [bind] in E.
  destruct (parse_fields metadata) as [f|] eqn:Ef; [|discriminate].
  cbn [bind] in E.
  destruct (TdrTipo_of _) as [t|] eqn:Et; [|discriminate].
  cbn [bind] in E. unfold new_TdrSearchResult in E.
  destruct (dict_get_default metadata (py "filename") (PyStr [])) as
    [| | | |name| |] eqn:En; try discriminate.
  destruct f as [| | | | | |flds]; try discriminate.
  injection E as <-.
  exists metadata, distance, sim, flds, name, t. repeat split; assumption.
Qed.

Lemma search_loop_inv (results : QueryResult) (ids0 : list str) :
  forall (i : nat) (acc rs : list TdrSearchResult),
    search_loop results i ids0 acc = Ok rs ->
    exists new,
      rs = acc ++ new
      /\ length new = length ids0
      /\ forall k r, nth_error new k = Some r ->
           exists id, nth_error ids0 k = Some id
                      /\ search_record results (i + k) id = Ok r.
Proof.
  induction ids0 as [|id rest IH]; intros i acc rs E; simpl in E.
  - injection E as <-. exists []. rewrite app_nil_r.
    repeat split. intros [|k] r F; discriminate.
  - destruct (search_record results i id) as [r0|] eqn:Er; [|discriminate].
    cbn [bind] in E. apply IH in E. destruct E as (new & -> & Hl & Hk).
    exists (r0 :: new). rewrite <- app_assoc. repeat split.
    + simpl. rewrite Hl. reflexivity.
    + intros [|k] r F; simpl in F.
      * injection F as <-. exists id. rewrite Nat.add_0_r. split;
          [reflexivity|exact Er].
      * destruct (Hk k r F) as (id' & E1 & E2). exists id'.
        replace (i + S k) with (S i + k) by lia. split; assumption.
Qed.

Lemma search_loop_total (results : QueryResult) (ids0 : list str) :
  forall (i : nat) (acc : list TdrSearchResult),
    (forall k id, nth_error ids0 k = Some id ->
                  exists r, search_record results (i + k) id = Ok r) ->
    exists rs, search_loop results i ids0 acc = Ok rs.
Proof.
  induction ids0 as [|id rest IH]; intros i acc H; simpl.
  - exists acc. reflexivity.
  - destruct (H 0 id eq_refl) as [r Er]. rewrite Nat.add_0_r in Er.
    rewrite Er. cbn [bind]. apply IH. intros k id' F.
    replace (S i + k) with (i + S k) by lia. apply (H (S k)). exact F.
Qed.

Lemma search_inv (c : Collection) (e : list Q) (n : Z) (t : option TdrTipo)
    (refs : list TdrSearchResult) :
  search collection_query c e n t = Ok refs ->
  exists results,
    collection_query c [e] n (where_filter t) = Ok results
    /\ length refs = length (hd [] (ids results))
    /\ forall k r, nth_error refs k = Some r ->
         exists id, search_record results k id = Ok r.
Proof.
  unfold search. intros E.
  destruct (collection_query c [e] n (where_filter t)) as [results|] eqn:Eq;
    [|discriminate].
  cbn [bind] in E. exists results. split; [reflexivity|].
  destruct (ids results) as [|[|id0 ids0] more] eqn:Ei.
  - injection E as <-. split; [reflexivity|]. intros [|k] r F; discriminate.
  - injection E as <-. split; [reflexivity|]. intros [|k] r F; discriminate.
  - apply search_loop_inv in E. destruct E as (new & -> & Hl & Hk).
    cbn [app hd]. split; [exact Hl|]. intros k r F.
    destruct (Hk k r F) as (id & _ & Er). exists id. exact Er.
Qed.

Lemma search_total (c : Collection) (e : list Q) (n : Z) (t : option TdrTipo)
    (results : QueryResult) :
  collection_query c [e] n (where_filter t) = Ok results ->
  (forall k id, k < length (hd [] (ids results)) ->
                exists r, search_record results k id = Ok r) ->
  exists refs, search collection_query c e n t = Ok refs.
Proof.
  intros Eq H. unfold search. rewrite Eq. cbn [bind].
  destruct (ids results) as [|[|id0 ids0] more] eqn:Ei.
  - exists []. reflexivity.
  - exists []. reflexivity.
  - apply search_loop_total. intros k id F. apply H. cbn [hd].
    apply (proj1 (nth_error_Some (id0 :: ids0) k)). rewrite F. discriminate.
Qed.

Lemma parse_fields_unusable (metadata : list (list N * pyobj)) :
  fields_json_unusable metadata -> parse_fields metadata = Ok (PyDict []).
Proof.
  unfold parse_fields. intros [E|(s & E & L)]; rewrite E; [reflexivity|].
  rewrite L. reflexivity.
Qed.

Lemma search_record_ok (results : QueryResult) (i : nat) (id : str) :
  record_ok results i -> exists r, search_record results i id = Ok r.
Proof.
  intros (metadata & distance & Em & Ed & Nz & Hf & Ht & Hj).
  unfold search_record. rewrite Em, Ed. cbn [bind].
  unfold similarity_of_distance. rewrite (truediv_ok 1 Nz). cbn [bind].
  assert (exists flds, parse_fields metadata = Ok (PyDict flds)) as [flds ->].
  { unfold parse_fields. destruct Hj as [E|(s & E & [L|[d L]])]; rewrite E.
    - exists []. reflexivity.
    - rewrite L. exists []. reflexivity.
    - rewrite L. exists d. reflexivity. }
  cbn [bind].
  assert (exists t, TdrTipo_of (dict_get_default metadata (py "tipo")
                                  (PyStr (py "SERVICIO"))) = Ok t) as [t ->].
  { unfold dict_get_default. destruct Ht as [E|[t E]]; rewrite E.
    - exists SERVICIO. reflexivity.
    - exists t. apply TdrTipo_of_value. }
  cbn [bind].
  assert (exists name, dict_get_default metadata (py "filename") (PyStr [])
                       = PyStr name) as [name ->].
  { unfold dict_get_default. destruct Hf as [E|[s E]]; rewrite E.
    - exists []. reflexivity.
    - exists s. reflexivity. }
  eexists. reflexivity.
Qed.

End SearchFacts.

(** ** C3 and C9 *)

(** C3 (amended). Every result of a search carries the similarity
    [1.0 / (1.0 + d)] of its distance [d], computed in binary64: the sum is
    rounded, then the quotient.  On distances that are not negative the
    transform is defined, lies between 0 and 1, is within [2^-52] of the exact
    quotient [1 / (1 + d)], and is 1 exactly on the distances up to [2^-53],
    which the sum absorbs; it is positive on every distance a binary64 number
    can hold.  It never increases with the distance, and decreases strictly
    between two distances whose exact quotients are more than [2^-51]
    apart. *)
Theorem similarity_of_distance_transform :
  forall (rt : Runtime) (Collection : Type)
         (collection_query :
            Collection -> list (list Q) -> Z ->
            option (list (list N * pyobj)) -> result QueryResult)
         (c : Collection) (query_embedding : list Q) (n_results : Z)
         (tipo_filter : option TdrTipo) (refs : list TdrSearchResult),
    search collection_query c query_embedding n_results tipo_filter = Ok refs ->
    (exists results,
        collection_query c [query_embedding] n_results
          (where_filter tipo_filter) = Ok results
        /\ forall i r, nth_error refs i = Some r ->
             exists d, distance_at results i = Ok d
                       /\ similarity r = fdiv 1 (fadd 1 d))
    /\ (forall d, (0 <= d)%Q ->
          similarity_of_distance d = Ok (fdiv 1 (fadd 1 d))
          /\ (0 <= fdiv 1 (fadd 1 d) <= 1)%Q
          /\ (Qabs (fdiv 1 (fadd 1 d) - 1 / (1 + d)) <= pow2 (-52))%Q
          /\ ((fdiv 1 (fadd 1 d) == 1)%Q <-> (d <= pow2 (-53))%Q)
          /\ ((d <= pow2 1024)%Q -> (0 < fdiv 1 (fadd 1 d))%Q))
    /\ (forall d1 d2, (0 <= d1)%Q -> (d1 <= d2)%Q ->
          (fdiv 1 (fadd 1 d2) <= fdiv 1 (fadd 1 d1))%Q)
    /\ (forall d1 d2, (0 <= d1)%Q -> (0 <= d2)%Q ->
          (pow2 (-51) < 1 / (1 + d1) - 1 / (1 + d2))%Q ->
          (fdiv 1 (fadd 1 d2) < fdiv 1 (fadd 1 d1))%Q).
Proof.
  intros rt Collection collection_query c e n t refs E.
  split; [|split; [|split]].
  - destruct (search_inv _ _ _ _ _ E) as (results & Eq & _ & Hk).
    exists results. split; [exact Eq|]. intros i r F.
    destruct (Hk i r F) as (id & Er).
    destruct (search_record_inv _ _ _ Er)
      as (md & d & sim & flds & name & ty & _ & Ed & Es & _ & _ & _ & ->).
    exists d. split; [exact Ed|]. cbn [similarity].
    unfold similarity_of_distance in Es. apply truediv_inv in Es.
    apply Es.
  - intros d H. split; [apply similarity_of_distance_ok, H|].
    split; [split; [apply similarity_nonneg, H|apply similarity_le_1, H]|].
    split; [apply similarity_near, H|].
    split; [apply similarity_one_iff, H|apply similarity_pos, H].
  - intros d1 d2 H L. apply similarity_antitone; assumption.
  - intros d1 d2 H1 H2 L. apply similarity_separates; assumption.
Qed.

Lemma similarity_of_distance_transform_witness :
  exists refs,
    @search Reference.runtime _ RefStore.query Examples.collection [1; 0]%Q 5
      None = Ok refs
    /\ map tdr_id refs = [py "tdr-a"; py "tdr-c"; py "tdr-b"]
    /\ Forall2 (fun r d => similarity r = fdiv 1 (fadd 1 d)) refs [0; 1; 2]%Q
    /\ map similarity refs
       = [1; 1 # 2; 6004799503160661 # 18014398509481984]%Q.
Proof.
  assert (E : exists refs,
             @search Reference.runtime _ RefStore.query Examples.collection
               [1; 0]%Q 5 None = Ok refs
             /\ map tdr_id refs = [py "tdr-a"; py "tdr-c"; py "tdr-b"]
             /\ map similarity refs
                = [1; 1 # 2; 6004799503160661 # 18014398509481984]%Q).
  { eexists. split; [vm_compute; reflexivity|].
    split; vm_compute; reflexivity. }
  destruct E as (refs & E & Hi & Hs). exists refs.
  destruct (@similarity_of_distance_transform Reference.runtime _
              RefStore.query Examples.collection [1; 0]%Q 5%Z None
              refs E) as ((results & Eq & Hd) & _).
  split; [exact E|]. split; [exact Hi|]. split; [|exact Hs].
  assert (D : distances results = Some [[0; 1; 2]%Q]).
  { vm_compute in Eq. injection Eq as <-. reflexivity. }
  destruct refs as [|r1 [|r2 [|r3 [|r4 refs]]]]; try discriminate.
  assert (F : forall i r d,
             nth_error [r1; r2; r3] i = Some r ->
             nth_error [0; 1; 2]%Q i = Some d ->
             similarity r = fdiv 1 (fadd 1 d)).
  { intros i r d Hr Hn. destruct (Hd i r Hr) as (d' & Ed & ->).
    unfold distance_at in Ed. rewrite D in Ed.
    apply getitem_Some in Ed. cbn [hd] in Ed. congruence. }
  repeat constructor.
  - apply (F 0 r1 0%Q); reflexivity.
  - apply (F 1 r2 1%Q); reflexivity.
  - apply (F 2 r3 2%Q); reflexivity.
Defined.

(** Two records at the distances [2^-60] and [2^-58] from the query: the
    distances differ and neither is 0, and both results have the similarity
    1, since the sum [1.0 + d] is [1.0] for both. *)
Lemma similarity_of_close_distances_counterexample :
  exists results refs,
    RefStore.query Examples2.collection_close [[0; 0]%Q] 5 None = Ok results
    /\ distances results = Some [[pow2 (-60); pow2 (-58)]]
    /\ @search Reference.runtime _ RefStore.query Examples2.collection_close
         [0; 0]%Q 5 None = Ok refs
    /\ map tdr_id refs = [py "tdr-p"; py "tdr-q"]
    /\ map similarity refs = [1; 1]%Q
    /\ (0 < pow2 (-60))%Q /\ (pow2 (-60) < pow2 (-58))%Q
    /\ similarity_of_distance (pow2 (-60)) = Ok 1%Q
    /\ similarity_of_distance (pow2 (-58)) = Ok 1%Q.
Proof.
  eexists. eexists. split; [vm_compute; reflexivity|].
  split; [vm_compute; reflexivity|].
  split; [vm_compute; reflexivity|].
  repeat split; vm_compute; reflexivity.
Qed.

(** C9. When every record the store returns is otherwise well formed, the
    search returns one result per record; a record whose metadata has no
    [tipo] gets the type [SERVICIO], and a record whose [fields_json] is
    absent or does not parse gets the empty fields mapping. *)
Theorem search_tolerates_bad_metadata :
  forall (rt : Runtime) (Collection : Type)
         (collection_query :
            Collection -> list (list Q) -> Z ->
            option (list (list N * pyobj)) -> result QueryResult)
         (c : Collection) (query_embedding : list Q) (n_results : Z)
         (tipo_filter : option TdrTipo) (results : QueryResult),
    collection_query c [query_embedding] n_results (where_filter tipo_filter)
      = Ok results ->
    (forall i, i < length (hd [] (ids results)) -> record_ok results i) ->
    exists refs,
      search collection_query c query_embedding n_results tipo_filter = Ok refs
      /\ length refs = length (hd [] (ids results))
      /\ forall i r metadata,
           nth_error refs i = Some r ->
           metadata_at results i = Ok metadata ->
           (dict_get metadata (py "tipo") = None -> tipo r = SERVICIO)
           /\ (fields_json_unusable metadata -> fields r = []).
Proof.
  intros rt Collection collection_query c e n t results Eq Hok.
  destruct (@search_total rt _ collection_query c e n t results Eq)
    as [refs E].
  { intros k id Hk. apply search_record_ok. apply Hok. exact Hk. }
  exists refs. split; [exact E|].
  destruct (search_inv _ _ _ _ _ E) as (results' & Eq' & Hl & Hk).
  rewrite Eq in Eq'. injection Eq' as <-. split; [exact Hl|].
  intros i r metadata F Em. destruct (Hk i r F) as (id & Er).
  destruct (search_record_inv _ _ _ Er)
    as (md & d & sim & flds & name & ty & Em' & _ & _ & Ef & _ & Et & ->).
  rewrite Em in Em'. injection Em' as <-. cbn [tipo fields]. split.
  - intros Hn. unfold dict_get_default in Et. rewrite Hn in Et.
    vm_compute in Et. congruence.
  - intros Hu. rewrite (parse_fields_unusable Hu) in Ef. congruence.
Qed.

(* ================================================================== *)
(** * The context builder *)

Section ContextFacts.

Context {rt : Runtime}.

Lemma value_str_length (v : pyobj) : length (value_str v) <= 500.
Proof. destruct v; apply slice_to_length. Qed.

Lemma fields_loop_spec (items : list (list N * pyobj)) :
  forall acc : list (list N),
  exists rendered : list (list N * list N),
    fields_loop items acc = acc ++ map field_line rendered
    /\ length rendered <= length items
    /\ Forall (fun kt =>
                 length (snd kt) <= 500
                 /\ exists v, In (fst kt, v) items /\ snd kt = value_str v)
         rendered.
Proof.
  induction items as [|[key v] rest IH]; intros acc.
  - exists []. simpl. rewrite app_nil_r. repeat split; constructor.
  - cbn [fields_loop]. destruct (truthy v).
    + destruct (IH (acc ++ [py "  " ++ key ++ py ": " ++ value_str v]))
        as (rendered & E & Hl & Hf).
      exists ((key, value_str v) :: rendered). split; [|split].
      * rewrite E, <- app_assoc. reflexivity.
      * simpl. lia.
      * constructor.
        -- split; [apply value_str_length|]. exists v. split;
             [left; reflexivity|reflexivity].
        -- eapply Forall_impl; [|exact Hf]. intros kt (H1 & v' & H2 & H3).
           split; [exact H1|]. exists v'. split; [right; exact H2|exact H3].
    + destruct (IH acc) as (rendered & E & Hl & Hf).
      exists rendered. split; [exact E|]. split; [simpl; lia|].
      eapply Forall_impl; [|exact Hf]. intros kt (H1 & v' & H2 & H3).
      split; [exact H1|]. exists v'. split; [right; exact H2|exact H3].
Qed.

Lemma build_context_loop_spec (refs : list TdrSearchResult) :
  forall (i : nat) (acc : list (list N)),
  exists rendered,
    build_context_loop i refs acc = acc ++ blocks i refs rendered
    /\ Forall2 rendered_from refs rendered.
Proof.
  induction refs as [|ref rest IH]; intros i acc.
  - exists []. simpl. rewrite app_nil_r. split; constructor.
  - cbn [build_context_loop].
    destruct (fields_loop_spec (firstn 15 (fields ref))
                (((acc ++ [header i ref]) ++ [py "Archivo: " ++ filename ref])
                   ++ [py "Tipo: " ++ value (tipo ref)]))
      as (r & E & Hl & Hf).
    rewrite E.
    destruct (IH (S i) (((((acc ++ [header i ref])
                            ++ [py "Archivo: " ++ filename ref])
                           ++ [py "Tipo: " ++ value (tipo ref)])
                          ++ map field_line r) ++ [[]]))
      as (rendered & E' & HF).
    exists (r :: rendered). split.
    + rewrite E'. cbn [blocks]. unfold block, header.
      repeat rewrite <- app_assoc. reflexivity.
    + constructor; [|exact HF]. split; [|exact Hf].
      eapply Nat.le_trans; [exact Hl|]. apply firstn_le_length.
Qed.

End ContextFacts.

(** ** C6 *)

(** C6. The context of a sequence of references is the line-feed join of one
    block per reference, in order, each headed by its rank counted from 1 and
    its similarity to two decimals (the hundredth nearest to it), and holding
    at most 15 field lines whose values have at most 500 characters; the
    context of no reference is the empty string. *)
Theorem build_context_blocks :
  forall (rt : Runtime) (referencias : list TdrSearchResult),
    (exists rendered : list (list (list N * list N)),
        _build_context referencias = join nl (blocks 1 referencias rendered)
        /\ Forall2 rendered_from referencias rendered)
    /\ _build_context [] = []
    /\ forall ref : TdrSearchResult,
         let h := round_half_even (Qabs (similarity ref) * 100) in
         format_2f (similarity ref)
         = (if Qlt_le_dec (similarity ref) 0 then [45%N] else [])
             ++ str_of_Z (h / 100) ++ [46%N] ++ two_digits (h mod 100)
         /\ (Qabs (inject_Z h - Qabs (similarity ref) * 100) <= 1 # 2)%Q.
Proof.
  intros rt referencias. split; [|split].
  - destruct (build_context_loop_spec referencias 1 [])
      as (rendered & E & HF).
    exists rendered. split; [|exact HF]. unfold _build_context.
    rewrite E. reflexivity.
  - reflexivity.
  - intros ref h. split; [reflexivity|].
    pose proof (round_half_even_near (Qabs (similarity ref) * 100)) as R.
    fold h in R. generalize dependent h.
    generalize (Qabs (similarity ref) * 100)%Q. intros [n d] h R.
    cbn [Qnum Qden] in R.
    apply Qabs_Qle_condition. unfold Qle, Qminus, Qplus, Qopp, inject_Z.
    cbn [Qnum Qden]. split; nia.
Qed.

(* ================================================================== *)
(** * The text for the embedding *)

Section EmbeddingFacts.

Context {rt : Runtime}.

Lemma object_values_dicts (ds : list (list (list N * pyobj))) :
  object_values (map PyDict ds)
  = Ok (map py_str (filter truthy (flat_map (map snd) ds))).
Proof.
  induction ds as [|d ds IH]; [reflexivity|].
  cbn [map object_values flat_map]. rewrite IH. cbn [bind].
  rewrite filter_app, map_app. reflexivity.
Qed.

Lemma create_tdr_text_loop_spec (fields : list (list N * pyobj))
    (todo : list (list N)) :
  forall (parts : list (list N)) (texts : list (list N)),
    Forall2 (fun kv text => flatten (snd kv) = Ok text)
      (selected_from fields todo) texts ->
    create_tdr_text_loop fields todo parts
    = Ok (parts ++ map text_line (combine (selected_from fields todo) texts)).
Proof.
  induction todo as [|field rest IH]; intros parts texts HF.
  - cbn. rewrite app_nil_r. reflexivity.
  - cbn [create_tdr_text_loop]. unfold selected_from in HF.
    cbn [flat_map] in HF. fold (selected_from fields rest) in HF.
    unfold selected_from at 1. cbn [flat_map].
    fold (selected_from fields rest).
    destruct (dict_get fields field) as [v|]; [destruct (truthy v)|].
    + cbn [app] in HF. inversion HF as [|kv text l l' Hv HF' E1 E2]; subst.
      cbn [snd] in Hv. rewrite Hv. cbn [bind].
      rewrite (IH _ _ HF'). cbn [app combine map].
      rewrite <- app_assoc. reflexivity.
    + cbn [app] in HF |- *. apply IH. exact HF.
    + cbn [app] in HF |- *. apply IH. exact HF.
Qed.

Lemma flatten_objects (l : list pyobj) (ds : list (list (list N * pyobj))) :
  firstn 3 l = map PyDict ds -> ds <> [] ->
  flatten (PyList l)
  = Ok (join (py " | ")
          (map py_str (filter truthy (flat_map (map snd) ds)))).
Proof.
  intros E N. destruct ds as [|d ds]; [contradiction|].
  destruct l as [|x l]; [discriminate|]. cbn [firstn map] in E.
  injection E as -> E. cbn [flatten].
  change (PyDict d :: firstn 2 l) with (firstn 3 (PyDict d :: l)) in E.
  assert (E3 : firstn 3 (PyDict d :: l) = map PyDict (d :: ds))
    by (cbn [firstn map]; f_equal; exact E).
  rewrite E3, object_values_dicts. reflexivity.
Qed.

End EmbeddingFacts.

(** ** C7 *)

(** C7 (amended). The canonical text is a function of its input.  When the
    selected values flatten, it is the line ["Tipo: " ++ tipo] followed by one
    line ["key: text"] for each priority key present with a true value, in
    priority order, joined by line feeds.  A list whose first three elements
    are objects flattens to the [str] of the true values of these objects,
    joined by pipes; a list whose first element is no object to its first 5
    elements; a mapping to its first 5 entries as ["key: value"]; any other
    value to its [str]. *)
Theorem create_tdr_text_canonical :
  forall (rt : Runtime) (fields : list (list N * pyobj)) (tipo : list N)
         (texts : list (list N)),
    Forall2 (fun kv text => flatten (snd kv) = Ok text) (selected fields) texts ->
    create_tdr_text fields tipo
    = Ok (join nl ((py "Tipo: " ++ tipo)
                     :: map text_line (combine (selected fields) texts)))
    /\ (forall r1 r2, create_tdr_text fields tipo = r1 ->
                      create_tdr_text fields tipo = r2 -> r1 = r2)
    /\ (forall l ds, firstn 3 l = map PyDict ds -> ds <> [] ->
          flatten (PyList l)
          = Ok (join (py " | ")
                  (map py_str (filter truthy (flat_map (map snd) ds)))))
    /\ (forall l, (forall d rest, l <> PyDict d :: rest) ->
          flatten (PyList l) = Ok (join (py " | ") (map py_str (firstn 5 l))))
    /\ (forall d, flatten (PyDict d)
                  = Ok (join (py " | ") (map key_value (firstn 5 d))))
    /\ (forall v, (forall l, v <> PyList l) -> (forall d, v <> PyDict d) ->
          flatten v = Ok (py_str v)).
Proof.
  intros rt fields tipo texts HF. split; [|split; [|split; [|split; [|split]]]].
  - unfold create_tdr_text.
    rewrite (create_tdr_text_loop_spec fields priority_fields _ HF).
    reflexivity.
  - intros r1 r2 <- <-. reflexivity.
  - intros l ds. apply flatten_objects.
  - intros l Hl. destruct l as [|[| | | | | |d] rest]; try reflexivity.
    exfalso. apply (Hl d rest). reflexivity.
  - reflexivity.
  - intros v Hl Hd. destruct v; try reflexivity.
    + exfalso. apply (Hl l). reflexivity.
    + exfalso. apply (Hd d). reflexivity.
Qed.

Lemma create_tdr_text_canonical_witness :
  let fields :=
    [ (py "entregables",
       PyList [ PyDict [ (py "nombre", PyStr (py "Informe"));
                         (py "detalle", PyStr []) ] ]);
      (py "objeto_contratacion", PyStr (py "Limpieza de oficinas")) ] in
  @create_tdr_text Reference.runtime fields (py "SERVICIO")
  = Ok (py "Tipo: SERVICIO" ++ nl
          ++ py "objeto_contratacion: Limpieza de oficinas" ++ nl
          ++ py "entregables: Informe").
Proof.
  intros fields.
  assert (HF : Forall2
                 (fun kv text => @flatten Reference.runtime (snd kv) = Ok text)
                 (@selected fields)
                 [py "Limpieza de oficinas"; py "Informe"]).
  { repeat constructor. }
  destruct (@create_tdr_text_canonical Reference.runtime fields
              (py "SERVICIO") _ HF) as [E _].
  rewrite E. vm_compute. reflexivity.
Defined.

(** An object with an empty value: the code leaves the empty value out, the
    wording of the specification keeps it; and the first line reads [Tipo],
    not [Type]. *)
Lemma create_tdr_text_counterexample :
  let fields :=
    [ (py "entregables",
       PyList [ PyDict [ (py "nombre", PyStr (py "Informe"));
                         (py "detalle", PyStr []) ] ]) ] in
  @create_tdr_text Reference.runtime fields (py "SERVICIO")
  = Ok (py "Tipo: SERVICIO" ++ nl ++ py "entregables: Informe")
  /\ @claimed_text Reference.runtime (py "Type: ") fields (py "SERVICIO")
     = py "Type: SERVICIO" ++ nl ++ py "entregables: Informe | "
  /\ @create_tdr_text Reference.runtime fields (py "SERVICIO")
     <> Ok (@claimed_text Reference.runtime (py "Type: ") fields (py "SERVICIO"))
  /\ @create_tdr_text Reference.runtime fields (py "SERVICIO")
     <> Ok (@claimed_text Reference.runtime (py "Tipo: ") fields (py "SERVICIO")).
Proof.
  intros fields. repeat split; try (vm_compute; reflexivity);
    vm_compute; discriminate.
Qed.
(* ================================================================== *)
(** * The orchestrator *)

Section MeanFacts.

Open Scope Q_scope.

Lemma len_map {A B} (f : A -> B) (l : list A) : len (map f l) = len l.
Proof. unfold len. rewrite length_map. reflexivity. Qed.

(** The count of a list is exact up to [2^53] items. *)
Lemma len_exact {A} (l : list A) :
  (Z.of_nat (length l) <= 2 ^ 53)%Z ->
  len l == inject_Z (Z.of_nat (length l)).
Proof.
  intros H. unfold len, float_of_int. apply round64_int. lia.
Qed.

Lemma len_lower {A} (l : list A) :
  inject_Z (Z.min (Z.of_nat (length l)) (2 ^ 53)) <= len l.
Proof.
  destruct (Z.le_gt_cases (Z.of_nat (length l)) (2 ^ 53)) as [H|H].
  - rewrite Z.min_l by exact H. rewrite (len_exact l H). apply Qle_refl.
  - rewrite Z.min_r by lia. unfold len, float_of_int.
    apply round64_ge_const with (inject_Z (2 ^ 53)).
    + vm_compute. discriminate.
    + rewrite <- Zle_Qle. lia.
    + vm_compute. reflexivity.
Qed.

Lemma len_ge_one {A} (l : list A) : l <> [] -> 1 <= len l.
Proof.
  intros N. apply Qle_trans with (2 := len_lower l).
  destruct l as [|x l]; [contradiction|]. cbn [length].
  change 1 with (inject_Z 1). rewrite <- Zle_Qle. lia.
Qed.

Lemma len_nonzero {A} (l : list A) : l <> [] -> ~ len l == 0.
Proof. intros N E. pose proof (len_ge_one N) as G. lra. Qed.



Lemma average_defined (xs : list Q) :
  xs <> [] -> truediv (sum xs) (len xs) = Ok (fdiv (sum xs) (len xs)).
Proof.
  intros N. apply truediv_ok, len_nonzero, N.
Qed.




End MeanFacts.

Section OrchestratorFacts.

Context {rt : Runtime}.
Variable model : list N.
Variable get_embedding : list N -> list Q.
Variable Collection : Type.
Variable collection_query :
  Collection -> list (list Q) -> Z -> option (list (list N * pyobj)) ->
  result QueryResult.
Variable collection : Collection.
Variable generate_content :
  list GenerateRequest -> GenerateRequest -> result (list N).

Let generate := generate_fields model get_embedding collection_query collection
                  generate_content.
Let search_refs := search_similar_tdrs get_embedding collection_query collection.

(** The run of the path without references. *)
Lemma generate_fields_empty tipo desc obj campos n calls :
  search_refs (build_query tipo desc obj campos) (Some tipo) n = Ok [] ->
  generate tipo desc obj campos n calls
  = match generate_content calls (request_without_context model tipo desc obj)
    with
    | Ok text =>
      (new_GenerateFieldsResponse true tipo (_parse_json_response text) []
         (float_of_decimal 0.3),
       calls ++ [request_without_context model tipo desc obj])
    | Raise e => (Raise e, calls ++ [request_without_context model tipo desc obj])
    end.
Proof.
  intros E. unfold generate, generate_fields, mbind, lift.
  unfold search_refs in E. rewrite E.
  unfold _generate_without_context, mbind, call_generator, lift.
  fold (request_without_context model tipo desc obj).
  destruct (generate_content calls _); reflexivity.
Qed.

(** The run of the path with references. *)
Lemma generate_fields_refs tipo desc obj campos n calls refs :
  search_refs (build_query tipo desc obj campos) (Some tipo) n = Ok refs ->
  refs <> [] ->
  generate tipo desc obj campos n calls
  = match generate_content calls
            (request_with_context model tipo refs desc obj campos)
    with
    | Ok text =>
      (new_GenerateFieldsResponse true tipo (_parse_json_response text) refs
         (fdiv (sum (map similarity refs)) (len refs)),
       calls ++ [request_with_context model tipo refs desc obj campos])
    | Raise e =>
      (Raise e, calls ++ [request_with_context model tipo refs desc obj campos])
    end.
Proof.
  intros E N. unfold generate, generate_fields, mbind, lift.
  unfold search_refs in E. rewrite E.
  destruct refs as [|r refs]; [contradiction|].
  unfold _generate_with_gemini, mbind, call_generator, mret.
  fold (request_with_context model tipo (r :: refs) desc obj campos).
  destruct (generate_content calls _); [|reflexivity].
  assert (A : truediv (sum (map similarity (r :: refs))) (len (r :: refs))
              = Ok (fdiv (sum (map similarity (r :: refs))) (len (r :: refs)))).
  { rewrite <- (len_map similarity (r :: refs)).
    apply average_defined. discriminate. }
  rewrite A. reflexivity.
Qed.


End OrchestratorFacts.

Section PromptFacts.

Context {rt : Runtime}.

Lemma length_join (sep : list N) (parts : list (list N)) :
  length (join sep parts)
  = list_sum (map (@length N) parts) + length sep * (length parts - 1).
Proof.
  induction parts as [|p [|p' rest] IH].
  - cbn. lia.
  - cbn. lia.
  - change (join sep (p :: p' :: rest)) with (p ++ sep ++ join sep (p' :: rest)).
    rewrite !length_app, IH. cbn [map list_sum fold_right length].
    rewrite !Nat.sub_succ, !Nat.sub_0_r, Nat.mul_succ_r. lia.
Qed.

(** The prompt without context is the shorter of the two. *)
Lemma prompt_without_context_shorter (tipo : TdrTipo) (contexto : list N)
    (descripcion_inicial objeto_contratacion : option (list N))
    (campos_parciales : option (list (list N * list N))) :
  length (prompt_without_context tipo descripcion_inicial objeto_contratacion)
  < length (prompt_with_context tipo contexto descripcion_inicial
              objeto_contratacion campos_parciales).
Proof.
  unfold prompt_without_context, prompt_with_context.
  generalize (or_default descripcion_inicial (py "No proporcionada")).
  generalize (or_default objeto_contratacion (py "No proporcionado")).
  generalize (dumps_campos campos_parciales).
  generalize (campos_por_tipo tipo). generalize (value tipo).
  intros v e c b a.
  repeat match goal with
         | |- context [py ?s] =>
           let n := eval vm_compute in (length (py s)) in
           let H := fresh "L" in
           assert (H : length (py s) = n) by (vm_compute; reflexivity);
           revert H; generalize (py s); intros ? H
         end.
  rewrite !length_join. cbn [map list_sum fold_right length].
  rewrite !length_app. cbn [length dq nl]. lia.
Qed.

End PromptFacts.

(** ** C1, C2 and C5 *)

(** X24. When the search returns no reference, [generate_fields] makes
    exactly one call of the generator, with the prompt without context, which
    is shorter than the prompt with context; when the reply parses to a
    mapping it returns a response with that mapping, the confidence [0.3] and
    no reference, and every response it returns has the confidence [0.3] and
    no reference. *)
Theorem generate_fields_without_references :
  forall (rt : Runtime) (model : list N) (get_embedding : list N -> list Q)
         (Collection : Type)
         (collection_query :
            Collection -> list (list Q) -> Z ->
            option (list (list N * pyobj)) -> result QueryResult)
         (collection : Collection)
         (generate_content :
            list GenerateRequest -> GenerateRequest -> result (list N))
         (tipo : TdrTipo) (descripcion_inicial objeto_contratacion : option (list N))
         (campos_parciales : option (list (list N * list N)))
         (num_referencias : Z) (calls : list GenerateRequest),
    search_similar_tdrs get_embedding collection_query collection
      (build_query tipo descripcion_inicial objeto_contratacion campos_parciales)
      (Some tipo) num_referencias = Ok [] ->
    let request :=
      request_without_context model tipo descripcion_inicial
        objeto_contratacion in
    let run :=
      generate_fields model get_embedding collection_query collection
        generate_content tipo descripcion_inicial objeto_contratacion
        campos_parciales num_referencias calls in
    snd run = calls ++ [request]
    /\ (forall text d,
          generate_content calls request = Ok text ->
          _parse_json_response text = PyDict d ->
          fst run = Ok {| success := true; response_tipo := tipo;
                          campos_sugeridos := d; referencias_usadas := [];
                          confidence := float_of_decimal 0.3 |})
    /\ (forall resp,
          fst run = Ok resp ->
          confidence resp = float_of_decimal 0.3 /\ referencias_usadas resp = []
          /\ success resp = true)
    /\ (forall contexto,
          length (contents request)
          < length (prompt_with_context tipo contexto descripcion_inicial
                      objeto_contratacion campos_parciales)).
Proof.
  intros rt model get_embedding Collection collection_query collection
    generate_content tipo desc obj campos n calls E request run.
  unfold run. rewrite (@generate_fields_empty rt model get_embedding Collection
            collection_query collection generate_content tipo desc obj campos
            n calls E).
  fold request. split; [|split; [|split]].
  - destruct (generate_content calls request); reflexivity.
  - intros text d Et Ep. rewrite Et. cbn [fst]. rewrite Ep. reflexivity.
  - intros resp. destruct (generate_content calls request) as [text|e];
      cbn [fst]; [|discriminate].
    unfold new_GenerateFieldsResponse.
    destruct (_parse_json_response text); try discriminate.
    intros [= <-]. repeat split.
  - intros contexto. apply prompt_without_context_shorter.
Qed.

Lemma generate_fields_without_references_witness :
  let run :=
    @generate_fields Reference.runtime Examples.model Examples.get_embedding
      _ RefStore.query Examples.empty_collection Examples.reply_object
      SERVICIO (Some (py "Limpieza de oficinas")) None None 5 [] in
  fst run
  = Ok {| success := true; response_tipo := SERVICIO;
          campos_sugeridos :=
            [ (py "denominacion_contratacion",
               PyStr (py "Servicio de limpieza")) ];
          referencias_usadas := []; confidence := float_of_decimal 0.3 |}
  /\ snd run
     = [ request_without_context Examples.model SERVICIO
           (Some (py "Limpieza de oficinas")) None ].
Proof.
  intros run.
  assert (E : @search_similar_tdrs Reference.runtime Examples.get_embedding _
                RefStore.query Examples.empty_collection
                (build_query SERVICIO (Some (py "Limpieza de oficinas")) None
                   None)
                (Some SERVICIO) 5 = Ok []) by reflexivity.
  destruct (@generate_fields_without_references Reference.runtime
              Examples.model Examples.get_embedding _ RefStore.query
              Examples.empty_collection Examples.reply_object SERVICIO
              (Some (py "Limpieza de oficinas")) None None 5%Z [] E)
    as (H1 & H2 & _).
  split.
  - apply (H2 _ _ eq_refl). vm_compute. reflexivity.
  - exact H1.
Defined.

(** C1. The failing input: the search returns no reference and the generator
    replies with the JSON array [[1, 2]].  The parser returns the list, which
    is no mapping, and the construction of the response raises a validation
    error: no response is returned, where the claim promises one with the
    confidence [0.3] and no reference.  On the same path a reply in prose,
    which holds no JSON at all, does get that response, with the error
    payload as its fields. *)
Theorem generate_fields_array_reply_raises :
  let run reply :=
    @generate_fields Reference.runtime Examples.model Examples.get_embedding
      _ RefStore.query Examples.empty_collection reply
      SERVICIO (Some (py "Limpieza de oficinas")) None None 5 [] in
  @search_similar_tdrs Reference.runtime Examples.get_embedding _
    RefStore.query Examples.empty_collection
    (build_query SERVICIO (Some (py "Limpieza de oficinas")) None None)
    (Some SERVICIO) 5 = Ok []
  /\ @_parse_json_response Reference.runtime (py "[1, 2]")
     = PyList [PyInt 1; PyInt 2]
  /\ fst (run Examples.reply_array) = Raise ValidationError
  /\ (forall resp, fst (run Examples.reply_array) <> Ok resp)
  /\ length (snd (run Examples.reply_array)) = 1
  /\ fst (run Examples.reply_prose)
     = Ok {| success := true; response_tipo := SERVICIO;
             campos_sugeridos :=
               [ (py "error", PyStr (py "No se pudo parsear la respuesta"));
                 (py "raw",
                  PyStr (py "No puedo generar los campos solicitados.")) ];
             referencias_usadas := [];
             confidence := float_of_decimal 0.3 |}.
Proof.
  intros run. split; [reflexivity|].
  split; [vm_compute; reflexivity|].
  assert (E : fst (run Examples.reply_array) = Raise ValidationError)
    by (vm_compute; reflexivity).
  split; [exact E|]. split; [intros resp; rewrite E; discriminate|].
  split; vm_compute; reflexivity.
Qed.


(** C5. On the path with references [generate_fields] makes exactly one call
    of the generator, whatever the reply; when no stage of the parser finds
    JSON in the reply it still returns a response, with [success] true, the
    references, and the mapping with the keys [error] and [raw] as suggested
    fields. *)
Theorem generate_fields_parse_failure :
  forall (rt : Runtime) (model : list N) (get_embedding : list N -> list Q)
         (Collection : Type)
         (collection_query :
            Collection -> list (list Q) -> Z ->
            option (list (list N * pyobj)) -> result QueryResult)
         (collection : Collection)
         (generate_content :
            list GenerateRequest -> GenerateRequest -> result (list N))
         (tipo : TdrTipo) (descripcion_inicial objeto_contratacion : option (list N))
         (campos_parciales : option (list (list N * list N)))
         (num_referencias : Z) (calls : list GenerateRequest)
         (referencias : list TdrSearchResult),
    search_similar_tdrs get_embedding collection_query collection
      (build_query tipo descripcion_inicial objeto_contratacion campos_parciales)
      (Some tipo) num_referencias = Ok referencias ->
    referencias <> [] ->
    let request :=
      request_with_context model tipo referencias descripcion_inicial
        objeto_contratacion campos_parciales in
    let run :=
      generate_fields model get_embedding collection_query collection
        generate_content tipo descripcion_inicial objeto_contratacion
        campos_parciales num_referencias calls in
    snd run = calls ++ [request]
    /\ (forall text,
          generate_content calls request = Ok text ->
          unparseable text ->
          exists resp,
            fst run = Ok resp
            /\ success resp = true
            /\ referencias_usadas resp = referencias
            /\ campos_sugeridos resp
               = [ (py "error", PyStr (py "No se pudo parsear la respuesta"));
                   (py "raw", PyStr (slice_to 500 (strip_fences text))) ]).
Proof.
  intros rt model get_embedding Collection collection_query collection
    generate_content tipo desc obj campos n calls refs E N request run.
  unfold run. rewrite (@generate_fields_refs rt model get_embedding Collection
            collection_query collection generate_content tipo desc obj campos
            n calls refs E N).
  fold request. split.
  - destruct (generate_content calls request); reflexivity.
  - intros text Et U. rewrite Et. cbn [fst].
    rewrite (parse_unparseable U). unfold error_payload.
    eexists. repeat split.
Qed.

(* ================================================================== *)
(** * The service on the reference collection *)

Section RefStoreFacts.

Open Scope Q_scope.








End RefStoreFacts.



Lemma generate_fields_parse_failure_witness :
  let run :=
    @generate_fields Reference.runtime Examples.model Examples.get_embedding
      _ RefStore.query Examples.collection Examples.reply_prose
      SERVICIO (Some (py "Limpieza de oficinas")) None None 5 [] in
  length (snd run) = 1
  /\ exists resp,
       fst run = Ok resp
       /\ success resp = true
       /\ campos_sugeridos resp
          = [ (py "error", PyStr (py "No se pudo parsear la respuesta"));
              (py "raw", PyStr (py "No puedo generar los campos solicitados.")) ].
Proof.
  intros run.
  pose (refs := [ {| tdr_id := py "tdr-a"; filename := py "a.json";
                     tipo := SERVICIO; similarity := 1%Q;
                     fields := Examples.fields_a |} ]).
  assert (E : @search_similar_tdrs Reference.runtime Examples.get_embedding _
                RefStore.query Examples.collection
                (build_query SERVICIO (Some (py "Limpieza de oficinas")) None
                   None)
                (Some SERVICIO) 5 = Ok refs) by (vm_compute; reflexivity).
  assert (N : refs <> []) by discriminate.
  destruct (@generate_fields_parse_failure Reference.runtime
              Examples.model Examples.get_embedding _ RefStore.query
              Examples.collection Examples.reply_prose SERVICIO
              (Some (py "Limpieza de oficinas")) None None 5%Z [] refs E N)
    as (H1 & H2).
  split; [fold run in H1; rewrite H1; reflexivity|].
  destruct (H2 (py "  No puedo generar los campos solicitados.") eq_refl)
    as (resp & Er & Es & _ & Ec).
  - split; [vm_compute; reflexivity|].
    intros span F. vm_compute in F. discriminate.
  - exists resp. split; [exact Er|]. split; [exact Es|].
    rewrite Ec. vm_compute. reflexivity.
Defined.

Lemma search_tolerates_bad_metadata_witness :
  exists refs,
    @search Reference.runtime _ RefStore.query Examples.collection [1; 0]%Q 5
      None = Ok refs
    /\ map tdr_id refs = [py "tdr-a"; py "tdr-c"; py "tdr-b"]
    /\ map tipo refs = [SERVICIO; BIEN; SERVICIO]
    /\ map fields refs = [Examples.fields_a; []; []].
Proof.
  assert (exists results,
             RefStore.query Examples.collection [[1; 0]%Q] 5 (where_filter None)
             = Ok results
             /\ forall i, i < length (hd [] (ids results)) ->
                          @record_ok Reference.runtime results i)
    as (results & Eq & Hok).
  { eexists. split; [vm_compute; reflexivity|].
    cbn [hd ids length]. intros i Hi.
    destruct i as [|[|[|i]]]; [| | |lia].
    - do 2 eexists. split; [vm_compute; reflexivity|].
      split; [vm_compute; reflexivity|]. split; [vm_compute; discriminate|].
      split; [right; eexists; vm_compute; reflexivity|].
      split; [right; exists SERVICIO; vm_compute; reflexivity|].
      right. eexists. split; [vm_compute; reflexivity|].
      right. eexists. vm_compute. reflexivity.
    - do 2 eexists. split; [vm_compute; reflexivity|].
      split; [vm_compute; reflexivity|]. split; [vm_compute; discriminate|].
      split; [right; eexists; vm_compute; reflexivity|].
      split; [right; exists BIEN; vm_compute; reflexivity|].
      left. vm_compute. reflexivity.
    - do 2 eexists. split; [vm_compute; reflexivity|].
      split; [vm_compute; reflexivity|]. split; [vm_compute; discriminate|].
      split; [right; eexists; vm_compute; reflexivity|].
      split; [left; vm_compute; reflexivity|].
      right. eexists. split; [vm_compute; reflexivity|].
      left. vm_compute. reflexivity. }
  destruct (@search_tolerates_bad_metadata Reference.runtime _ RefStore.query
              Examples.collection [1; 0]%Q 5%Z None results Eq Hok)
    as (refs & E & _).
  exists refs. split; [exact E|].
  vm_compute in E. injection E as <-. repeat split.
Defined.

(** The context of one reference. *)
Example build_context_example :
  @_build_context Reference.runtime
    [ {| tdr_id := py "tdr-a"; filename := py "a.json"; tipo := SERVICIO;
         similarity := 1%Q; fields := Examples.fields_a |} ]
  = py "=== REFERENCIA 1 (Similaridad: 1.00) ===" ++ nl
      ++ py "Archivo: a.json" ++ nl
      ++ py "Tipo: SERVICIO" ++ nl
      ++ py "  objeto_contratacion: Limpieza de oficinas" ++ nl
      ++ py "  plazo: 30" ++ nl.
Proof. vm_compute. reflexivity. Qed.

(* ================================================================== *)
(** * Further properties of the search *)

Section SearchMore.

Context {rt : Runtime}.
Variable Collection : Type.
Variable collection_query :
  Collection -> list (list Q) -> Z -> option (list (list N * pyobj)) ->
  result QueryResult.

Lemma search_loop_ids (results : QueryResult) (ids0 : list (list N)) :
  forall (i : nat) (acc rs : list TdrSearchResult),
    search_loop results i ids0 acc = Ok rs ->
    map tdr_id rs = map tdr_id acc ++ ids0.
Proof.
  induction ids0 as [|id rest IH]; intros i acc rs E; cbn [search_loop] in E.
  - injection E as <-. rewrite app_nil_r. reflexivity.
  - destruct (search_record results i id) as [r|] eqn:Er; [|discriminate].
    cbn [bind] in E. apply IH in E. rewrite E, map_app. cbn [map].
    destruct (search_record_inv _ _ _ Er)
      as (md & d & sim & flds & name & ty & _ & _ & _ & _ & _ & _ & ->).
    cbn [tdr_id]. rewrite <- app_assoc. reflexivity.
Qed.

Lemma TdrTipo_of_inv (v : pyobj) (t : TdrTipo) :
  TdrTipo_of v = Ok t -> v = PyStr (value t).
Proof.
  destruct v as [| | | |s| |]; try discriminate. unfold TdrTipo_of.
  destruct (str_eqb s (py "BIEN")) eqn:E1;
    [intros [= <-]; apply str_eqb_eq in E1; subst s; reflexivity|].
  destruct (str_eqb s (py "OBRA")) eqn:E2;
    [intros [= <-]; apply str_eqb_eq in E2; subst s; reflexivity|].
  destruct (str_eqb s (py "CONSULTORIA_OBRA")) eqn:E3;
    [intros [= <-]; apply str_eqb_eq in E3; subst s; reflexivity|].
  destruct (str_eqb s (py "SERVICIO")) eqn:E4;
    [intros [= <-]; apply str_eqb_eq in E4; subst s; reflexivity|].
  discriminate.
Qed.

Lemma parse_fields_inv (metadata : list (list N * pyobj)) (v : pyobj) :
  parse_fields metadata = Ok v ->
  (dict_get metadata (py "fields_json") = None /\ v = PyDict [])
  \/ exists s, dict_get metadata (py "fields_json") = Some (PyStr s)
               /\ (json_loads s = None /\ v = PyDict []
                   \/ json_loads s = Some v).
Proof.
  unfold parse_fields.
  destruct (dict_get metadata (py "fields_json")) as [[| | | |s| |]|];
    try discriminate.
  - destruct (json_loads s) as [x|] eqn:L; intros [= <-]; right; exists s;
      (split; [reflexivity|]).
    + right. exact L.
    + left. split; [exact L|reflexivity].
  - intros [= <-]. left. split; reflexivity.
Qed.

(** The default result of an id the store returns without metadata and
    without distance. *)
Lemma search_record_ids_only (results : QueryResult) (i : nat) (id : list N) :
  metadatas results = None -> distances results = None ->
  search_record results i id
  = Ok {| tdr_id := id; filename := []; tipo := SERVICIO;
          similarity := (1 / (1 + 1))%Q; fields := [] |}.
Proof.
  intros Em Ed. unfold search_record, metadata_at, distance_at.
  rewrite Em, Ed. reflexivity.
Qed.

Lemma search_loop_ids_only (results : QueryResult) (ids0 : list (list N)) :
  metadatas results = None -> distances results = None ->
  forall (i : nat) (acc : list TdrSearchResult),
    search_loop results i ids0 acc
    = Ok (acc ++ map (fun id => {| tdr_id := id; filename := [];
                                   tipo := SERVICIO;
                                   similarity := (1 / (1 + 1))%Q;
                                   fields := [] |}) ids0).
Proof.
  intros Em Ed. induction ids0 as [|id rest IH]; intros i acc;
    cbn [search_loop map].
  - rewrite app_nil_r. reflexivity.
  - rewrite (@search_record_ids_only results i id Em Ed). cbn [bind].
    rewrite IH, <- app_assoc. reflexivity.
Qed.

End SearchMore.

(** X1. The results of a search follow the ids the store returned: one result
    per id, in the store's order, each carrying its id. *)
Theorem search_results_follow_ids :
  forall (rt : Runtime) (Collection : Type)
         (collection_query :
            Collection -> list (list Q) -> Z ->
            option (list (list N * pyobj)) -> result QueryResult)
         (c : Collection) (query_embedding : list Q) (n_results : Z)
         (tipo_filter : option TdrTipo) (results : QueryResult)
         (refs : list TdrSearchResult),
    collection_query c [query_embedding] n_results (where_filter tipo_filter)
      = Ok results ->
    search collection_query c query_embedding n_results tipo_filter = Ok refs ->
    map tdr_id refs = hd [] (ids results).
Proof.
  intros rt Collection collection_query c e n t results refs Eq E.
  unfold search in E. rewrite Eq in E. cbn [bind] in E.
  destruct (ids results) as [|[|id0 ids0] more].
  - injection E as <-. reflexivity.
  - injection E as <-. reflexivity.
  - apply search_loop_ids in E. exact E.
Qed.

Lemma search_results_follow_ids_witness :
  exists results refs,
    RefStore.query Examples.collection [[1; 0]%Q] 5 (where_filter None)
    = Ok results
    /\ @search Reference.runtime _ RefStore.query Examples.collection
         [1; 0]%Q 5 None = Ok refs
    /\ map tdr_id refs = hd [] (ids results).
Proof.
  do 2 eexists. split; [vm_compute; reflexivity|].
  split; [vm_compute; reflexivity|].
  eapply (@search_results_follow_ids Reference.runtime _ RefStore.query
            Examples.collection [1; 0]%Q 5%Z None); vm_compute; reflexivity.
Defined.

(** X2. Every result of a search reflects the stored metadata of its record:
    its file name is the stored [filename] (the empty string when absent), its
    type the stored [tipo] ([SERVICIO] when absent), and its fields the object
    the stored [fields_json] parses to (none when it does not parse). *)
Theorem search_result_reflects_metadata :
  forall (rt : Runtime) (Collection : Type)
         (collection_query :
            Collection -> list (list Q) -> Z ->
            option (list (list N * pyobj)) -> result QueryResult)
         (c : Collection) (query_embedding : list Q) (n_results : Z)
         (tipo_filter : option TdrTipo) (results : QueryResult)
         (refs : list TdrSearchResult),
    collection_query c [query_embedding] n_results (where_filter tipo_filter)
      = Ok results ->
    search collection_query c query_embedding n_results tipo_filter = Ok refs ->
    forall i r,
      nth_error refs i = Some r ->
      exists metadata,
        metadata_at results i = Ok metadata
        /\ dict_get_default metadata (py "filename") (PyStr [])
           = PyStr (filename r)
        /\ dict_get_default metadata (py "tipo") (PyStr (py "SERVICIO"))
           = PyStr (value (tipo r))
        /\ forall s, dict_get metadata (py "fields_json") = Some (PyStr s) ->
             (json_loads s = None /\ fields r = [])
             \/ json_loads s = Some (PyDict (fields r)).
Proof.
  intros rt Collection collection_query c e n t results refs Eq E i r F.
  destruct (search_inv _ _ _ _ _ E) as (results' & Eq' & _ & Hk).
  rewrite Eq in Eq'. injection Eq' as <-.
  destruct (Hk i r F) as (id & Er).
  destruct (search_record_inv _ _ _ Er)
    as (md & d & sim & flds & name & ty & Em & _ & _ & Ef & En & Et & ->).
  exists md. cbn [filename tipo fields]. split; [exact Em|].
  split; [exact En|]. split; [rewrite (@TdrTipo_of_inv _ _ Et); reflexivity|].
  intros s Es. destruct (@parse_fields_inv rt _ _ Ef) as [[A _]|(s' & A & B)].
  - rewrite A in Es. discriminate.
  - rewrite A in Es. injection Es as ->.
    destruct B as [[B1 B2]|B]; [left|right; exact B].
    split; [exact B1|]. injection B2 as ->. reflexivity.
Qed.

Lemma search_result_reflects_metadata_witness :
  exists results refs r,
    RefStore.query Examples.collection [[1; 0]%Q] 5 (where_filter None)
    = Ok results
    /\ @search Reference.runtime _ RefStore.query Examples.collection
         [1; 0]%Q 5 None = Ok refs
    /\ nth_error refs 0 = Some r
    /\ exists metadata,
         metadata_at results 0 = Ok metadata
         /\ dict_get_default metadata (py "filename") (PyStr [])
            = PyStr (filename r)
         /\ dict_get_default metadata (py "tipo") (PyStr (py "SERVICIO"))
            = PyStr (value (tipo r))
         /\ forall s, dict_get metadata (py "fields_json") = Some (PyStr s) ->
              (@json_loads Reference.runtime s = None /\ fields r = [])
              \/ @json_loads Reference.runtime s = Some (PyDict (fields r)).
Proof.
  do 3 eexists. split; [vm_compute; reflexivity|].
  split; [vm_compute; reflexivity|]. split; [vm_compute; reflexivity|].
  eapply (@search_result_reflects_metadata Reference.runtime _ RefStore.query
            Examples.collection [1; 0]%Q 5%Z None);
    vm_compute; reflexivity.
Defined.

(** X3. A record whose stored [tipo] is not the value of a type, whose stored
    [filename] is no string, or whose stored [fields_json] is no string or
    parses to a value that is no object, makes the whole search fail: no
    result list is returned. *)
Theorem search_fails_on_bad_record :
  forall (rt : Runtime) (Collection : Type)
         (collection_query :
            Collection -> list (list Q) -> Z ->
            option (list (list N * pyobj)) -> result QueryResult)
         (c : Collection) (query_embedding : list Q) (n_results : Z)
         (tipo_filter : option TdrTipo) (results : QueryResult)
         (i : nat) (metadata : list (list N * pyobj)),
    collection_query c [query_embedding] n_results (where_filter tipo_filter)
      = Ok results ->
    i < length (hd [] (ids results)) ->
    metadata_at results i = Ok metadata ->
    (exists v, dict_get metadata (py "tipo") = Some v
               /\ forall t, v <> PyStr (value t))
    \/ (exists v, dict_get metadata (py "filename") = Some v
                  /\ forall s, v <> PyStr s)
    \/ (exists v, dict_get metadata (py "fields_json") = Some v
                  /\ forall s, v <> PyStr s)
    \/ (exists s v, dict_get metadata (py "fields_json") = Some (PyStr s)
                    /\ json_loads s = Some v /\ forall d, v <> PyDict d) ->
    forall refs,
      search collection_query c query_embedding n_results tipo_filter
      <> Ok refs.
Proof.
  intros rt Collection collection_query c e n t results i metadata Eq Hi Em
    Hbad refs E.
  destruct (search_inv _ _ _ _ _ E) as (results' & Eq' & Hl & Hk).
  rewrite Eq in Eq'. injection Eq' as <-.
  destruct (nth_error refs i) as [r|] eqn:F.
  2:{ apply nth_error_None in F. lia. }
  destruct (Hk i r F) as (id & Er).
  destruct (search_record_inv _ _ _ Er)
    as (md & d & sim & flds & name & ty & Em' & _ & _ & Ef & En & Et & _).
  rewrite Em in Em'. injection Em' as <-.
  destruct Hbad as [(v & A & B)|[(v & A & B)|[(v & A & B)|(s & v & A & L & B)]]].
  - unfold dict_get_default in Et. rewrite A in Et.
    apply TdrTipo_of_inv in Et. exact (B ty Et).
  - unfold dict_get_default in En. rewrite A in En. exact (B name En).
  - destruct (@parse_fields_inv rt _ _ Ef) as [[A' _]|(s' & A' & _)];
      rewrite A in A'; [discriminate|]. injection A' as ->.
    exact (B s' eq_refl).
  - destruct (@parse_fields_inv rt _ _ Ef) as [[A' _]|(s' & A' & B')];
      rewrite A in A'; [discriminate|]. injection A' as <-.
    destruct B' as [[B1 _]|B1]; rewrite L in B1; [discriminate|].
    injection B1 as ->. exact (B flds eq_refl).
Qed.

Lemma search_fails_on_bad_record_witness :
  @search Reference.runtime _ RefStore.query Examples2.collection_bad
    [1; 0]%Q 5 None = Raise ValueError
  /\ forall refs,
       @search Reference.runtime _ RefStore.query Examples2.collection_bad
         [1; 0]%Q 5 None <> Ok refs.
Proof.
  split; [vm_compute; reflexivity|].
  eapply (@search_fails_on_bad_record Reference.runtime _ RefStore.query
            Examples2.collection_bad [1; 0]%Q 5%Z None _ 1).
  - vm_compute. reflexivity.
  - cbn. lia.
  - vm_compute. reflexivity.
  - left. exists (PyStr (py "UNKNOWN")). split; [vm_compute; reflexivity|].
    intros t. destruct t; vm_compute; discriminate.
Defined.

(** X4. When the store returns ids without metadata and without distances,
    the search returns for each id the default result: empty file name, type
    [SERVICIO], no fields, and the similarity 1/2 of the default distance 1. *)
Theorem search_defaults_without_metadata :
  forall (rt : Runtime) (Collection : Type)
         (collection_query :
            Collection -> list (list Q) -> Z ->
            option (list (list N * pyobj)) -> result QueryResult)
         (c : Collection) (query_embedding : list Q) (n_results : Z)
         (tipo_filter : option TdrTipo) (results : QueryResult),
    collection_query c [query_embedding] n_results (where_filter tipo_filter)
      = Ok results ->
    metadatas results = None ->
    distances results = None ->
    search collection_query c query_embedding n_results tipo_filter
    = Ok (map (fun id => {| tdr_id := id; filename := []; tipo := SERVICIO;
                            similarity := (1 / (1 + 1))%Q; fields := [] |})
            (hd [] (ids results))).
Proof.
  intros rt Collection collection_query c e n t results Eq Em Ed.
  unfold search. rewrite Eq. cbn [bind].
  destruct (ids results) as [|[|id0 ids0] more]; try reflexivity.
  rewrite (@search_loop_ids_only rt results (id0 :: ids0) Em Ed).
  reflexivity.
Qed.

Lemma search_defaults_without_metadata_witness :
  exists refs,
    @search Reference.runtime unit Examples2.ids_only_query tt [1; 0]%Q 5 None
    = Ok refs
    /\ map tdr_id refs = [py "tdr-1"; py "tdr-2"]
    /\ Forall (fun r => (similarity r == 1 # 2)%Q /\ tipo r = SERVICIO) refs.
Proof.
  eexists. split.
  - apply (@search_defaults_without_metadata Reference.runtime unit
             Examples2.ids_only_query tt [1; 0]%Q 5%Z None _ eq_refl eq_refl
             eq_refl).
  - split; [reflexivity|]. repeat constructor.
Defined.

(* ================================================================== *)
(** * More on [generate_fields]: failures and the shape of the response *)

Section GenerateMore.

Context {rt : Runtime}.
Variable model : list N.
Variable get_embedding : list N -> list Q.
Variable Collection : Type.
Variable collection_query :
  Collection -> list (list Q) -> Z -> option (list (list N * pyobj)) ->
  result QueryResult.
Variable collection : Collection.
Variable generate_content :
  list GenerateRequest -> GenerateRequest -> result (list N).

(** The run of [generate_fields] after a search that succeeded. *)
Lemma generate_fields_after_search tipo desc obj campos n calls refs :
  search_similar_tdrs get_embedding collection_query collection
    (build_query tipo desc obj campos) (Some tipo) n = Ok refs ->
  generate_fields model get_embedding collection_query collection
    generate_content tipo desc obj campos n calls
  = match generate_content calls (request_for model tipo refs desc obj campos) with
    | Ok text =>
      (new_GenerateFieldsResponse true tipo (_parse_json_response text) refs
         (confidence_for refs),
       calls ++ [request_for model tipo refs desc obj campos])
    | Raise e => (Raise e, calls ++ [request_for model tipo refs desc obj campos])
    end.
Proof.
  intros E. destruct refs as [|r refs].
  - exact (@generate_fields_empty rt model get_embedding Collection
             collection_query collection generate_content tipo desc obj campos
             n calls E).
  - apply (@generate_fields_refs rt model get_embedding Collection
             collection_query collection generate_content tipo desc obj campos
             n calls (r :: refs) E).
    discriminate.
Qed.

(** The run of [generate_fields] after a search that failed. *)
Lemma generate_fields_after_failed_search tipo desc obj campos n calls e :
  search_similar_tdrs get_embedding collection_query collection
    (build_query tipo desc obj campos) (Some tipo) n = Raise e ->
  generate_fields model get_embedding collection_query collection
    generate_content tipo desc obj campos n calls
  = (Raise e, calls).
Proof.
  intros E. unfold generate_fields, mbind, lift. rewrite E. reflexivity.
Qed.

End GenerateMore.

(** X5. A failure of the search is the failure of [generate_fields], and the
    generator is not called; after a search that succeeded, a failure of the
    generator is the failure of [generate_fields], with that one call made. *)
Theorem generate_fields_propagates_failures :
  forall (rt : Runtime) (model : list N) (get_embedding : list N -> list Q)
         (Collection : Type)
         (collection_query :
            Collection -> list (list Q) -> Z ->
            option (list (list N * pyobj)) -> result QueryResult)
         (collection : Collection)
         (generate_content :
            list GenerateRequest -> GenerateRequest -> result (list N))
         (tipo : TdrTipo) (desc obj : option (list N))
         (campos : option (list (list N * list N))) (n : Z)
         (calls : list GenerateRequest) (e : exn),
    (search_similar_tdrs get_embedding collection_query collection
       (build_query tipo desc obj campos) (Some tipo) n = Raise e ->
     generate_fields model get_embedding collection_query collection
       generate_content tipo desc obj campos n calls
     = (Raise e, calls))
    /\ (forall refs,
          search_similar_tdrs get_embedding collection_query collection
            (build_query tipo desc obj campos) (Some tipo) n = Ok refs ->
          generate_content calls (request_for model tipo refs desc obj campos)
          = Raise e ->
          generate_fields model get_embedding collection_query collection
            generate_content tipo desc obj campos n calls
          = (Raise e, calls ++ [request_for model tipo refs desc obj campos])).
Proof.
  intros rt model get_embedding Collection collection_query collection
    generate_content tipo desc obj campos n calls e. split.
  - intros E.
    exact (@generate_fields_after_failed_search rt model get_embedding
             Collection collection_query collection generate_content tipo desc
             obj campos n calls e E).
  - intros refs E G.
    rewrite (@generate_fields_after_search rt model get_embedding Collection
               collection_query collection generate_content tipo desc obj
               campos n calls refs E).
    rewrite G. reflexivity.
Qed.

Lemma generate_fields_propagates_failures_witness :
  @generate_fields Reference.runtime Examples.model Examples.get_embedding
    unit Examples2.failing_query tt Examples.reply_object
    SERVICIO (Some (py "Limpieza de oficinas")) None None 5 []
  = (Raise ServiceError, [])
  /\ exists req,
       @generate_fields Reference.runtime Examples.model
         Examples.get_embedding _ RefStore.query Examples.collection
         Examples2.reply_fails
         SERVICIO (Some (py "Limpieza de oficinas")) None None 5 []
       = (Raise ServiceError, [] ++ [req]).
Proof.
  split.
  - apply (proj1 (@generate_fields_propagates_failures Reference.runtime
                    Examples.model Examples.get_embedding unit
                    Examples2.failing_query tt Examples.reply_object
                    SERVICIO (Some (py "Limpieza de oficinas")) None None 5%Z
                    [] ServiceError)).
    reflexivity.
  - eexists.
    eapply (proj2 (@generate_fields_propagates_failures Reference.runtime
                     Examples.model Examples.get_embedding _ RefStore.query
                     Examples.collection Examples2.reply_fails
                     SERVICIO (Some (py "Limpieza de oficinas")) None None 5%Z
                     [] ServiceError)).
    + vm_compute. reflexivity.
    + reflexivity.
Defined.

(** X6. [generate_fields] fails for one of three reasons only: the search
    failed (then no call of the generator was made), the one call of the
    generator failed, or the reply parsed to a value that is no mapping (then
    the failure is a validation error of the response). *)
Theorem generate_fields_failure_causes :
  forall (rt : Runtime) (model : list N) (get_embedding : list N -> list Q)
         (Collection : Type)
         (collection_query :
            Collection -> list (list Q) -> Z ->
            option (list (list N * pyobj)) -> result QueryResult)
         (collection : Collection)
         (generate_content :
            list GenerateRequest -> GenerateRequest -> result (list N))
         (tipo : TdrTipo) (desc obj : option (list N))
         (campos : option (list (list N * list N))) (n : Z)
         (calls calls' : list GenerateRequest) (e : exn),
    generate_fields model get_embedding collection_query collection
      generate_content tipo desc obj campos n calls
    = (Raise e, calls') ->
    (search_similar_tdrs get_embedding collection_query collection
       (build_query tipo desc obj campos) (Some tipo) n = Raise e
     /\ calls' = calls)
    \/ exists refs,
         search_similar_tdrs get_embedding collection_query collection
           (build_query tipo desc obj campos) (Some tipo) n = Ok refs
         /\ calls' = calls ++ [request_for model tipo refs desc obj campos]
         /\ (generate_content calls
               (request_for model tipo refs desc obj campos) = Raise e
             \/ exists text,
                  generate_content calls
                    (request_for model tipo refs desc obj campos) = Ok text
                  /\ e = ValidationError
                  /\ forall d, _parse_json_response text <> PyDict d).
Proof.
  intros rt model get_embedding Collection collection_query collection
    generate_content tipo desc obj campos n calls calls' e E.
  destruct (search_similar_tdrs get_embedding collection_query collection
              (build_query tipo desc obj campos) (Some tipo) n)
    as [refs|e0] eqn:Es.
  - right. exists refs. split; [reflexivity|].
    rewrite (@generate_fields_after_search rt model get_embedding Collection
               collection_query collection generate_content tipo desc obj
               campos n calls refs Es) in E.
    destruct (generate_content calls
                (request_for model tipo refs desc obj campos))
      as [text|e1] eqn:Eg.
    + injection E as E1 E2. split; [symmetry; exact E2|]. right.
      exists text. split; [reflexivity|].
      unfold new_GenerateFieldsResponse in E1.
      destruct (_parse_json_response text) as [| | | | | |d];
        try (injection E1 as <-; split; [reflexivity|]; intros d; discriminate).
      discriminate.
    + injection E as E1 E2. split; [symmetry; exact E2|]. left.
      rewrite E1. reflexivity.
  - left.
    rewrite (@generate_fields_after_failed_search rt model get_embedding
               Collection collection_query collection generate_content tipo
               desc obj campos n calls e0 Es) in E.
    injection E as E1 E2. split; [rewrite E1; reflexivity|symmetry; exact E2].
Qed.

Lemma generate_fields_failure_causes_witness :
  exists calls',
    @generate_fields Reference.runtime Examples.model Examples.get_embedding
      _ RefStore.query Examples.empty_collection Examples.reply_array
      SERVICIO (Some (py "Limpieza de oficinas")) None None 5 []
    = (Raise ValidationError, calls')
    /\ ((@search_similar_tdrs Reference.runtime Examples.get_embedding _
           RefStore.query Examples.empty_collection
           (build_query SERVICIO (Some (py "Limpieza de oficinas")) None None)
           (Some SERVICIO) 5 = Raise ValidationError
         /\ calls' = [])
        \/ exists refs,
             @search_similar_tdrs Reference.runtime Examples.get_embedding _
               RefStore.query Examples.empty_collection
               (build_query SERVICIO (Some (py "Limpieza de oficinas")) None
                  None)
               (Some SERVICIO) 5 = Ok refs
             /\ calls'
                = [] ++ [@request_for Reference.runtime Examples.model SERVICIO refs
                           (Some (py "Limpieza de oficinas")) None None]
             /\ (Examples.reply_array []
                   (@request_for Reference.runtime Examples.model SERVICIO refs
                      (Some (py "Limpieza de oficinas")) None None)
                 = Raise ValidationError
                 \/ exists text,
                      Examples.reply_array []
                        (@request_for Reference.runtime Examples.model SERVICIO refs
                           (Some (py "Limpieza de oficinas")) None None)
                      = Ok text
                      /\ ValidationError = ValidationError
                      /\ forall d,
                           @_parse_json_response Reference.runtime text
                           <> PyDict d)).
Proof.
  eexists. split; [vm_compute; reflexivity|].
  apply (@generate_fields_failure_causes Reference.runtime Examples.model
           Examples.get_embedding _ RefStore.query Examples.empty_collection
           Examples.reply_array SERVICIO (Some (py "Limpieza de oficinas"))
           None None 5%Z [] _ ValidationError).
  vm_compute. reflexivity.
Defined.

(** X7. Every response [generate_fields] returns reports success, carries the
    requested type, the references the search returned and the mapping the
    reply of the generator parsed to, after exactly one call of the generator;
    its confidence is [0.3] without references and the average similarity
    with. *)
Theorem generate_fields_response_shape :
  forall (rt : Runtime) (model : list N) (get_embedding : list N -> list Q)
         (Collection : Type)
         (collection_query :
            Collection -> list (list Q) -> Z ->
            option (list (list N * pyobj)) -> result QueryResult)
         (collection : Collection)
         (generate_content :
            list GenerateRequest -> GenerateRequest -> result (list N))
         (tipo : TdrTipo) (desc obj : option (list N))
         (campos : option (list (list N * list N))) (n : Z)
         (calls calls' : list GenerateRequest) (resp : GenerateFieldsResponse),
    generate_fields model get_embedding collection_query collection
      generate_content tipo desc obj campos n calls
    = (Ok resp, calls') ->
    exists refs text,
      search_similar_tdrs get_embedding collection_query collection
        (build_query tipo desc obj campos) (Some tipo) n = Ok refs
      /\ generate_content calls (request_for model tipo refs desc obj campos)
         = Ok text
      /\ calls' = calls ++ [request_for model tipo refs desc obj campos]
      /\ _parse_json_response text = PyDict (campos_sugeridos resp)
      /\ success resp = true
      /\ response_tipo resp = tipo
      /\ referencias_usadas resp = refs
      /\ confidence resp = confidence_for refs.
Proof.
  intros rt model get_embedding Collection collection_query collection
    generate_content tipo desc obj campos n calls calls' resp E.
  destruct (search_similar_tdrs get_embedding collection_query collection
              (build_query tipo desc obj campos) (Some tipo) n)
    as [refs|e0] eqn:Es.
  - rewrite (@generate_fields_after_search rt model get_embedding Collection
               collection_query collection generate_content tipo desc obj
               campos n calls refs Es) in E.
    destruct (generate_content calls
                (request_for model tipo refs desc obj campos))
      as [text|e1] eqn:Eg; [|discriminate].
    injection E as E1 E2. exists refs, text. split; [reflexivity|].
    split; [exact Eg|]. split; [symmetry; exact E2|].
    unfold new_GenerateFieldsResponse in E1.
    destruct (_parse_json_response text) as [| | | | | |d]; try discriminate.
    injection E1 as <-. cbn. repeat split.
  - rewrite (@generate_fields_after_failed_search rt model get_embedding
               Collection collection_query collection generate_content tipo
               desc obj campos n calls e0 Es) in E.
    discriminate.
Qed.

Lemma generate_fields_response_shape_witness :
  exists resp calls',
    @generate_fields Reference.runtime Examples.model Examples.get_embedding
      _ RefStore.query Examples.collection Examples.reply_object
      SERVICIO (Some (py "Limpieza de oficinas")) None None 5 []
    = (Ok resp, calls')
    /\ success resp = true
    /\ response_tipo resp = SERVICIO
    /\ confidence resp = confidence_for (referencias_usadas resp).
Proof.
  assert (E : exists resp calls',
             @generate_fields Reference.runtime Examples.model
               Examples.get_embedding _ RefStore.query Examples.collection
               Examples.reply_object SERVICIO
               (Some (py "Limpieza de oficinas")) None None 5 []
             = (Ok resp, calls'))
    by (do 2 eexists; vm_compute; reflexivity).
  destruct E as (resp & calls' & E). exists resp, calls'.
  split; [exact E|].
  destruct (@generate_fields_response_shape Reference.runtime Examples.model
              Examples.get_embedding _ RefStore.query Examples.collection
              Examples.reply_object SERVICIO
              (Some (py "Limpieza de oficinas")) None None 5%Z [] calls' resp
              E)
    as (refs & text & _ & _ & _ & _ & S1 & S2 & S3 & S4).
  split; [exact S1|]. split; [exact S2|]. rewrite S3. exact S4.
Defined.

(** X8. An empty description, an empty object of the contract and an empty
    mapping of fields already filled are treated as absent: the query, the
    request sent to the generator and the outcome of [generate_fields] are
    those of a call without them. *)
Theorem generate_fields_empty_inputs_absent :
  forall (rt : Runtime) (model : list N) (get_embedding : list N -> list Q)
         (Collection : Type)
         (collection_query :
            Collection -> list (list Q) -> Z ->
            option (list (list N * pyobj)) -> result QueryResult)
         (collection : Collection)
         (generate_content :
            list GenerateRequest -> GenerateRequest -> result (list N))
         (tipo : TdrTipo) (desc obj : option (list N))
         (campos : option (list (list N * list N))) (n : Z)
         (calls : list GenerateRequest),
    generate_fields model get_embedding collection_query collection
      generate_content tipo (Some []) obj campos n calls
    = generate_fields model get_embedding collection_query collection
        generate_content tipo None obj campos n calls
    /\ generate_fields model get_embedding collection_query collection
         generate_content tipo desc (Some []) campos n calls
       = generate_fields model get_embedding collection_query collection
           generate_content tipo desc None campos n calls
    /\ generate_fields model get_embedding collection_query collection
         generate_content tipo desc obj (Some []) n calls
       = generate_fields model get_embedding collection_query collection
           generate_content tipo desc obj None n calls.
Proof.
  intros. split; [|split];
    unfold generate_fields, build_query, _generate_without_context,
      _generate_with_gemini, prompt_without_context, prompt_with_context,
      or_default, dumps_campos;
    cbv beta iota; reflexivity.
Qed.

(* ================================================================== *)
(** * The statistics of the collection *)

Section StatsFacts.

Import ChromaStats.

Lemma Qeq_bool_sym (x y : Q) : Qeq_bool x y = Qeq_bool y x.
Proof.
  destruct (Qeq_bool x y) eqn:E1, (Qeq_bool y x) eqn:E2; try reflexivity.
  - apply Qeq_bool_iff in E1. apply Qeq_sym in E1.
    apply Qeq_bool_iff in E1. congruence.
  - apply Qeq_bool_iff in E2. apply Qeq_sym in E2.
    apply Qeq_bool_iff in E2. congruence.
Qed.

Lemma Qeq_bool_trans (x y z : Q) :
  Qeq_bool x y = true -> Qeq_bool y z = Qeq_bool x z.
Proof.
  intros E. apply Qeq_bool_iff in E.
  destruct (Qeq_bool y z) eqn:E1, (Qeq_bool x z) eqn:E2; try reflexivity.
  - apply Qeq_bool_iff in E1.
    assert (T : (x == z)%Q) by (rewrite E; exact E1).
    apply Qeq_bool_iff in T. congruence.
  - apply Qeq_bool_iff in E2.
    assert (T : (y == z)%Q) by (rewrite <- E; exact E2).
    apply Qeq_bool_iff in T. congruence.
Qed.

Lemma key_eqb_refl (k : pyobj) : hashable k = true -> key_eqb k k = true.
Proof.
  destruct k as [|b|z|q|s|l|d]; intros Hk; try discriminate; unfold key_eqb;
    cbn [number_of].
  - reflexivity.
  - apply Qeq_bool_iff. reflexivity.
  - apply Qeq_bool_iff. reflexivity.
  - apply Qeq_bool_iff. reflexivity.
  - apply str_eqb_refl.
Qed.

Lemma key_eqb_trans (a b c : pyobj) :
  key_eqb a b = true -> key_eqb b c = key_eqb a c.
Proof.
  unfold key_eqb.
  destruct (number_of a) as [x|] eqn:Na, (number_of b) as [y|] eqn:Nb;
    try discriminate.
  - intros E. destruct (number_of c) as [z|]; [|reflexivity].
    apply Qeq_bool_trans. exact E.
  - intros E. destruct (number_of c) as [z|]; [reflexivity|].
    destruct a as [|?|?|?|s|?|?], b as [|?|?|?|t|?|?]; try discriminate;
      try reflexivity.
    apply str_eqb_eq in E. subst t. reflexivity.
Qed.

Lemma str_eqb_sym (s t : list N) : str_eqb s t = str_eqb t s.
Proof.
  destruct (str_eqb s t) eqn:E1, (str_eqb t s) eqn:E2; try reflexivity.
  - apply str_eqb_eq in E1. subst t. rewrite str_eqb_refl in E2. discriminate.
  - apply str_eqb_eq in E2. subst t. rewrite str_eqb_refl in E1. discriminate.
Qed.

Lemma key_eqb_sym (a b : pyobj) : key_eqb a b = key_eqb b a.
Proof.
  unfold key_eqb.
  destruct (number_of a) as [x|] eqn:Na, (number_of b) as [y|] eqn:Nb;
    try reflexivity.
  - apply Qeq_bool_sym.
  - destruct a as [|?|?|?|s|?|?], b as [|?|?|?|t|?|?]; try reflexivity.
    apply str_eqb_sym.
Qed.

(** Reading after writing. *)
Lemma count_get_set (d : list (pyobj * Z)) (k x : pyobj) (n : Z) :
  count_get (count_set d k n) x
  = if key_eqb k x then n else count_get d x.
Proof.
  induction d as [|[k' n'] d IH]; cbn [count_set count_get].
  - reflexivity.
  - destruct (key_eqb k' k) eqn:E; cbn [count_get].
    + rewrite (key_eqb_trans _ _ x E).
      destruct (key_eqb k' x); reflexivity.
    + rewrite IH. destruct (key_eqb k' x) eqn:E'; [|reflexivity].
      destruct (key_eqb k x) eqn:E''; [|reflexivity].
      exfalso. rewrite key_eqb_sym in E''.
      rewrite <- (key_eqb_trans _ _ k E') in E. congruence.
Qed.

Lemma count_get_eqb (d : list (pyobj * Z)) (a b : pyobj) :
  key_eqb a b = true -> count_get d a = count_get d b.
Proof.
  intros E. induction d as [|[k' n'] d IH]; cbn [count_get]; [reflexivity|].
  rewrite (key_eqb_sym k' a), (key_eqb_sym k' b).
  rewrite <- (key_eqb_trans _ _ k' E). rewrite IH. reflexivity.
Qed.

Lemma increment_counts (d d' : list (pyobj * Z)) (x k : pyobj) :
  increment d x = Ok d' ->
  count_get d' k = (count_get d k + if key_eqb x k then 1 else 0)%Z.
Proof.
  unfold increment. destruct (hashable x); [|discriminate].
  intros [= <-]. rewrite count_get_set.
  destruct (key_eqb x k) eqn:E.
  - rewrite (@count_get_eqb d _ _ E). lia.
  - lia.
Qed.

Lemma stats_loop_counts (mds : list (list (list N * pyobj))) :
  forall pt pc pt' pc',
    stats_loop mds pt pc = Ok (pt', pc') ->
    forall k,
      count_get pt' k
      = (count_get pt k
         + Z.of_nat
             (length
                (filter
                   (fun m =>
                      key_eqb
                        (dict_get_default m (py "tipo")
                           (PyStr (py "UNKNOWN"))) k) mds)))%Z
      /\ count_get pc' k
         = (count_get pc k
            + Z.of_nat
                (length
                   (filter
                      (fun m =>
                         key_eqb
                           (dict_get_default m (py "category")
                              (PyStr (py "UNKNOWN"))) k) mds)))%Z.
Proof.
  induction mds as [|md mds IH]; intros pt pc pt' pc' E k.
  - injection E as <- <-. cbn [filter length]. split; lia.
  - cbn [stats_loop] in E.
    destruct (increment pt _) as [pt1|] eqn:E1; [|discriminate].
    cbn [bind] in E.
    destruct (increment pc _) as [pc1|] eqn:E2; [|discriminate].
    cbn [bind] in E.
    destruct (IH _ _ _ _ E k) as [H1 H2].
    rewrite (@increment_counts _ _ _ k E1) in H1.
    rewrite (@increment_counts _ _ _ k E2) in H2.
    cbn [filter].
    destruct (key_eqb (dict_get_default md (py "tipo") _) k);
      destruct (key_eqb (dict_get_default md (py "category") _) k);
      cbn [length]; rewrite ?Nat2Z.inj_succ; split; lia.
Qed.

Lemma increment_counted (d d' : list (pyobj * Z)) (k : pyobj) :
  increment d k = Ok d' ->
  counted d' = (counted d + 1)%Z
  /\ (Forall (fun kv => (1 <= snd kv)%Z) d ->
      Forall (fun kv => (1 <= snd kv)%Z) d').
Proof.
  unfold increment. destruct (hashable k); [|discriminate].
  intros [= <-]. induction d as [|[k' n'] d [IH1 IH2]];
    cbn [count_set count_get].
  - split; [reflexivity|]. intros _. constructor; [cbn; lia|constructor].
  - destruct (key_eqb k' k).
    + split; [unfold counted; cbn [map fold_right snd]; lia|].
      intros HF. inversion HF as [|? ? H1 H2]; subst.
      constructor; [cbn [snd] in *; lia|exact H2].
    + split.
      * unfold counted in *. cbn [map fold_right snd]. rewrite IH1. lia.
      * intros HF. inversion HF as [|? ? H1 H2]; subst.
        constructor; [exact H1|apply IH2; exact H2].
Qed.

Lemma stats_loop_counted (mds : list (list (list N * pyobj))) :
  forall pt pc pt' pc',
    stats_loop mds pt pc = Ok (pt', pc') ->
    (counted pt' = counted pt + Z.of_nat (length mds)
     /\ counted pc' = counted pc + Z.of_nat (length mds))%Z
    /\ (Forall (fun kv => (1 <= snd kv)%Z) pt ->
        Forall (fun kv => (1 <= snd kv)%Z) pt')
    /\ (Forall (fun kv => (1 <= snd kv)%Z) pc ->
        Forall (fun kv => (1 <= snd kv)%Z) pc').
Proof.
  induction mds as [|md mds IH]; intros pt pc pt' pc' E.
  - injection E as <- <-. cbn [length]. repeat split; try lia; auto.
  - cbn [stats_loop] in E.
    destruct (increment pt _) as [pt1|] eqn:E1; [|discriminate].
    cbn [bind] in E.
    destruct (increment pc _) as [pc1|] eqn:E2; [|discriminate].
    cbn [bind] in E.
    destruct (IH _ _ _ _ E) as ([H1 H2] & H3 & H4).
    destruct (@increment_counted _ _ _ E1) as [A1 A2].
    destruct (@increment_counted _ _ _ E2) as [B1 B2].
    cbn [length]. rewrite Nat2Z.inj_succ. repeat split; try lia; auto.
Qed.

(** The loop succeeds on keys that can be counted. *)
Lemma stats_loop_total (mds : list (list (list N * pyobj))) :
  Forall (fun m =>
            hashable (dict_get_default m (py "tipo") (PyStr (py "UNKNOWN")))
            = true
            /\ hashable
                 (dict_get_default m (py "category") (PyStr (py "UNKNOWN")))
               = true) mds ->
  forall pt pc, exists counts, stats_loop mds pt pc = Ok counts.
Proof.
  induction 1 as [|md mds [H1 H2] _ IH]; intros pt pc; cbn [stats_loop].
  - eexists. reflexivity.
  - unfold increment. rewrite H1, H2. cbn [bind]. apply IH.
Qed.

End StatsFacts.

(** X9. The statistics count the records by key: when the collection is not
    empty, the count listed for a type is the number of the records read whose
    [tipo] equals it, and the count listed for a category the number of those
    whose [category] equals it, a record without the key counting under
    [UNKNOWN]; a key that is not listed has no record. *)
Theorem get_stats_counts_records :
  forall (Collection : Type) (collection_count : Collection -> result Z)
         (collection_get_metadatas :
            Collection -> result (list (list (list N * pyobj))))
         (c : Collection) (st : ChromaStats.Stats),
    ChromaStats.get_stats collection_count collection_get_metadatas c = Ok st ->
    (0 < ChromaStats.total_tdrs st)%Z ->
    exists mds,
      collection_get_metadatas c = Ok mds
      /\ forall k,
           ChromaStats.count_get (ChromaStats.por_tipo st) k
           = Z.of_nat
               (length
                  (filter
                     (fun m =>
                        ChromaStats.key_eqb
                          (dict_get_default m (py "tipo")
                             (PyStr (py "UNKNOWN"))) k) mds))
           /\ ChromaStats.count_get (ChromaStats.por_categoria st) k
              = Z.of_nat
                  (length
                     (filter
                        (fun m =>
                           ChromaStats.key_eqb
                             (dict_get_default m (py "category")
                                (PyStr (py "UNKNOWN"))) k) mds)).
Proof.
  intros Collection collection_count collection_get_metadatas c st E P.
  unfold ChromaStats.get_stats in E.
  destruct (collection_count c) as [count|] eqn:Ec; [|discriminate].
  cbn [bind] in E. destruct (count >? 0)%Z eqn:G.
  - destruct (collection_get_metadatas c) as [mds|] eqn:Em; [|discriminate].
    cbn [bind] in E.
    destruct (ChromaStats.stats_loop mds [] []) as [[pt pc]|] eqn:El;
      [|discriminate].
    cbn [bind] in E. injection E as <-. exists mds. split; [reflexivity|].
    intros k. cbn [ChromaStats.por_tipo ChromaStats.por_categoria fst snd].
    destruct (@stats_loop_counts mds [] [] pt pc El k) as [H1 H2].
    rewrite H1, H2. cbn [ChromaStats.count_get]. split; lia.
  - cbn [bind] in E. injection E as <-. cbn [ChromaStats.total_tdrs] in P.
    rewrite Z.gtb_ltb in G. rewrite Z.ltb_ge in G. lia.
Qed.

Lemma get_stats_counts_records_witness :
  exists st,
    ChromaStats.get_stats Examples2.count Examples2.get_metadatas
      Examples.collection = Ok st
    /\ ChromaStats.total_tdrs st = 3%Z
    /\ ChromaStats.count_get (ChromaStats.por_tipo st) (PyStr (py "SERVICIO"))
       = 1%Z
    /\ ChromaStats.count_get (ChromaStats.por_tipo st) (PyStr (py "UNKNOWN"))
       = 1%Z
    /\ ChromaStats.count_get (ChromaStats.por_categoria st)
         (PyStr (py "UNKNOWN")) = 3%Z.
Proof.
  assert (E : exists st,
             ChromaStats.get_stats Examples2.count Examples2.get_metadatas
               Examples.collection = Ok st
             /\ ChromaStats.total_tdrs st = 3%Z)
    by (eexists; split; vm_compute; reflexivity).
  destruct E as (st & E & T). exists st. split; [exact E|].
  split; [exact T|].
  destruct (@get_stats_counts_records _ Examples2.count
              Examples2.get_metadatas Examples.collection st E)
    as (mds & Em & H); [rewrite T; reflexivity|].
  injection Em as <-.
  split; [|split].
  - rewrite (proj1 (H (PyStr (py "SERVICIO")))). vm_compute. reflexivity.
  - rewrite (proj1 (H (PyStr (py "UNKNOWN")))). vm_compute. reflexivity.
  - rewrite (proj2 (H (PyStr (py "UNKNOWN")))). vm_compute. reflexivity.
Defined.

(** X10. The counts of the statistics add up: when the collection is not
    empty, the counts by type and the counts by category each sum to the
    number of the records read, and every count listed is at least 1. *)
Theorem get_stats_counts_add_up :
  forall (Collection : Type) (collection_count : Collection -> result Z)
         (collection_get_metadatas :
            Collection -> result (list (list (list N * pyobj))))
         (c : Collection) (st : ChromaStats.Stats),
    ChromaStats.get_stats collection_count collection_get_metadatas c = Ok st ->
    (0 < ChromaStats.total_tdrs st)%Z ->
    exists mds,
      collection_get_metadatas c = Ok mds
      /\ ChromaStats.counted (ChromaStats.por_tipo st) = Z.of_nat (length mds)
      /\ ChromaStats.counted (ChromaStats.por_categoria st)
         = Z.of_nat (length mds)
      /\ Forall (fun kv => (1 <= snd kv)%Z) (ChromaStats.por_tipo st)
      /\ Forall (fun kv => (1 <= snd kv)%Z) (ChromaStats.por_categoria st).
Proof.
  intros Collection collection_count collection_get_metadatas c st E P.
  unfold ChromaStats.get_stats in E.
  destruct (collection_count c) as [count|] eqn:Ec; [|discriminate].
  cbn [bind] in E. destruct (count >? 0)%Z eqn:G.
  - destruct (collection_get_metadatas c) as [mds|] eqn:Em; [|discriminate].
    cbn [bind] in E.
    destruct (ChromaStats.stats_loop mds [] []) as [[pt pc]|] eqn:El;
      [|discriminate].
    cbn [bind] in E. injection E as <-. exists mds. split; [reflexivity|].
    cbn [ChromaStats.por_tipo ChromaStats.por_categoria fst snd].
    destruct (@stats_loop_counted mds [] [] pt pc El) as ([H1 H2] & H3 & H4).
    rewrite H1, H2. unfold ChromaStats.counted. cbn [map fold_right].
    split; [lia|]. split; [lia|]. split; [apply H3|apply H4]; constructor.
  - cbn [bind] in E. injection E as <-. cbn [ChromaStats.total_tdrs] in P.
    rewrite Z.gtb_ltb in G. rewrite Z.ltb_ge in G. lia.
Qed.

Lemma get_stats_counts_add_up_witness :
  exists st,
    ChromaStats.get_stats Examples2.count Examples2.get_metadatas
      Examples.collection = Ok st
    /\ ChromaStats.counted (ChromaStats.por_tipo st) = 3%Z
    /\ ChromaStats.counted (ChromaStats.por_categoria st) = 3%Z.
Proof.
  assert (E : exists st,
             ChromaStats.get_stats Examples2.count Examples2.get_metadatas
               Examples.collection = Ok st
             /\ ChromaStats.total_tdrs st = 3%Z)
    by (eexists; split; vm_compute; reflexivity).
  destruct E as (st & E & T). exists st. split; [exact E|].
  destruct (@get_stats_counts_add_up _ Examples2.count
              Examples2.get_metadatas Examples.collection st E)
    as (mds & Em & H1 & H2 & _); [rewrite T; reflexivity|].
  injection Em as <-. rewrite H1, H2. split; reflexivity.
Defined.

(** X11. The statistics are returned whenever the store answers and the
    [tipo] and [category] of every record are values a mapping can be keyed
    by; the total they report is the count the store gave.  On a collection
    the store counts as empty no record is read and both mappings are
    empty. *)
Theorem get_stats_returns :
  forall (Collection : Type) (collection_count : Collection -> result Z)
         (collection_get_metadatas :
            Collection -> result (list (list (list N * pyobj))))
         (c : Collection) (count : Z),
    collection_count c = Ok count ->
    ((count <= 0)%Z ->
     ChromaStats.get_stats collection_count collection_get_metadatas c
     = Ok {| ChromaStats.total_tdrs := count; ChromaStats.por_tipo := [];
             ChromaStats.por_categoria := [] |})
    /\ (forall mds,
          collection_get_metadatas c = Ok mds ->
          Forall
            (fun m =>
               ChromaStats.hashable
                 (dict_get_default m (py "tipo") (PyStr (py "UNKNOWN")))
               = true
               /\ ChromaStats.hashable
                    (dict_get_default m (py "category") (PyStr (py "UNKNOWN")))
                  = true) mds ->
          exists st,
            ChromaStats.get_stats collection_count collection_get_metadatas c
            = Ok st
            /\ ChromaStats.total_tdrs st = count).
Proof.
  intros Collection collection_count collection_get_metadatas c count Ec.
  unfold ChromaStats.get_stats. rewrite Ec. cbn [bind]. split.
  - intros L. destruct (count >? 0)%Z eqn:G; [|reflexivity].
    rewrite Z.gtb_ltb in G. apply Z.ltb_lt in G. lia.
  - intros mds Em HF. destruct (count >? 0)%Z.
    + rewrite Em. cbn [bind].
      destruct (@stats_loop_total mds HF [] []) as [counts ->]. cbn [bind].
      eexists. split; reflexivity.
    + cbn [bind]. eexists. split; reflexivity.
Qed.

Lemma get_stats_returns_witness :
  ChromaStats.get_stats Examples2.count Examples2.get_metadatas
    Examples.empty_collection
  = Ok {| ChromaStats.total_tdrs := 0; ChromaStats.por_tipo := [];
          ChromaStats.por_categoria := [] |}
  /\ exists st,
       ChromaStats.get_stats Examples2.count Examples2.get_metadatas
         Examples.collection = Ok st
       /\ ChromaStats.total_tdrs st = 3%Z.
Proof.
  split.
  - apply (proj1 (@get_stats_returns _ Examples2.count
                    Examples2.get_metadatas Examples.empty_collection 0%Z
                    eq_refl)).
    lia.
  - apply (proj2 (@get_stats_returns _ Examples2.count
                    Examples2.get_metadatas Examples.collection 3%Z eq_refl)
             (map RefStore.row_metadata Examples.collection) eq_refl).
    repeat constructor.
Defined.

(* ================================================================== *)
(** * The allowed origins *)

Section OriginFacts.

Import Config.

(** [lstrip] drops a blank prefix and leaves a text that does not start with
    white space. *)
Lemma lstrip_decomp (s : list N) : exists w, blank w /\ s = w ++ lstrip s.
Proof.
  induction s as [|c s (w & B & E)]; cbn [lstrip].
  - exists []. split; [constructor|reflexivity].
  - destruct (isspace c) eqn:Hc.
    + exists (c :: w). split; [constructor; assumption|].
      cbn [app]. rewrite <- E. reflexivity.
    + exists []. split; [constructor|reflexivity].
Qed.

Lemma lstrip_head_solid (s : list N) : head_solid (lstrip s).
Proof.
  induction s as [|c s IH]; cbn [lstrip]; [exact I|].
  destruct (isspace c) eqn:Hc; [exact IH|exact Hc].
Qed.

Lemma lstrip_fix (t : list N) : head_solid t -> lstrip t = t.
Proof.
  destruct t as [|c t]; [reflexivity|]. cbn [head_solid lstrip].
  intros ->. reflexivity.
Qed.

Lemma rstrip_decomp (t : list N) : exists w, blank w /\ t = rstrip t ++ w.
Proof.
  destruct (lstrip_decomp (rev t)) as (w & B & E).
  exists (rev w). split; [apply Forall_rev; exact B|].
  unfold rstrip. rewrite <- rev_app_distr, <- E, rev_involutive. reflexivity.
Qed.

Lemma rstrip_idem (t : list N) : rstrip (rstrip t) = rstrip t.
Proof.
  unfold rstrip. rewrite rev_involutive.
  rewrite (@lstrip_fix _ (lstrip_head_solid (rev t))). reflexivity.
Qed.

Lemma rstrip_head_solid (t : list N) : head_solid t -> head_solid (rstrip t).
Proof.
  intros Ht. destruct (rstrip_decomp t) as (w & _ & E).
  destruct (rstrip t) as [|c r]; [exact I|].
  rewrite E in Ht. exact Ht.
Qed.

Lemma strip_idem (s : list N) : strip (strip s) = strip s.
Proof.
  unfold strip.
  rewrite (@lstrip_fix _ (@rstrip_head_solid _ (lstrip_head_solid s))).
  apply rstrip_idem.
Qed.

Lemma strip_In (s : list N) (c : N) : In c (strip s) -> In c s.
Proof.
  intros Hc. unfold strip in Hc.
  destruct (lstrip_decomp s) as (w1 & _ & E1).
  destruct (rstrip_decomp (lstrip s)) as (w2 & _ & E2).
  rewrite E1, E2. apply in_or_app. right. apply in_or_app. left. exact Hc.
Qed.

Lemma strip_of_blank (s : list N) : blank s -> strip s = [].
Proof.
  intros B. unfold strip.
  assert (E : lstrip s = []).
  { pose proof (@lstrip_blank s [] B) as E. rewrite app_nil_r in E. exact E. }
  rewrite E. reflexivity.
Qed.

(** [split] *)

Lemma split_cons (sep : N) (s : list N) :
  exists p ps, split sep s = p :: ps.
Proof.
  induction s as [|c s (p & ps & E)]; cbn [split].
  - eexists. eexists. reflexivity.
  - destruct (char_eqb c sep); [eexists; eexists; reflexivity|].
    rewrite E. eexists. eexists. reflexivity.
Qed.

Lemma split_pieces (sep : N) (s : list N) :
  Forall (fun p => ~ In sep p /\ forall c, In c p -> In c s) (split sep s).
Proof.
  induction s as [|c s IH]; cbn [split].
  - constructor; [|constructor]. split; [intros []|intros c []].
  - destruct (char_eqb c sep) eqn:E.
    + constructor.
      * split; [intros []|intros x []].
      * eapply Forall_impl; [|exact IH]. cbn beta. intros p [H1 H2].
        split; [exact H1|]. intros x Hx. right. apply H2. exact Hx.
    + destruct (split sep s) as [|p ps].
      * constructor; [|constructor]. apply char_eqb_neq in E. split.
        -- intros [H|[]]. congruence.
        -- intros x [<-|[]]. left. reflexivity.
      * inversion IH as [|? ? [H1 H2] H3]; subst. constructor.
        -- apply char_eqb_neq in E. split.
           ++ intros [H|H]; [congruence|exact (H1 H)].
           ++ intros x [<-|Hx]; [left; reflexivity|right; apply H2; exact Hx].
        -- eapply Forall_impl; [|exact H3]. cbn beta. intros q [Q1 Q2].
           split; [exact Q1|]. intros x Hx. right. apply Q2. exact Hx.
Qed.

Lemma split_app (sep : N) (p t : list N) :
  ~ In sep p -> split sep (p ++ sep :: t) = p :: split sep t.
Proof.
  induction p as [|c p IH]; intros Hp; cbn [app split].
  - rewrite char_eqb_refl. reflexivity.
  - assert (E : char_eqb c sep = false).
    { apply char_eqb_neq. intros ->. apply Hp. left. reflexivity. }
    rewrite E, IH; [reflexivity|]. intros H. apply Hp. right. exact H.
Qed.

Lemma split_whole (sep : N) (p : list N) : ~ In sep p -> split sep p = [p].
Proof.
  induction p as [|c p IH]; intros Hp; cbn [split]; [reflexivity|].
  assert (E : char_eqb c sep = false).
  { apply char_eqb_neq. intros ->. apply Hp. left. reflexivity. }
  rewrite E, IH; [reflexivity|]. intros H. apply Hp. right. exact H.
Qed.

Lemma split_join (sep : N) (ps : list (list N)) :
  ps <> [] -> Forall (fun p => ~ In sep p) ps ->
  split sep (join [sep] ps) = ps.
Proof.
  induction ps as [|p [|q rest] IH]; intros Hn HF.
  - contradiction.
  - cbn [join]. apply split_whole. inversion HF; assumption.
  - inversion HF as [|? ? H1 H2]; subst.
    change (join [sep] (p :: q :: rest))
      with (p ++ sep :: join [sep] (q :: rest)).
    rewrite (@split_app sep p _ H1), IH; [reflexivity|discriminate|exact H2].
Qed.

(** The origins of a text. *)

Lemma origins_of_clean (s : list N) :
  Forall (fun o => o <> [] /\ ~ In 44%N o /\ strip o = o) (origins_of s).
Proof.
  unfold origins_of. apply Forall_forall. intros o Ho.
  apply in_map_iff in Ho. destruct Ho as (p & <- & Hp).
  apply filter_In in Hp. destruct Hp as [Hp Ht].
  pose proof (split_pieces 44%N s) as HF. rewrite Forall_forall in HF.
  destruct (HF p Hp) as [H1 _]. split; [|split].
  - destruct (strip p); [discriminate|discriminate].
  - intros H. apply H1. apply strip_In. exact H.
  - apply strip_idem.
Qed.

Lemma origins_of_join (origins : list (list N)) :
  origins <> [] ->
  Forall (fun o => o <> [] /\ ~ In 44%N o /\ strip o = o) origins ->
  origins_of (join [44%N] origins) = origins.
Proof.
  intros Hn HF. unfold origins_of. rewrite split_join.
  - induction HF as [|o os (H1 & H2 & H3) _ IH]; [contradiction|].
    cbn [filter]. rewrite H3. destruct o as [|c o]; [contradiction|].
    cbn [map]. rewrite H3. f_equal.
    destruct os as [|o' os]; [reflexivity|]. apply IH. discriminate.
  - exact Hn.
  - eapply Forall_impl; [|exact HF]. cbn beta. intros o (_ & H & _). exact H.
Qed.

Lemma origins_of_separators (s : list N) :
  Forall (fun c => c = 44%N \/ isspace c = true) s -> origins_of s = [].
Proof.
  intros HF. unfold origins_of.
  assert (E : filter
                (fun origin =>
                   match strip origin with [] => false | _ => true end)
                (split 44%N s) = []).
  { pose proof (split_pieces 44%N s) as HP.
    induction HP as [|p ps [H1 H2] _ IH]; [reflexivity|].
    cbn [filter]. rewrite strip_of_blank; [exact IH|].
    apply Forall_forall. intros c Hc. rewrite Forall_forall in HF.
    destruct (HF c (H2 c Hc)) as [->|H]; [contradiction|exact H]. }
  rewrite E. reflexivity.
Qed.

End OriginFacts.

(** X12. Every origin [parse_cors_origins] returns is a usable entry: it is
    not empty, holds no comma and carries no white space at either end. *)
Theorem parse_cors_origins_clean :
  forall origins_str : list N,
    Forall (fun o => o <> [] /\ ~ In 44%N o /\ strip o = o)
      (Config.parse_cors_origins origins_str).
Proof.
  intros [|c s].
  - unfold Config.parse_cors_origins.
    repeat constructor; try discriminate;
      try (vm_compute; intros H; repeat (destruct H as [H|H]; [discriminate|]);
           exact H).
  - apply origins_of_clean.
Qed.

(** X13. Parsing the comma-joined text of a list of origins gives the list
    back, when the list is not empty and its origins are not empty, hold no
    comma and carry no white space at either end. *)
Theorem parse_cors_origins_of_join :
  forall origins : list (list N),
    origins <> [] ->
    Forall (fun o => o <> [] /\ ~ In 44%N o /\ strip o = o) origins ->
    Config.parse_cors_origins (join [44%N] origins) = origins.
Proof.
  intros origins Hn HF. unfold Config.parse_cors_origins.
  destruct (join [44%N] origins) as [|c s] eqn:E.
  - exfalso. destruct HF as [|o os (H1 & _ & _) _]; [contradiction|].
    destruct o as [|x o]; [contradiction|]. destruct os; discriminate.
  - rewrite <- E. apply origins_of_join; assumption.
Qed.

Lemma parse_cors_origins_of_join_witness :
  Config.parse_cors_origins (py "http://localhost:3000,https://asiter.pe")
  = [py "http://localhost:3000"; py "https://asiter.pe"].
Proof.
  apply (@parse_cors_origins_of_join
           [py "http://localhost:3000"; py "https://asiter.pe"]).
  - discriminate.
  - repeat constructor; try discriminate;
      vm_compute; intros H; repeat (destruct H as [H|H]; [discriminate|]);
      exact H.
Defined.

(** X14. A text that is not empty and holds only commas and white space has
    no origin: the empty list is returned, not the default origins. *)
Theorem parse_cors_origins_only_separators :
  forall origins_str : list N,
    origins_str <> [] ->
    Forall (fun c => c = 44%N \/ isspace c = true) origins_str ->
    Config.parse_cors_origins origins_str = []
    /\ Config.cors_origins origins_str = [].
Proof.
  intros [|c s] Hn HF; [contradiction|].
  unfold Config.parse_cors_origins, Config.cors_origins.
  split; apply origins_of_separators; exact HF.
Qed.

Lemma parse_cors_origins_only_separators_witness :
  Config.parse_cors_origins (py " , ,") = []
  /\ Config.cors_origins (py " , ,") = [].
Proof.
  apply (@parse_cors_origins_only_separators (py " , ,")).
  - discriminate.
  - assert (E : py " , ," = [32; 44; 32; 44]%N) by (vm_compute; reflexivity).
    rewrite E.
    repeat (apply Forall_cons;
            [first [left; reflexivity|right; reflexivity]|]).
    apply Forall_nil.
Defined.

(* ================================================================== *)
(** * More on the text for the embedding: failures and the fields read *)

Section EmbeddingMore.

Context {rt : Runtime}.

Lemma object_values_raise_inv (items : list pyobj) (e : exn) :
  object_values items = Raise e ->
  e = AttributeError /\ exists x, In x items /\ forall d, x <> PyDict d.
Proof.
  induction items as [|x items IH]; cbn [object_values]; [discriminate|].
  destruct x as [| | | | | |d];
    try (intros [= <-]; split; [reflexivity|]; eexists;
         split; [left; reflexivity|]; intros d; discriminate).
  destruct (object_values items) as [tl|e'] eqn:E; cbn [bind];
    [discriminate|].
  intros [= <-]. destruct (IH eq_refl) as (-> & x & Hx & Hd).
  split; [reflexivity|]. exists x. split; [right; exact Hx|exact Hd].
Qed.

Lemma object_values_raise_intro (items : list pyobj) (x : pyobj) :
  In x items -> (forall d, x <> PyDict d) ->
  object_values items = Raise AttributeError.
Proof.
  intros Hx Hd. induction items as [|y items IH]; [destruct Hx|].
  cbn [object_values]. destruct Hx as [->|Hx].
  - destruct x as [| | | | | |d]; try reflexivity.
    exfalso. exact (Hd d eq_refl).
  - destruct y as [| | | | | |d]; try reflexivity.
    rewrite (IH Hx). reflexivity.
Qed.

Lemma flatten_raise (v : pyobj) (e : exn) :
  flatten v = Raise e <-> e = AttributeError /\ mixed_list v.
Proof.
  split.
  - destruct v as [| | | | |l|d]; try discriminate.
    destruct l as [|[| | | | | |d] l]; try discriminate.
    unfold flatten.
    destruct (object_values (firstn 3 (PyDict d :: l))) as [vs|e'] eqn:E;
      cbn [bind]; [discriminate|].
    intros [= <-]. apply object_values_raise_inv in E.
    destruct E as (-> & x & Hx & Hd). split; [reflexivity|].
    exists d, l, x. split; [reflexivity|]. split; [|exact Hd].
    cbn [firstn] in Hx. destruct Hx as [<-|Hx]; [|exact Hx].
    exfalso. exact (Hd d eq_refl).
  - intros (-> & d & l & x & -> & Hx & Hd). unfold flatten.
    rewrite (@object_values_raise_intro (firstn 3 (PyDict d :: l)) x);
      [reflexivity| |exact Hd].
    cbn [firstn]. right. exact Hx.
Qed.

Lemma mixed_list_truthy (v : pyobj) : mixed_list v -> truthy v = true.
Proof. intros (d & l & x & -> & _). reflexivity. Qed.

Lemma create_tdr_text_loop_raise (fields : list (list N * pyobj))
    (todo : list (list N)) :
  forall (parts : list (list N)) (e : exn),
    create_tdr_text_loop fields todo parts = Raise e <->
    e = AttributeError
    /\ exists k v, In k todo /\ dict_get fields k = Some v /\ mixed_list v.
Proof.
  induction todo as [|field rest IH]; intros parts e;
    cbn [create_tdr_text_loop].
  - split; [discriminate|]. intros (_ & k & v & [] & _).
  - destruct (dict_get fields field) as [v|] eqn:Eg.
    + destruct (truthy v) eqn:Et.
      * destruct (flatten v) as [text|e'] eqn:Ef; cbn [bind].
        -- rewrite IH. split.
           ++ intros (-> & k & v' & Hk & Hv & Hm). split; [reflexivity|].
              exists k, v'. split; [right; exact Hk|]. split; assumption.
           ++ intros (-> & k & v' & [<-|Hk] & Hv & Hm).
              ** exfalso. rewrite Eg in Hv. injection Hv as <-.
                 assert (F : flatten v = Raise AttributeError)
                   by (apply flatten_raise; split; [reflexivity|exact Hm]).
                 rewrite Ef in F. discriminate.
              ** split; [reflexivity|]. exists k, v'.
                 split; [exact Hk|]. split; assumption.
        -- apply flatten_raise in Ef. destruct Ef as [-> Hm]. split.
           ++ intros [= <-]. split; [reflexivity|]. exists field, v.
              split; [left; reflexivity|]. split; assumption.
           ++ intros [-> _]. reflexivity.
      * rewrite IH. split.
        -- intros (-> & k & v' & Hk & Hv & Hm). split; [reflexivity|].
           exists k, v'. split; [right; exact Hk|]. split; assumption.
        -- intros (-> & k & v' & [<-|Hk] & Hv & Hm).
           ++ exfalso. rewrite Eg in Hv. injection Hv as <-.
              rewrite (@mixed_list_truthy _ Hm) in Et. discriminate.
           ++ split; [reflexivity|]. exists k, v'.
              split; [exact Hk|]. split; assumption.
    + rewrite IH. split.
      * intros (-> & k & v' & Hk & Hv & Hm). split; [reflexivity|].
        exists k, v'. split; [right; exact Hk|]. split; assumption.
      * intros (-> & k & v' & [<-|Hk] & Hv & Hm).
        -- exfalso. rewrite Eg in Hv. discriminate.
        -- split; [reflexivity|]. exists k, v'.
           split; [exact Hk|]. split; assumption.
Qed.

Lemma create_tdr_text_loop_ext (fields1 fields2 : list (list N * pyobj))
    (todo : list (list N)) :
  (forall k, In k todo -> dict_get fields1 k = dict_get fields2 k) ->
  forall parts,
    create_tdr_text_loop fields1 todo parts
    = create_tdr_text_loop fields2 todo parts.
Proof.
  induction todo as [|field rest IH]; intros Hk parts;
    cbn [create_tdr_text_loop]; [reflexivity|].
  rewrite (Hk field (or_introl eq_refl)).
  assert (Hr : forall k, In k rest -> dict_get fields1 k = dict_get fields2 k)
    by (intros k H; apply Hk; right; exact H).
  destruct (dict_get fields2 field) as [v|]; [|apply IH; exact Hr].
  destruct (truthy v); [|apply IH; exact Hr].
  destruct (flatten v); cbn [bind]; [apply IH; exact Hr|reflexivity].
Qed.

End EmbeddingMore.

(** X15. The text for the embedding cannot be built in one case only: a
    priority field holds a list that starts with an object and has a value
    that is no object at its second or third place; the failure then is an
    [AttributeError].  On every other mapping of fields a text is returned. *)
Theorem create_tdr_text_fails_iff :
  forall (rt : Runtime) (fields : list (list N * pyobj)) (tipo : list N)
         (e : exn),
    create_tdr_text fields tipo = Raise e <->
    e = AttributeError
    /\ exists k v,
         In k priority_fields /\ dict_get fields k = Some v /\ mixed_list v.
Proof.
  intros rt fields tipo e. unfold create_tdr_text.
  rewrite <- create_tdr_text_loop_raise
    with (parts := [py "Tipo: " ++ tipo]).
  destruct (create_tdr_text_loop fields priority_fields _); cbn [bind];
    split; intros E; try discriminate; injection E as <-; reflexivity.
Qed.

(** X16. The text for the embedding reads the priority fields only: two
    mappings of fields that agree on the priority fields give the same text,
    or the same failure, whatever their other entries and their order. *)
Theorem create_tdr_text_reads_priority_fields :
  forall (rt : Runtime) (fields1 fields2 : list (list N * pyobj))
         (tipo : list N),
    (forall k, In k priority_fields ->
               dict_get fields1 k = dict_get fields2 k) ->
    create_tdr_text fields1 tipo = create_tdr_text fields2 tipo.
Proof.
  intros rt fields1 fields2 tipo Hk. unfold create_tdr_text.
  rewrite (@create_tdr_text_loop_ext rt fields1 fields2 priority_fields Hk).
  reflexivity.
Qed.

Lemma create_tdr_text_reads_priority_fields_witness :
  @create_tdr_text Reference.runtime Examples.fields_a (py "SERVICIO")
  = @create_tdr_text Reference.runtime
      [ (py "titulo", PyStr (py "TDR 12"));
        (py "objeto_contratacion", PyStr (py "Limpieza de oficinas")) ]
      (py "SERVICIO").
Proof.
  apply create_tdr_text_reads_priority_fields.
  intros k Hk.
  repeat (destruct Hk as [<-|Hk]; [vm_compute; reflexivity|]).
  destruct Hk.
Defined.

(* ================================================================== *)
(** * The loaders: what they store for a file *)

Section ReplaceFacts.

Lemma replace_from_In (old new : list N) (x : N) (s : list N) :
  forall skip, In x (replace_from old new skip s) -> In x s \/ In x new.
Proof.
  induction s as [|c s IH]; intros skip; cbn [replace_from]; [intros []|].
  destruct skip as [|k].
  - destruct (startswith (c :: s) old).
    + intros H. apply in_app_or in H. destruct H as [H|H]; [right; exact H|].
      destruct (IH _ H) as [H'|H']; [left; right; exact H'|right; exact H'].
    + intros [<-|H]; [left; left; reflexivity|].
      destruct (IH _ H) as [H'|H']; [left; right; exact H'|right; exact H'].
  - intros H.
    destruct (IH _ H) as [H'|H']; [left; right; exact H'|right; exact H'].
Qed.

Lemma replace_In (s old new : list N) (x : N) :
  In x (replace s old new) -> In x s \/ In x new.
Proof. apply replace_from_In. Qed.

(** The replacement of a character by a character. *)
Lemma replace_char (s : list N) (c u : N) :
  replace s [c] [u] = map (fun x => if char_eqb x c then u else x) s.
Proof.
  unfold replace. induction s as [|x s IH]; [reflexivity|].
  cbn [replace_from startswith length Nat.sub map].
  assert (E : startswith s [] = true) by (destruct s; reflexivity).
  rewrite E, andb_true_r. destruct (char_eqb x c); cbn [app]; rewrite IH;
    reflexivity.
Qed.

Lemma replace_char_absent (s : list N) (c u : N) :
  u <> c -> ~ In c (replace s [c] [u]).
Proof.
  intros N H. rewrite replace_char in H. apply in_map_iff in H.
  destruct H as (x & E & _). destruct (char_eqb x c) eqn:Ex.
  - exact (N E).
  - apply char_eqb_neq in Ex. exact (Ex E).
Qed.

End ReplaceFacts.

Section LoaderFacts.

Context {rt : Runtime}.

(** The entries of the metadata [load_tdrs.process_tdr] builds. *)
Lemma load_metadata_entries (filename category : pyobj) (t s : list N) :
  dict_get
    [ (py "filename", filename); (py "category", category);
      (py "tipo", PyStr t); (py "fields_json", PyStr s) ] (py "filename")
  = Some filename
  /\ dict_get
       [ (py "filename", filename); (py "category", category);
         (py "tipo", PyStr t); (py "fields_json", PyStr s) ] (py "tipo")
     = Some (PyStr t)
  /\ dict_get
       [ (py "filename", filename); (py "category", category);
         (py "tipo", PyStr t); (py "fields_json", PyStr s) ]
       (py "fields_json")
     = Some (PyStr s).
Proof. repeat split. Qed.

(** The entries of the metadata [import_tdrs.process_tdr] builds. *)
Lemma import_metadata_entries (filename pages : pyobj) (t c s : list N) :
  dict_get
    [ (py "filename", filename); (py "tipo", PyStr t);
      (py "category", PyStr c); (py "page_count", pages);
      (py "fields_json", PyStr s) ] (py "filename")
  = Some filename
  /\ dict_get
       [ (py "filename", filename); (py "tipo", PyStr t);
         (py "category", PyStr c); (py "page_count", pages);
         (py "fields_json", PyStr s) ] (py "tipo")
     = Some (PyStr t)
  /\ dict_get
       [ (py "filename", filename); (py "tipo", PyStr t);
         (py "category", PyStr c); (py "page_count", pages);
         (py "fields_json", PyStr s) ] (py "fields_json")
     = Some (PyStr s).
Proof. repeat split. Qed.

Lemma underscore_twice (s : list N) :
  replace (replace s (py " ") (py "_")) (py ".") (py "_")
  = map (fun x => if (x =? 32)%N || (x =? 46)%N then 95%N else x) s.
Proof.
  change (py " ") with [32%N]. change (py "_") with [95%N].
  change (py ".") with [46%N]. rewrite !replace_char, map_map.
  apply map_ext. intros x. unfold char_eqb.
  destruct (x =? 32)%N eqn:E1; cbn [orb]; [reflexivity|].
  destruct (x =? 46)%N; reflexivity.
Qed.

End LoaderFacts.

(** X17. The id [load_tdrs.process_tdr] gives a file is the text of its
    category, an underscore and the stem of its file name, with every space and
    every dot replaced by an underscore; it holds no space and no dot, and two
    stems that differ only in these characters get the same id. *)
Theorem load_process_tdr_id :
  forall (rt : Runtime) (lower : list N -> list N) (data : pyobj)
         (name parent_name stem : list N)
         (id text : list N) (metadata : list (list N * pyobj)),
    LoadTdrs.process_tdr lower data name parent_name stem
    = Ok (id, text, metadata) ->
    exists category,
      dict_get metadata (py "category") = Some category
      /\ id = map (fun x => if (x =? 32)%N || (x =? 46)%N then 95%N else x)
                (py_str category ++ py "_" ++ stem)
      /\ ~ In 32%N id /\ ~ In 46%N id.
Proof.
  intros rt lower data name parent_name stem id text metadata E.
  unfold LoadTdrs.process_tdr in E.
  destruct data as [| | | | | |d]; try discriminate.
  destruct (LoadTdrs.detect_tipo lower _ _) as [tipo|]; [|discriminate].
  cbn [bind] in E.
  destruct (create_tdr_text_any _ _) as [txt|]; [|discriminate].
  cbn [bind] in E.
  pose proof (f_equal (fun r => match r with
                                | Ok (i, _, _) => i
                                | Raise _ => []
                                end) E) as Ei.
  pose proof (f_equal (fun r => match r with
                                | Ok (_, _, m) => m
                                | Raise _ => []
                                end) E) as Em.
  cbv beta iota in Ei, Em. subst id metadata. clear E.
  exists (dict_get_default d (py "category") (PyStr parent_name)).
  split; [reflexivity|]. rewrite underscore_twice. split; [reflexivity|].
  split; intros H; apply in_map_iff in H; destruct H as (x & Hx & _).
  - destruct (x =? 32)%N eqn:E1; cbn [orb] in Hx; [discriminate|].
    destruct (x =? 46)%N; [discriminate|].
    apply N.eqb_neq in E1. exact (E1 Hx).
  - destruct (x =? 32)%N eqn:E1; cbn [orb] in Hx; [discriminate|].
    destruct (x =? 46)%N eqn:E2; [discriminate|].
    apply N.eqb_neq in E2. exact (E2 Hx).
Qed.

Lemma load_process_tdr_id_witness :
  exists id text metadata,
    @LoadTdrs.process_tdr Reference.runtime (fun s => s)
      (PyDict [ (py "filename", PyStr (py "tdr 12.pdf"));
                (py "category", PyStr (py "Consultoria de obra"));
                (py "fields", PyDict Examples.fields_a) ])
      (py "tdr 12.v2.json") (py "Servicio") (py "tdr 12.v2")
    = Ok (id, text, metadata)
    /\ ~ In 32%N id /\ ~ In 46%N id.
Proof.
  assert (E : exists r,
             @LoadTdrs.process_tdr Reference.runtime (fun s => s)
               (PyDict [ (py "filename", PyStr (py "tdr 12.pdf"));
                         (py "category", PyStr (py "Consultoria de obra"));
                         (py "fields", PyDict Examples.fields_a) ])
               (py "tdr 12.v2.json") (py "Servicio") (py "tdr 12.v2")
             = Ok r)
    by (eexists; vm_compute; reflexivity).
  destruct E as ([[id text] metadata] & E). exists id, text, metadata.
  split; [exact E|].
  destruct (@load_process_tdr_id Reference.runtime _ _ _ _ _ id text metadata
              E) as (category & _ & _ & H1 & H2).
  split; assumption.
Defined.

(** X18. What [load_tdrs.process_tdr] stores for a file comes back from a
    search: when the file name is a string and the fields are a mapping whose
    JSON text has at most 10000 characters and is read back by [json.loads],
    the record found with the stored metadata carries that file name, the
    type the loader detected and these fields. *)
Theorem load_process_tdr_round_trip :
  forall (rt : Runtime) (lower : list N -> list N)
         (d : list (list N * pyobj)) (name parent_name stem : list N)
         (fname : list N) (f : list (list N * pyobj))
         (id text : list N) (metadata : list (list N * pyobj)),
    dict_get_default d (py "filename") (PyStr name) = PyStr fname ->
    dict_get_default d (py "fields") (PyDict []) = PyDict f ->
    length (json_dumps (PyDict f)) <= 10000 ->
    json_loads (json_dumps (PyDict f)) = Some (PyDict f) ->
    LoadTdrs.process_tdr lower (PyDict d) name parent_name stem
    = Ok (id, text, metadata) ->
    exists tipo,
      LoadTdrs.detect_tipo lower (PyDict f)
        (dict_get_default d (py "category") (PyStr parent_name)) = Ok tipo
      /\ forall (results : QueryResult) (i : nat) (distance : Q)
                (id' : list N),
           metadata_at results i = Ok metadata ->
           distance_at results i = Ok distance ->
           (0 <= distance)%Q ->
           search_record results i id'
           = Ok {| tdr_id := id'; filename := fname; tipo := tipo;
                   similarity := fdiv 1 (fadd 1 distance); fields := f |}.
Proof.
  intros rt lower d name parent_name stem fname f id text metadata Hn Hf Hl
    Hj E.
  unfold LoadTdrs.process_tdr in E. rewrite Hn, Hf in E.
  destruct (LoadTdrs.detect_tipo lower _ _) as [tipo|] eqn:Et; [|discriminate].
  cbn [bind] in E.
  destruct (create_tdr_text_any _ _) as [txt|]; [|discriminate].
  cbn [bind] in E.
  pose proof (f_equal (fun r => match r with
                                | Ok (_, _, m) => m
                                | Raise _ => []
                                end) E) as E0.
  cbv beta iota in E0. subst metadata. clear E.
  exists tipo. split; [reflexivity|].
  intros results i distance id' Em Ed Hd.
  unfold search_record. rewrite Em, Ed. cbn [bind].
  rewrite (similarity_of_distance_ok Hd). cbn [bind].
  unfold parse_fields.
  rewrite (proj2 (proj2 (load_metadata_entries _ _ _ _))).
  assert (S : slice_to LoadTdrs.fields_json_limit (json_dumps (PyDict f))
              = json_dumps (PyDict f))
    by (unfold slice_to; apply firstn_all2; exact Hl).
  rewrite S, Hj. cbn [bind]. unfold dict_get_default at 1 3.
  rewrite (proj1 (load_metadata_entries _ _ _ _)).
  rewrite (proj1 (proj2 (load_metadata_entries _ _ _ _))).
  rewrite TdrTipo_of_value. cbn [bind]. reflexivity.
Qed.

Lemma load_process_tdr_round_trip_witness :
  exists id text metadata,
    @LoadTdrs.process_tdr Reference.runtime (fun s => s)
      (PyDict [ (py "filename", PyStr (py "tdr 12.pdf"));
                (py "category", PyStr (py "Consultoria de obra"));
                (py "fields", PyDict Examples.fields_a) ])
      (py "tdr 12.v2.json") (py "Servicio") (py "tdr 12.v2")
    = Ok (id, text, metadata)
    /\ @search_record Reference.runtime
         {| ids := [[id]]; metadatas := Some [[metadata]];
            distances := Some [[0%Q]] |} 0 id
       = Ok {| tdr_id := id; filename := py "tdr 12.pdf";
               tipo := CONSULTORIA_OBRA; similarity := 1%Q;
               fields := Examples.fields_a |}.
Proof.
  assert (E : exists r,
             @LoadTdrs.process_tdr Reference.runtime (fun s => s)
               (PyDict [ (py "filename", PyStr (py "tdr 12.pdf"));
                         (py "category", PyStr (py "Consultoria de obra"));
                         (py "fields", PyDict Examples.fields_a) ])
               (py "tdr 12.v2.json") (py "Servicio") (py "tdr 12.v2")
             = Ok r)
    by (eexists; vm_compute; reflexivity).
  destruct E as ([[id text] metadata] & E). exists id, text, metadata.
  split; [exact E|].
  assert (Hl : length (@json_dumps Reference.runtime
                         (PyDict Examples.fields_a)) <= 10000)
    by (apply Nat.leb_le; vm_compute; reflexivity).
  assert (Hj : @json_loads Reference.runtime
                 (@json_dumps Reference.runtime (PyDict Examples.fields_a))
               = Some (PyDict Examples.fields_a))
    by (vm_compute; reflexivity).
  destruct (@load_process_tdr_round_trip Reference.runtime (fun s => s)
              [ (py "filename", PyStr (py "tdr 12.pdf"));
                (py "category", PyStr (py "Consultoria de obra"));
                (py "fields", PyDict Examples.fields_a) ]
              (py "tdr 12.v2.json") (py "Servicio") (py "tdr 12.v2")
              (py "tdr 12.pdf") Examples.fields_a id text metadata
              eq_refl eq_refl Hl Hj E) as (tipo & Et & H).
  assert (T : tipo = CONSULTORIA_OBRA).
  { vm_compute in Et. congruence. }
  subst tipo.
  rewrite (H {| ids := [[id]]; metadatas := Some [[metadata]];
                distances := Some [[0%Q]] |} 0 0%Q id eq_refl eq_refl);
    [|discriminate].
  rewrite similarity_at_zero. reflexivity.
Defined.

Section ImportFacts.

Context {rt : Runtime}.

Lemma value_no_space (t : TdrTipo) : ~ In 32%N (value t).
Proof.
  destruct t; vm_compute; intros H;
    repeat (destruct H as [H|H]; [discriminate|]); exact H.
Qed.

Lemma value_inj (t u : TdrTipo) : value t = value u -> t = u.
Proof. destruct t, u; intros E; try reflexivity; vm_compute in E; discriminate. Qed.

(** The two tables of the loaders give a folder the same type. *)
Lemma tables_agree (category : list N) :
  LoadTdrs.table_get ImportTdrs.CATEGORY_TO_TIPO category
  = option_map value (LoadTdrs.table_get LoadTdrs.CATEGORY_TO_TIPO category).
Proof.
  unfold ImportTdrs.CATEGORY_TO_TIPO, LoadTdrs.CATEGORY_TO_TIPO.
  cbn [LoadTdrs.table_get].
  repeat match goal with
         | |- context [str_eqb ?a category] =>
           destruct (str_eqb a category) eqn:?; [|]
         end;
    try reflexivity;
    repeat match goal with
           | H : str_eqb _ category = true |- _ =>
             apply str_eqb_eq in H
           end;
    subst; discriminate.
Qed.

Lemma import_tipo_is_value (category : list N) :
  exists t,
    match LoadTdrs.table_get ImportTdrs.CATEGORY_TO_TIPO category with
    | Some s => s
    | None => py "SERVICIO"
    end = value t.
Proof.
  rewrite tables_agree.
  destruct (LoadTdrs.table_get LoadTdrs.CATEGORY_TO_TIPO category) as [t|];
    cbn [option_map]; [exists t|exists SERVICIO]; reflexivity.
Qed.

End ImportFacts.

(** X19. [import_tdrs.process_tdr] returns a record only for a file marked as
    successful that has fields; the record stores a type the search accepts
    and the JSON text of the fields cut to 50000 characters, and its id is
    that type, an underscore and the file name with its spaces replaced by
    underscores and [.pdf] removed, so it holds no space. *)
Theorem import_process_tdr_record :
  forall (rt : Runtime) (data : pyobj) (category : list N)
         (id : list N) (metadata : list (list N * pyobj)) (text : list N),
    ImportTdrs.process_tdr data category = Ok (Some (id, metadata, text)) ->
    exists d fname tipo s,
      data = PyDict d
      /\ truthy (dict_get_default d (py "success") (PyBool false)) = true
      /\ truthy (dict_get_default d (py "fields") (PyDict [])) = true
      /\ dict_get_default d (py "filename") (PyStr (py "unknown.pdf"))
         = PyStr fname
      /\ dict_get metadata (py "tipo") = Some (PyStr (value tipo))
      /\ id = value tipo ++ py "_"
                ++ replace (replace fname (py " ") (py "_")) (py ".pdf") []
      /\ ~ In 32%N id
      /\ dict_get metadata (py "fields_json") = Some (PyStr s)
      /\ s = firstn 50000
               (json_dumps (dict_get_default d (py "fields") (PyDict [])))
      /\ length s <= 50000
      /\ (length (json_dumps (dict_get_default d (py "fields") (PyDict [])))
          <= 50000 ->
          s = json_dumps (dict_get_default d (py "fields") (PyDict []))).
Proof.
  intros rt data category id metadata text E.
  unfold ImportTdrs.process_tdr in E.
  destruct data as [| | | | | |d]; try discriminate.
  destruct (truthy (dict_get_default d (py "success") (PyBool false))) eqn:Hs;
    cbn [negb] in E; [|discriminate].
  destruct (truthy (dict_get_default d (py "fields") (PyDict []))) eqn:Hf;
    cbn [negb] in E; [|discriminate].
  destruct (import_tipo_is_value category) as [tipo Ht]. rewrite Ht in E.
  destruct (create_tdr_text_any _ _) as [txt|]; [|discriminate].
  cbn [bind] in E.
  destruct (dict_get_default d (py "filename") (PyStr (py "unknown.pdf")))
    as [| | | |fname| |] eqn:Hn; try discriminate.
  pose proof (f_equal (fun r => match r with
                                | Ok (Some (i, _, _)) => i
                                | _ => []
                                end) E) as Ei.
  pose proof (f_equal (fun r => match r with
                                | Ok (Some (_, m, _)) => m
                                | _ => []
                                end) E) as Em.
  cbv beta iota in Ei, Em. subst id metadata. clear E.
  exists d, fname, tipo,
    (slice_to ImportTdrs.fields_json_limit
       (json_dumps (dict_get_default d (py "fields") (PyDict [])))).
  split; [reflexivity|]. split; [exact Hs|]. split; [exact Hf|].
  split; [exact Hn|].
  split; [exact (proj1 (proj2 (import_metadata_entries _ _ _ _ _)))|].
  split; [reflexivity|]. split.
  - intros H. apply in_app_or in H. destruct H as [H|H].
    + exact (@value_no_space tipo H).
    + apply in_app_or in H. destruct H as [H|H].
      * vm_compute in H. destruct H as [H|[]]. discriminate.
      * apply replace_In in H. destruct H as [H|[]].
        change (py " ") with [32%N] in H. change (py "_") with [95%N] in H.
        apply replace_char_absent in H; [exact H|discriminate].
  - split; [exact (proj2 (proj2 (import_metadata_entries _ _ _ _ _)))|].
    split; [reflexivity|]. split; [apply slice_to_length|].
    intros Hl. unfold slice_to. apply firstn_all2. exact Hl.
Qed.

Lemma import_process_tdr_record_witness :
  exists id metadata text,
    @ImportTdrs.process_tdr Reference.runtime
      (PyDict [ (py "success", PyBool true);
                (py "filename", PyStr (py "tdr 12.pdf"));
                (py "fields", PyDict Examples.fields_a) ])
      (py "Servicio")
    = Ok (Some (id, metadata, text))
    /\ id = py "SERVICIO_tdr_12"
    /\ ~ In 32%N id
    /\ dict_get metadata (py "tipo") = Some (PyStr (py "SERVICIO"))
    /\ dict_get metadata (py "fields_json")
       = Some (PyStr (Reference.dumps (PyDict Examples.fields_a))).
Proof.
  assert (E : exists id metadata text,
             @ImportTdrs.process_tdr Reference.runtime
               (PyDict [ (py "success", PyBool true);
                         (py "filename", PyStr (py "tdr 12.pdf"));
                         (py "fields", PyDict Examples.fields_a) ])
               (py "Servicio")
             = Ok (Some (id, metadata, text))
             /\ id = py "SERVICIO_tdr_12"
             /\ dict_get metadata (py "tipo") = Some (PyStr (py "SERVICIO")))
    by (do 3 eexists; split; [|split]; vm_compute; reflexivity).
  destruct E as (id & metadata & text & E & I & T). exists id, metadata, text.
  split; [exact E|]. split; [exact I|].
  destruct (@import_process_tdr_record Reference.runtime _ _ id metadata text
              E)
    as (d & fname & tipo & s & Ed & _ & _ & _ & _ & _ & H & Hj & _ & _ & Hs).
  split; [exact H|]. split; [exact T|].
  pose proof (f_equal (fun v => match v with PyDict x => x | _ => [] end) Ed)
    as Ed'.
  cbv beta iota in Ed'. subst d. rewrite Hj. do 2 f_equal. apply Hs.
  apply Nat.leb_le. vm_compute. reflexivity.
Defined.

(** X20. The two loaders agree on the folders they know: for a category of
    the table, the type [import_tdrs.process_tdr] stores is the value of the
    type [load_tdrs.detect_tipo] returns, whatever the fields. *)
Theorem loaders_agree_on_known_categories :
  forall (rt : Runtime) (lower : list N -> list N) (fields data : pyobj)
         (category : list N) (t : TdrTipo)
         (id : list N) (metadata : list (list N * pyobj)) (text : list N),
    LoadTdrs.table_get LoadTdrs.CATEGORY_TO_TIPO category <> None ->
    LoadTdrs.detect_tipo lower fields (PyStr category) = Ok t ->
    ImportTdrs.process_tdr data category = Ok (Some (id, metadata, text)) ->
    dict_get metadata (py "tipo") = Some (PyStr (value t)).
Proof.
  intros rt lower fields data category t id metadata text Hk Hd E.
  unfold LoadTdrs.detect_tipo in Hd.
  destruct (LoadTdrs.table_get LoadTdrs.CATEGORY_TO_TIPO category) as [t'|]
    eqn:Ht; [|contradiction].
  assert (t' = t) by congruence. subst t'.
  unfold ImportTdrs.process_tdr in E.
  destruct data as [| | | | | |d]; try discriminate.
  destruct (truthy (dict_get_default d (py "success") (PyBool false)));
    cbn [negb] in E; [|discriminate].
  destruct (truthy (dict_get_default d (py "fields") (PyDict [])));
    cbn [negb] in E; [|discriminate].
  rewrite tables_agree, Ht in E. cbn [option_map] in E.
  destruct (create_tdr_text_any _ _) as [txt|]; [|discriminate].
  cbn [bind] in E.
  destruct (dict_get_default d (py "filename") (PyStr (py "unknown.pdf")))
    as [| | | |fname| |]; try discriminate.
  pose proof (f_equal (fun r => match r with
                                | Ok (Some (_, m, _)) => m
                                | _ => []
                                end) E) as Em.
  cbv beta iota in Em. subst metadata.
  exact (proj1 (proj2 (import_metadata_entries _ _ _ _ _))).
Qed.

Lemma loaders_agree_on_known_categories_witness :
  exists id metadata text,
    @ImportTdrs.process_tdr Reference.runtime
      (PyDict [ (py "success", PyBool true);
                (py "filename", PyStr (py "tdr 12.pdf"));
                (py "fields", PyDict Examples.fields_a) ])
      (py "Consultoria de obra")
    = Ok (Some (id, metadata, text))
    /\ dict_get metadata (py "tipo") = Some (PyStr (py "CONSULTORIA_OBRA")).
Proof.
  assert (E : exists r,
             @ImportTdrs.process_tdr Reference.runtime
               (PyDict [ (py "success", PyBool true);
                         (py "filename", PyStr (py "tdr 12.pdf"));
                         (py "fields", PyDict Examples.fields_a) ])
               (py "Consultoria de obra")
             = Ok (Some r))
    by (eexists; vm_compute; reflexivity).
  destruct E as ([[id metadata] text] & E). exists id, metadata, text.
  split; [exact E|].
  apply (@loaders_agree_on_known_categories Reference.runtime (fun s => s)
           (PyDict Examples.fields_a)
           (PyDict [ (py "success", PyBool true);
                     (py "filename", PyStr (py "tdr 12.pdf"));
                     (py "fields", PyDict Examples.fields_a) ])
           (py "Consultoria de obra") CONSULTORIA_OBRA id metadata text).
  - vm_compute. discriminate.
  - vm_compute. reflexivity.
  - exact E.
Defined.

(* ================================================================== *)
(** * The import in batches *)

Section BatchFacts.

Import ImportTdrs.

Lemma firstn_plus {A} (a b : nat) (l : list A) :
  firstn (a + b) l = firstn a l ++ firstn b (skipn a l).
Proof.
  revert l. induction a as [|a IH]; intros l; [reflexivity|].
  destruct l as [|x l]; cbn [Nat.add firstn skipn app].
  - rewrite firstn_nil. reflexivity.
  - rewrite IH. reflexivity.
Qed.

Lemma slice_chunk {A} (k b : nat) (l : list A) :
  slice (k * b) (k * b + b) l = firstn b (skipn (k * b) l).
Proof. unfold slice. f_equal. lia. Qed.

(** The chunks of a list, put together again. *)
Lemma chunks_concat {A} (b m : nat) (l : list A) :
  concat (map (fun i => slice i (i + b) l) (map (fun k => k * b) (seq 0 m)))
  = firstn (m * b) l.
Proof.
  induction m as [|m IH]; [reflexivity|].
  rewrite seq_S, !map_app, concat_app, IH. cbn [Nat.add map concat].
  rewrite app_nil_r, slice_chunk.
  replace (S m * b) with (m * b + b) by lia.
  rewrite firstn_plus. reflexivity.
Qed.

Lemma batches_cover (n : nat) :
  n <= (n + batch_size - 1) / batch_size * batch_size.
Proof.
  assert (P : 0 < batch_size) by (unfold batch_size; lia).
  pose proof (Nat.div_mod_eq (n + batch_size - 1) batch_size) as E.
  pose proof (Nat.mod_upper_bound (n + batch_size - 1) batch_size) as U.
  rewrite (Nat.mul_comm _ batch_size). lia.
Qed.

Lemma offsets_concat {A} (l : list A) :
  concat (map (fun i => slice i (i + batch_size) l) (offsets (length l))) = l.
Proof.
  unfold offsets. rewrite chunks_concat. apply firstn_all2.
  apply batches_cover.
Qed.

Lemma fold_left_extend {A B} (h : B -> list A) (xs : list B) :
  forall init,
    fold_left (fun acc i => acc ++ h i) xs init = init ++ concat (map h xs).
Proof.
  induction xs as [|x xs IH]; intros init; cbn [fold_left map concat].
  - rewrite app_nil_r. reflexivity.
  - rewrite IH, app_assoc. reflexivity.
Qed.

Lemma slice_min {A} (i b n : nat) (l : list A) :
  length l = n -> slice i (Nat.min (i + b) n) l = slice i (i + b) l.
Proof.
  intros E. unfold slice.
  destruct (Nat.le_ge_cases (i + b) n) as [L|L].
  - rewrite Nat.min_l by exact L. reflexivity.
  - rewrite Nat.min_r by exact L.
    rewrite !firstn_all2; [reflexivity| |]; rewrite length_skipn; lia.
Qed.

Lemma length_slice {A} (i j : nat) (l : list A) :
  length (slice i j l) = Nat.min (j - i) (length l - i).
Proof. unfold slice. rewrite length_firstn, length_skipn. reflexivity. Qed.

(** The rows of a batch *)

Lemma rows_firstn (k : nat) :
  forall ids es ms ds,
    RefStore.rows (firstn k ids) (firstn k es) (firstn k ms) (firstn k ds)
    = firstn k (RefStore.rows ids es ms ds).
Proof.
  induction k as [|k IH]; intros ids es ms ds; [reflexivity|].
  destruct ids as [|i ids]; [reflexivity|].
  destruct es as [|e es]; [reflexivity|].
  destruct ms as [|m ms]; [reflexivity|].
  destruct ds as [|d ds]; [reflexivity|].
  cbn [firstn RefStore.rows]. rewrite IH. reflexivity.
Qed.

Lemma rows_skipn (k : nat) :
  forall ids es ms ds,
    length es = length ids -> length ms = length ids ->
    length ds = length ids ->
    RefStore.rows (skipn k ids) (skipn k es) (skipn k ms) (skipn k ds)
    = skipn k (RefStore.rows ids es ms ds).
Proof.
  induction k as [|k IH]; intros ids es ms ds H1 H2 H3; [reflexivity|].
  destruct ids as [|i ids], es as [|e es], ms as [|m ms], ds as [|d ds];
    try discriminate; [reflexivity|].
  cbn [skipn RefStore.rows]. apply IH.
  - injection H1 as H1. exact H1.
  - injection H2 as H2. exact H2.
  - injection H3 as H3. exact H3.
Qed.

Lemma rows_slice (i j : nat) ids es ms ds :
  length es = length ids -> length ms = length ids ->
  length ds = length ids ->
  RefStore.rows (slice i j ids) (slice i j es) (slice i j ms) (slice i j ds)
  = slice i j (RefStore.rows ids es ms ds).
Proof.
  intros H1 H2 H3. unfold slice. rewrite rows_firstn, rows_skipn by assumption.
  reflexivity.
Qed.

Lemma rows_length ids :
  forall es ms ds,
    length es = length ids -> length ms = length ids ->
    length ds = length ids ->
    length (RefStore.rows ids es ms ds) = length ids.
Proof.
  induction ids as [|i ids IH]; intros es ms ds H1 H2 H3; [reflexivity|].
  destruct es as [|e es], ms as [|m ms], ds as [|d ds]; try discriminate.
  cbn [RefStore.rows length]. f_equal. apply IH.
  - injection H1 as H1. exact H1.
  - injection H2 as H2. exact H2.
  - injection H3 as H3. exact H3.
Qed.

Section InsertLoop.

Variable Collection : Type.
Variable collection_add :
  list (list N) -> list (list Q) -> list (list (list N * pyobj)) ->
  list (list N) -> Collection -> result unit * Collection.
Variable stored : Collection -> list RefStore.Row.

Hypothesis collection_appends :
  forall ids es ms ds c,
    length es = length ids -> length ms = length ids ->
    length ds = length ids ->
    exists c',
      collection_add ids es ms ds c = (Ok tt, c')
      /\ stored c' = stored c ++ RefStore.rows ids es ms ds.

Lemma insert_loop_stores ids es ms ds :
  length es = length ids -> length ms = length ids ->
  length ds = length ids ->
  forall starts c,
    exists c',
      insert_loop collection_add starts ids es ms ds c = (Ok tt, c')
      /\ stored c'
         = stored c
           ++ concat (map (fun i =>
                             slice i (i + batch_size)
                               (RefStore.rows ids es ms ds)) starts).
Proof.
  intros H1 H2 H3. induction starts as [|i rest IH]; intros c.
  - exists c. split; [reflexivity|]. cbn [map concat].
    rewrite app_nil_r. reflexivity.
  - cbn [insert_loop]. unfold add_tdrs_batch.
    set (end_ := Nat.min (i + batch_size) (length ids)).
    destruct (collection_appends (slice i end_ ids) (slice i end_ es)
                (slice i end_ ms) (slice i end_ ds) c) as (c1 & E1 & S1).
    + rewrite !length_slice, H1. reflexivity.
    + rewrite !length_slice, H2. reflexivity.
    + rewrite !length_slice, H3. reflexivity.
    + rewrite E1. destruct (IH c1) as (c' & E' & S').
      exists c'. split; [exact E'|]. rewrite S', S1.
      rewrite rows_slice by assumption. unfold end_.
      rewrite slice_min by (apply rows_length; assumption).
      cbn [map concat]. rewrite app_assoc. reflexivity.
Qed.

End InsertLoop.

End BatchFacts.

(** X21. Embedding in batches of 50 is embedding all at once: when the batch
    encoder treats its texts one by one, the embeddings collected over the
    batches are those of the documents, one per document and in order. *)
Theorem embed_in_batches_pointwise :
  forall (get_embeddings_batch : list (list N) -> list (list Q))
         (get_embedding : list N -> list Q),
    (forall texts, get_embeddings_batch texts = map get_embedding texts) ->
    forall documents,
      ImportTdrs.embed_in_batches get_embeddings_batch documents
      = map get_embedding documents.
Proof.
  intros g f Hg documents. unfold ImportTdrs.embed_in_batches.
  rewrite fold_left_extend. cbn [app].
  rewrite (map_ext _ (fun i => map f (slice i (i + ImportTdrs.batch_size)
                                        documents)))
    by (intros i; apply Hg).
  rewrite <- (map_map (fun i => slice i (i + ImportTdrs.batch_size) documents)
                (map f)).
  rewrite <- concat_map, offsets_concat. reflexivity.
Qed.

Lemma embed_in_batches_pointwise_witness :
  ImportTdrs.embed_in_batches (map Examples.get_embedding)
    (repeat (py "Tipo: SERVICIO") 120)
  = map Examples.get_embedding (repeat (py "Tipo: SERVICIO") 120).
Proof.
  apply (@embed_in_batches_pointwise (map Examples.get_embedding)
           Examples.get_embedding).
  intros texts. reflexivity.
Defined.

(** X22. The insertion in batches of 50 stores every record once and in
    order: on a collection that appends what it is given, and on four
    sequences of one length, the loop succeeds and the collection ends with
    its former rows followed by one row per record. *)
Theorem insert_in_batches_stores_all :
  forall (Collection : Type)
         (collection_add :
            list (list N) -> list (list Q) -> list (list (list N * pyobj)) ->
            list (list N) -> Collection -> result unit * Collection)
         (stored : Collection -> list RefStore.Row),
    (forall ids es ms ds c,
        length es = length ids -> length ms = length ids ->
        length ds = length ids ->
        exists c',
          collection_add ids es ms ds c = (Ok tt, c')
          /\ stored c' = stored c ++ RefStore.rows ids es ms ds) ->
    forall ids embeddings metadatas documents c,
      length embeddings = length ids -> length metadatas = length ids ->
      length documents = length ids ->
      exists c',
        ImportTdrs.insert_in_batches collection_add ids embeddings metadatas
          documents c = (Ok tt, c')
        /\ stored c'
           = stored c ++ RefStore.rows ids embeddings metadatas documents.
Proof.
  intros Collection collection_add stored Happ ids es ms ds c H1 H2 H3.
  unfold ImportTdrs.insert_in_batches.
  destruct (@insert_loop_stores Collection collection_add stored Happ ids es
              ms ds H1 H2 H3 (ImportTdrs.offsets (length ids)) c)
    as (c' & E & S).
  exists c'. split; [exact E|]. rewrite S. f_equal.
  rewrite <- (rows_length ids es ms ds H1 H2 H3) at 1.
  apply offsets_concat.
Qed.

Lemma insert_in_batches_stores_all_witness :
  exists c',
    ImportTdrs.insert_in_batches RefStore.add
      (repeat (py "SERVICIO_tdr") 120) (repeat [1; 0]%Q 120)
      (repeat [(py "tipo", PyStr (py "SERVICIO"))] 120)
      (repeat (py "Tipo: SERVICIO") 120) Examples.collection
    = (Ok tt, c')
    /\ c' = Examples.collection
            ++ RefStore.rows (repeat (py "SERVICIO_tdr") 120)
                 (repeat [1; 0]%Q 120)
                 (repeat [(py "tipo", PyStr (py "SERVICIO"))] 120)
                 (repeat (py "Tipo: SERVICIO") 120).
Proof.
  apply (@insert_in_batches_stores_all RefStore.Collection RefStore.add
           (fun c => c)).
  - intros ids es ms ds c H1 H2 H3. unfold RefStore.add, RefStore.same_length.
    rewrite H1, H2, H3, !Nat.eqb_refl. eexists. split; reflexivity.
  - rewrite !repeat_length. reflexivity.
  - rewrite !repeat_length. reflexivity.
  - rewrite !repeat_length. reflexivity.
Defined.

(* ================================================================== *)
(** * The parser and the white space around a reply *)

Section OuterSpace.

Context {rt : Runtime}.

Lemma blank_app (w1 w2 : list N) : blank w1 -> blank w2 -> blank (w1 ++ w2).
Proof. intros B1 B2. apply Forall_app. split; assumption. Qed.

Lemma strip_outer (w1 w2 s : list N) :
  blank w1 -> blank w2 -> strip (w1 ++ s ++ w2) = strip s.
Proof.
  intros B1 B2. unfold strip. rewrite (lstrip_blank (s ++ w2) B1).
  destruct (lstrip_decomp s) as (w & B & E).
  pose proof (lstrip_head_solid s) as Hs.
  destruct (lstrip s) as [|c t] eqn:L.
  - rewrite app_nil_r in E. subst w.
    pose proof (@lstrip_blank (s ++ w2) [] (blank_app B B2)) as E'.
    rewrite app_nil_r in E'. rewrite E'. reflexivity.
  - cbn [head_solid] in Hs.
    assert (E2 : lstrip (s ++ w2) = (c :: t) ++ w2).
    { rewrite E at 1. rewrite <- app_assoc.
      rewrite (lstrip_blank ((c :: t) ++ w2) B).
      cbn [app]. apply lstrip_head. exact Hs. }
    rewrite E2. apply rstrip_blank. exact B2.
Qed.

Lemma strip_fences_outer (w1 w2 s : list N) :
  blank w1 -> blank w2 -> strip_fences (w1 ++ s ++ w2) = strip_fences s.
Proof.
  intros B1 B2. unfold strip_fences. rewrite (strip_outer s B1 B2).
  reflexivity.
Qed.

End OuterSpace.

(** X23. White space around the reply of the generator does not matter: the
    parser returns for a reply between two runs of white space what it returns
    for the reply itself. *)
Theorem parse_json_response_ignores_outer_space :
  forall (rt : Runtime) (w1 w2 content : list N),
    blank w1 -> blank w2 ->
    _parse_json_response (w1 ++ content ++ w2) = _parse_json_response content.
Proof.
  intros rt w1 w2 content B1 B2. unfold _parse_json_response.
  rewrite (@strip_fences_outer w1 w2 content B1 B2). reflexivity.
Qed.

Lemma parse_json_response_ignores_outer_space_witness :
  @_parse_json_response Reference.runtime
    ([10; 32]%N ++ py "{}" ++ [32; 10]%N)
  = @_parse_json_response Reference.runtime (py "{}").
Proof.
  apply parse_json_response_ignores_outer_space;
    repeat constructor.
Defined.

(* ================================================================== *)
(** * The distance without a similarity *)

(** X25. The similarity is undefined at one binary64 distance only: at the
    distance [-1] the division [1.0 / (1.0 + d)] raises [ZeroDivisionError],
    and at every other binary64 distance it returns the rounded quotient. *)
Theorem similarity_of_distance_raises_iff :
  forall d : Q,
    is_binary64 d ->
    (similarity_of_distance d = Raise ZeroDivisionError <-> (d == -1)%Q)
    /\ (~ (d == -1)%Q ->
        similarity_of_distance d = Ok (fdiv 1 (fadd 1 d))).
Proof.
  intros d R. pose proof (fadd_one_zero_iff R) as Z.
  unfold similarity_of_distance, truediv.
  destruct (Qeq_bool (fadd 1 d) 0) eqn:B.
  - apply Qeq_bool_iff in B. apply Z in B. split.
    + split; [intros _; exact B|reflexivity].
    + intros N. contradiction.
  - apply Qeq_bool_neq in B. split.
    + split; [discriminate|]. intros E. exfalso. apply B, Z, E.
    + reflexivity.
Qed.

Lemma similarity_of_distance_raises_iff_witness :
  similarity_of_distance (-1) = Raise ZeroDivisionError
  /\ similarity_of_distance (- (1 # 2)) = Ok 2%Q.
Proof.
  assert (R1 : is_binary64 (-1)) by (vm_compute; reflexivity).
  assert (R2 : is_binary64 (- (1 # 2))) by (vm_compute; reflexivity).
  split.
  - apply (proj1 (@similarity_of_distance_raises_iff (-1) R1)). reflexivity.
  - rewrite (proj2 (@similarity_of_distance_raises_iff (- (1 # 2)) R2)).
    + vm_compute. reflexivity.
    + vm_compute. discriminate.
Defined.
